(** * Flow builders of atomate2: equation of state and Grueneisen parameters

    A shallow embedding of [CommonEosMaker.make]
    (src/atomate2/common/flows/eos.py), [BaseGruneisenMaker.make]
    (src/atomate2/common/flows/gruneisen.py) and the validator
    [Settings.load_default_settings] (src/atomate2/settings.py), and the
    properties of what they build.

    Layout:
    - [Numeric]: the arithmetic the EOS builder asks of numpy, written once
      over an interface and run in exact rationals and in binary64;
    - [Jobflow]: jobs, flows, symbolic outputs, the store of Maker objects
      and of the dictionaries they refer to, and the construction monad
      (state and exceptions);
    - [Gruneisen], [Eos]: the two builders, statement by statement;
    - [Settings]: the validator that loads the configuration file;
    - [Examples]: concrete Makers and configurations;
    - [Properties], [MoreProperties]: the vocabulary the theorems are
      stated in;
    - [JobflowFacts], [GruneisenFacts], [EosFacts], [StrainFacts],
      [MoreFacts], [MoreEosFacts], [MoreStrainFacts], [SettingsFacts]:
      lemmas;
    - the theorems, one group per builder, then further theorems on the
      builders, the strain samples and the settings loader.

    What is taken from outside the three files: a Maker's [make] and a
    post-processor's [make] are arbitrary total functions that build new
    jobs or flows with symbolic outputs (they raise nothing and return no
    object twice); a job keeps the content the Maker's
    [write_additional_data] had when it was made (jobflow copies the Maker
    into the job); jobflow's [Flow(...)] is a plain constructor; the [@job]
    functions [apply_strain_to_structure], [shrink_expand_structure] and
    [compute_gruneisen_param] return a new job that records their
    arguments; the file system the validator sees is a function from paths
    to what [Path.exists] and [loadfn] find there. *)

From Stdlib Require Import String List ZArith QArith Qabs Lia Lqa Bool.
From Stdlib Require Import Floats DecimalString.
Import ListNotations.
Set Warnings "-register-all,-inexact-float".
Close Scope Q_scope.
Open Scope string_scope.
Open Scope list_scope.

(* ===================================================================== *)
(** ** Numbers *)
(* ===================================================================== *)

Module Numeric.

(** The operations the builders perform on Python/numpy floats.  The code is
    written once over this interface; [exact_num] runs it in exact rational
    arithmetic (with numpy's [nan]), [binary64_num] in IEEE 754 binary64,
    the format of Python's [float] and numpy's [float64]. *)
Class Num (num : Type) : Type := {
  of_int : Z -> num;            (* float(i) of a Python int *)
  fnan : num;                   (* numpy.nan *)
  tol : num;                    (* the literal 1e-15 *)
  fadd : num -> num -> num;
  fsub : num -> num -> num;
  fmul : num -> num -> num;
  fdiv : num -> num -> num;
  fabs : num -> num;
  fltb : num -> num -> bool;    (* x < y *)
  feqb : num -> num -> bool     (* x == y *)
}.

(** Exact arithmetic: a rational, or nan. *)
Inductive exact : Type :=
| Fin (q : Q)
| NaN.

Definition exact_lift2 (f : Q -> Q -> Q) (x y : exact) : exact :=
  match x, y with
  | Fin p, Fin q => Fin (f p q)
  | _, _ => NaN
  end.

Definition exact_div (x y : exact) : exact :=
  match x, y with
  | Fin p, Fin q => if Qeq_bool q 0 then NaN else Fin (p / q)
  | _, _ => NaN
  end.

Definition exact_abs (x : exact) : exact :=
  match x with
  | Fin p => Fin (Qabs p)
  | NaN => NaN
  end.

(** Comparisons with nan are false, as in IEEE 754. *)
Definition exact_ltb (x y : exact) : bool :=
  match x, y with
  | Fin p, Fin q => negb (Qle_bool q p)
  | _, _ => false
  end.

Definition exact_eqb (x y : exact) : bool :=
  match x, y with
  | Fin p, Fin q => Qeq_bool p q
  | _, _ => false
  end.

#[export] Instance exact_num : Num exact := {
  of_int z := Fin (inject_Z z);
  fnan := NaN;
  tol := Fin (1 # 1000000000000000);
  fadd := exact_lift2 Qplus;
  fsub := exact_lift2 Qminus;
  fmul := exact_lift2 Qmult;
  fdiv := exact_div;
  fabs := exact_abs;
  fltb := exact_ltb;
  feqb := exact_eqb
}.

(** Binary64.  [float_of_int] is exact for |z| < 2^53, far beyond any frame
    count. *)
Definition float_of_int (z : Z) : float :=
  if (z <? 0)%Z
  then PrimFloat.opp (PrimFloat.of_uint63 (Uint63.of_Z (- z)))
  else PrimFloat.of_uint63 (Uint63.of_Z z).

#[export] Instance binary64_num : Num float := {
  of_int := float_of_int;
  fnan := PrimFloat.nan;
  tol := 0x1.203af9ee75616p-50%float;   (* the binary64 nearest to 1e-15 *)
  fadd := PrimFloat.add;
  fsub := PrimFloat.sub;
  fmul := PrimFloat.mul;
  fdiv := PrimFloat.div;
  fabs := PrimFloat.abs;
  fltb := PrimFloat.ltb;
  feqb := PrimFloat.eqb
}.

Section Linspace.
Context {num : Type} `{Num num}.

(** [y[-1] = v] *)
Definition set_last (l : list num) (v : num) : list num :=
  match l with
  | [] => []
  | _ :: _ => removelast l ++ [v]
  end.

(** [numpy.arange(0, n)] as floats. *)
Definition arange (n : nat) : list num :=
  map (fun i => of_int (Z.of_nat i)) (seq 0 n).

(** [numpy.linspace(start, stop, n, retstep=True)] for n >= 0 (endpoint
    included): the samples and the step.  The step of fewer than two samples
    is nan; a step that compares equal to zero takes numpy's second route
    ([y / div * delta]). *)
Definition linspace (start stop : num) (n : nat) : list num * num :=
  let div := (Z.of_nat n - 1)%Z in
  let delta := fsub stop start in
  let y := arange n in
  let '(y, step) :=
    if (0 <? div)%Z then
      let step := fdiv delta (of_int div) in
      if feqb step (of_int 0)
      then (map (fun v => fmul (fdiv v (of_int div)) delta) y, step)
      else (map (fun v => fmul v step) y, step)
    else (map (fun v => fmul v delta) y, fnan) in
  let y := map (fun v => fadd v start) y in
  let y := if (1 <? Z.of_nat n)%Z then set_last y stop else y in
  (y, step).

(** [numpy.abs(x) < 1e-15] *)
Definition zero_strain (x : num) : bool := fltb (fabs x) tol.

(** [strain_l[mask] += shift]: the k-th masked entry receives [shift[k]]. *)
Fixpoint masked_add (strain_l shift : list num) : list num :=
  match strain_l with
  | [] => []
  | x :: rest =>
      if zero_strain x then
        match shift with
        | s :: shift' => fadd x s :: masked_add rest shift'
        | [] => x :: masked_add rest []
        end
      else x :: masked_add rest shift
  end.

(** Lines 133-137 of eos.py: move the samples that sit on zero. *)
Definition perturb_zero_strain (strain_l : list num) (strain_delta : num)
  : list num :=
  let zero_strain_mask := map zero_strain strain_l in
  if existsb (fun b => b) zero_strain_mask then
    let nzs := length (filter zero_strain strain_l) in
    let c := fdiv strain_delta (fadd (of_int (Z.of_nat nzs)) (of_int 1)) in
    let shift := map (fun t => fmul c t)
                     (fst (linspace (of_int (-1)) (of_int 1) nzs)) in
    masked_add strain_l shift
  else strain_l.

(** [(numpy.identity(3) * (1.0 + eps)).tolist()] *)
Definition identity3 : list (list num) :=
  [ [of_int 1; of_int 0; of_int 0];
    [of_int 0; of_int 1; of_int 0];
    [of_int 0; of_int 0; of_int 1] ].

Definition deformation (eps : num) : list (list num) :=
  map (map (fun e => fmul e (fadd (of_int 1) eps))) identity3.

End Linspace.

End Numeric.

(* ===================================================================== *)
(** ** Jobs, flows and the construction monad *)
(* ===================================================================== *)

Module Jobflow.
Import Numeric.

(** A symbolic output: the output of the job with a given uuid, or a
    projection of one (attribute, index or key).  Nothing is computed while
    a flow is built. *)
Inductive OutputRef : Type :=
| OutRef (uuid : nat)
| Attr (r : OutputRef) (a : string)
| Index (r : OutputRef) (i : nat)
| Key (r : OutputRef) (k : string).

Section Values.
Variable num : Type.

(** Python values that travel through the builders.  Dictionaries keep
    insertion order, so they are association lists. *)
Inductive Value : Type :=
| VNone
| VInt (z : Z)
| VNum (x : num)
| VStr (s : string)
| VRef (r : OutputRef)
| VList (l : list Value)
| VDict (d : list (string * Value)).

Definition Dict : Type := list (string * Value).

Fixpoint dict_get (d : Dict) (k : string) : option Value :=
  match d with
  | [] => None
  | (k', v) :: d' => if String.eqb k' k then Some v else dict_get d' k
  end.

(** [d[k] = v]: in place when the key exists, at the end otherwise. *)
Fixpoint dict_set (d : Dict) (k : string) (v : Value) : Dict :=
  match d with
  | [] => [(k, v)]
  | (k', v') :: d' =>
      if String.eqb k' k then (k', v) :: d' else (k', v') :: dict_set d' k v
  end.

(** [d.update(k1=v1, ...)] *)
Definition dict_update (d upd : Dict) : Dict :=
  fold_left (fun acc kv => dict_set acc (fst kv) (snd kv)) upd d.

Definition dict_has (d : Dict) (k : string) : bool :=
  match dict_get d k with Some _ => true | None => false end.

(** A job: what the [@job] decorator returns when the decorated function or
    Maker method is called. *)
Record Job : Type := {
  job_name : string;
  job_uuid : nat;
  function : string;
  function_args : list Value;
  function_kwargs : Dict
}.

(** What a Maker returns: a job, or a flow of jobs and flows with a symbolic
    output of its own. *)
Inductive Node : Type :=
| JobN (j : Job)
| FlowN (name : string) (uuid : nat) (jobs : list Node) (output : OutputRef).

(** The flow a builder returns; its output is any value over references. *)
Record Flow : Type := {
  flow_name : string;
  flow_jobs : list Node;
  flow_output : Value
}.

(** [node.output] *)
Definition node_output (n : Node) : OutputRef :=
  match n with
  | JobN j => OutRef (job_uuid j)
  | FlowN _ _ _ o => o
  end.

Definition node_name (n : Node) : string :=
  match n with
  | JobN j => job_name j
  | FlowN nm _ _ _ => nm
  end.

Definition rename_job (j : Job) (nm : string) : Job :=
  {| job_name := nm; job_uuid := job_uuid j; function := function j;
     function_args := function_args j; function_kwargs := function_kwargs j |}.

(** [node.name = nm] *)
Definition set_name (nm : string) (n : Node) : Node :=
  match n with
  | JobN j => JobN (rename_job j nm)
  | FlowN _ u js o => FlowN nm u js o
  end.

(** [node.name += s] *)
Definition add_to_name (s : string) (n : Node) : Node :=
  set_name (node_name n ++ s)%string n.

(** [node.append_name(s)]: a flow passes the suffix on to all it contains. *)
Fixpoint append_name (s : string) (n : Node) : Node :=
  match n with
  | JobN j => JobN (rename_job j (job_name j ++ s)%string)
  | FlowN nm u js o => FlowN (nm ++ s)%string u (map (append_name s) js) o
  end.

(** The guarded decoration of eos.py (lines 98-103 and 162-167):
    [try: if len(x.jobs) > 1: for job in x.jobs: job.append_name(s)
     except AttributeError: pass].  A job has no [jobs]; the error is
    swallowed. *)
Definition decorate (s : string) (n : Node) : Node :=
  match n with
  | JobN _ => n
  | FlowN nm u js o =>
      if (1 <? length js)%nat then FlowN nm u (map (append_name s) js) o
      else n
  end.

(** Exceptions that end a [make]. *)
Inductive Exc : Type :=
| ValueError (msg : string)
| AttributeError (attr : string)
| IndexError
| KeyError (key : string)
| TypeError (msg : string)
| UnboundLocalError (var : string).

(** Maker objects and dictionary objects live in a store and are named by
    address: two fields that hold the same Maker hold the same address, and
    two Makers whose [write_additional_data] is the same dictionary object
    (a Maker made from another with [dataclasses.replace], or one dictionary
    passed to two constructors) hold the same dictionary address. *)
Definition addr : Type := nat.
Definition daddr : Type := nat.

(** A Maker object.  Its attribute [write_additional_data] is a reference to
    a dictionary object, or [None] for a Maker that has no such attribute.
    Its [make] method is external code: given the content of that
    dictionary at the moment of the call, a structure, a previous directory
    and the next free uuid it builds a job or flow and says which uuid is
    free next. *)
Record MakerObj : Type := {
  write_additional_data : option daddr;
  maker_make : option Dict -> Value -> Value -> nat -> Node * nat
}.

Record State : Type := {
  next_uuid : nat;
  heap : addr -> MakerObj;
  dicts : daddr -> Dict
}.

(** [heap[a].write_additional_data] as the Maker at [a] reads it now. *)
Definition additional_data (st : State) (a : addr) : option Dict :=
  option_map (dicts st) (write_additional_data (heap st a)).

(** Construction monad: an exception or a value, and the state either way
    (what was mutated before a raise stays mutated). *)
Definition M (A : Type) : Type := State -> (Exc + A) * State.

Definition ret {A} (a : A) : M A := fun st => (inr a, st).

Definition bind {A B} (m : M A) (k : A -> M B) : M B :=
  fun st =>
    match m st with
    | (inl e, st') => (inl e, st')
    | (inr a, st') => k a st'
    end.

Definition raise {A} (e : Exc) : M A := fun st => (inl e, st).

Definition lift {A} (r : Exc + A) : M A := fun st => (r, st).

(** [maker.make(structure, prev_dir)] for the Maker at address [a]. *)
Definition call_maker (a : addr) (structure prev_dir : Value) : M Node :=
  fun st =>
    let m := heap st a in
    let '(n, u) := maker_make m (additional_data st a) structure prev_dir
                              (next_uuid st) in
    (inr n, {| next_uuid := u; heap := heap st; dicts := dicts st |}).

(** Calling a [@job] function: a new job named after the function. *)
Definition new_job (f : string) (args : list Value) (kwargs : Dict) : M Job :=
  fun st =>
    (inr {| job_name := f; job_uuid := next_uuid st; function := f;
            function_args := args; function_kwargs := kwargs |},
     {| next_uuid := S (next_uuid st); heap := heap st;
        dicts := dicts st |}).

(** [heap[a].write_additional_data[k] = v] under
    [contextlib.suppress(Exception)]: an item assignment into the dictionary
    object the attribute refers to, seen by every Maker that refers to the
    same object; nothing happens when the Maker has no such attribute. *)
Definition store_additional_data (a : addr) (k : string) (v : Value) : M unit :=
  fun st =>
    match write_additional_data (heap st a) with
    | None => (inr tt, st)
    | Some da =>
        (inr tt,
         {| next_uuid := next_uuid st;
            heap := heap st;
            dicts := fun b => if Nat.eqb b da
                              then dict_set (dicts st da) k v
                              else dicts st b |})
    end.

(** [for x in xs: acc = body(acc, x)] *)
Fixpoint for_each {A B} (xs : list A) (body : B -> A -> M B) (acc : B) : M B :=
  match xs with
  | [] => ret acc
  | x :: xs' => bind (body acc x) (for_each xs' body)
  end.

End Values.

Arguments VNone {num}.
Arguments VInt {num} z.
Arguments VNum {num} x.
Arguments VStr {num} s.
Arguments VRef {num} r.
Arguments VList {num} l.
Arguments VDict {num} d.
Arguments dict_get {num} d k.
Arguments dict_set {num} d k v.
Arguments dict_update {num} d upd.
Arguments dict_has {num} d k.
Arguments JobN {num} j.
Arguments FlowN {num} name uuid jobs output.
Arguments job_name {num} j.
Arguments job_uuid {num} j.
Arguments function {num} j.
Arguments function_args {num} j.
Arguments function_kwargs {num} j.
Arguments flow_name {num} f.
Arguments flow_jobs {num} f.
Arguments flow_output {num} f.
Arguments node_output {num} n.
Arguments node_name {num} n.
Arguments rename_job {num} j nm.
Arguments set_name {num} nm n.
Arguments add_to_name {num} s n.
Arguments append_name {num} s n.
Arguments decorate {num} s n.
Arguments write_additional_data {num} m.
Arguments maker_make {num} m.
Arguments next_uuid {num} s.
Arguments heap {num} s.
Arguments dicts {num} s.
Arguments additional_data {num} st a.
Arguments ret {num A} a.
Arguments bind {num A B} m k.
Arguments raise {num A} e.
Arguments lift {num A} r.
Arguments call_maker {num} a structure prev_dir.
Arguments new_job {num} f args kwargs.
Arguments store_additional_data {num} a k v.
Arguments for_each {num A B} xs body acc.

Declare Scope build_scope.
Delimit Scope build_scope with build.
Notation "x <- m ;; k" := (bind m (fun x => k))
  (at level 61, m at next level, right associativity) : build_scope.
Notation "' pat <- m ;; k" :=
  (bind m (fun x => match x with pat => k end))
  (at level 61, pat pattern, m at next level, right associativity)
  : build_scope.
Notation "m ;;; k" := (bind m (fun _ => k))
  (at level 61, right associativity) : build_scope.

(** Decimal rendering of an index, as an f-string does. *)
Definition str_of_nat (n : nat) : string :=
  NilEmpty.string_of_uint (Nat.to_uint n).

Definition str_of_Z (z : Z) : string :=
  NilEmpty.string_of_int (Z.to_int z).

End Jobflow.

(* ===================================================================== *)
(** ** The Grueneisen flow builder (gruneisen.py) *)
(* ===================================================================== *)

Module Gruneisen.
Import Numeric Jobflow.
Local Open Scope build_scope.

Section Builder.
Context {num : Type} `{Num num}.

(** The dataclass fields.  [bulk_relax_maker] is the one Maker annotated as
    optional; the other two are Makers by their annotations. *)
Record BaseGruneisenMaker : Type := {
  name : string;
  bulk_relax_maker : option addr;
  code : Value num;
  const_vol_relax_maker : addr;
  kpath_scheme : string;
  phonon_maker : addr;
  perc_vol : num;
  mesh : Value num;
  compute_gruneisen_param_kwargs : Dict num;
  symprec : num
}.

(** [dict.fromkeys(keys, None)] *)
Definition fromkeys (keys : list string) : Dict num :=
  map (fun k => (k, VNone)) keys.

(** The keyword arguments of lines 149-153 for branch [st]. *)
Definition filename_overrides (st : string) : Dict num :=
  [ ("filename_phonopy_yaml", VStr (st ++ "_phonopy.yaml"));
    ("filename_band_yaml", VStr (st ++ "_phonon_band_structure.yaml"));
    ("filename_dos_yaml", VStr (st ++ "_phonon_dos.yaml"));
    ("filename_bs", VStr (st ++ "_phonon_band_structure.pdf"));
    ("filename_dos", VStr (st ++ "_phonon_dos.pdf")) ]%string.

(** [x.function_kwargs.update] with the keywords [upd]: only a job has
    [function_kwargs]. *)
Definition update_kwargs (upd : Dict num) (n : Node num) : Exc + Node num :=
  match n with
  | JobN j =>
      inr (JobN {| job_name := job_name j; job_uuid := job_uuid j;
                   function := function j;
                   function_args := function_args j;
                   function_kwargs := dict_update (function_kwargs j) upd |})
  | FlowN _ _ _ _ => inl (AttributeError "function_kwargs")
  end.

(** [js[-1] = f(js[-1])]; an empty sequence has no last element. *)
Fixpoint on_last (f : Node num -> Exc + Node num) (js : list (Node num))
  : Exc + list (Node num) :=
  match js with
  | [] => inl IndexError
  | x :: rest =>
      match rest with
      | [] => match f x with inl e => inl e | inr y => inr [y] end
      | _ :: _ =>
          match on_last f rest with
          | inl e => inl e
          | inr r => inr (x :: r)
          end
      end
  end.

(** [phonon_job.jobs[-1].function_kwargs.update(...)], lines 148-154: no
    guard and no handler around it. *)
Definition override_filenames (st : string) (phonon_job : Node num)
  : Exc + Node num :=
  match phonon_job with
  | JobN _ => inl (AttributeError "jobs")
  | FlowN nm u js o =>
      match on_last (update_kwargs (filename_overrides st)) js with
      | inl e => inl e
      | inr js' => inr (FlowN nm u js' o)
      end
  end.

(** One turn of the loop of lines 140-158; [entry] is [(st, opt_struct[st])]. *)
Definition phonon_body (self : BaseGruneisenMaker)
    (acc : list (Node num) * Dict num * Dict num)
    (entry : string * Value num)
  : M num (list (Node num) * Dict num * Dict num) :=
  let '(jobs, phonon_yaml_dirs, phonon_imaginary_modes) := acc in
  let '(st, structure) := entry in
  phonon_job <- call_maker (phonon_maker self) structure VNone ;;
  phonon_job <- lift (override_filenames st phonon_job) ;;
  let jobs := jobs ++ [phonon_job] in
  let out := node_output phonon_job in
  ret (jobs,
       dict_set phonon_yaml_dirs st
         (VRef (Attr (Attr out "jobdirs") "taskdoc_run_job_dir")),
       dict_set phonon_imaginary_modes st
         (VRef (Attr out "has_imaginary_modes"))).

(** The keywords [compute_gruneisen_param] is called with by name. *)
Definition explicit_keywords (self : BaseGruneisenMaker)
    (phonon_yaml_dirs phonon_imaginary_modes : Dict num) (ground : Value num)
  : Dict num :=
  [ ("code", code self);
    ("kpath_scheme", VStr (kpath_scheme self));
    ("mesh", mesh self);
    ("phonopy_yaml_paths_dict", VDict phonon_yaml_dirs);
    ("structure", ground);
    ("symprec", VNum (symprec self));
    ("phonon_imaginary_modes_info", VDict phonon_imaginary_modes) ].

(** A call with keywords by name followed by an unpacked dictionary: a
    keyword given twice is a TypeError at the call. *)
Definition merge_keywords (explicit extra : Dict num) : Exc + Dict num :=
  match find (fun kv => dict_has explicit (fst kv)) extra with
  | Some (k, _) => inl (TypeError k)
  | None => inr (explicit ++ extra)
  end.

(** [opt_struct[k]] for a key known to be there. *)
Definition item (d : Dict num) (k : string) : Value num :=
  match dict_get d k with Some v => v | None => VNone end.

(** [BaseGruneisenMaker.make].  The local [bulk] is bound only on the branch
    that runs the bulk relaxation; reading it unbound raises
    UnboundLocalError.  The Makers are called with a structure only, so
    their [prev_dir] is the default, None. *)
Definition make (self : BaseGruneisenMaker) (structure : Value num)
  : M num (Flow num) :=
  let jobs : list (Node num) := [] in
  let opt_struct := fromkeys ["ground"; "plus"; "minus"] in
  '(bulk, jobs, opt_struct) <-
    match bulk_relax_maker self with
    | Some m =>
        bulk <- call_maker m structure VNone ;;
        ret (Some bulk, jobs ++ [bulk],
             dict_set opt_struct "ground"
               (VRef (Attr (node_output bulk) "structure")))
    | None => ret (None, jobs, dict_set opt_struct "ground" structure)
    end ;;
  bulk <- match bulk with
          | Some b => ret b
          | None => raise (UnboundLocalError "bulk")
          end ;;
  struct_dict <- new_job "shrink_expand_structure" []
                   [ ("structure", VRef (Attr (node_output bulk) "structure"));
                     ("perc_vol", VNum (perc_vol self)) ] ;;
  let jobs := jobs ++ [JobN struct_dict] in
  let sd_out := OutRef (job_uuid struct_dict) in
  const_vol_struct_plus <-
    call_maker (const_vol_relax_maker self) (VRef (Key sd_out "plus")) VNone ;;
  let jobs := jobs ++ [const_vol_struct_plus] in
  let opt_struct :=
    dict_set opt_struct "plus"
      (VRef (Attr (node_output const_vol_struct_plus) "structure")) in
  const_vol_struct_minus <-
    call_maker (const_vol_relax_maker self) (VRef (Key sd_out "minus")) VNone ;;
  let jobs := jobs ++ [const_vol_struct_minus] in
  let opt_struct :=
    dict_set opt_struct "minus"
      (VRef (Attr (node_output const_vol_struct_minus) "structure")) in
  let phonon_yaml_dirs := fromkeys ["ground"; "plus"; "minus"] in
  let phonon_imaginary_modes := fromkeys ["ground"; "plus"; "minus"] in
  '(jobs, phonon_yaml_dirs, phonon_imaginary_modes) <-
    for_each opt_struct (phonon_body self)
             (jobs, phonon_yaml_dirs, phonon_imaginary_modes) ;;
  kwargs <- lift (merge_keywords
                    (explicit_keywords self phonon_yaml_dirs
                       phonon_imaginary_modes (item opt_struct "ground"))
                    (compute_gruneisen_param_kwargs self)) ;;
  get_gru <- new_job "compute_gruneisen_param" [] kwargs ;;
  let jobs := jobs ++ [JobN get_gru] in
  ret {| flow_name := "Flow"; flow_jobs := jobs;
         flow_output := VRef (OutRef (job_uuid get_gru)) |}.

(** [phonon_job.jobs[-1]] when it exists and is a job (so that it has
    [function_kwargs]). *)
Definition terminal_job (n : Node num) : option (Job num) :=
  match n with
  | JobN _ => None
  | FlowN _ _ js _ =>
      match last js (FlowN "" 0 [] (OutRef 0)) with
      | JobN j => match js with [] => None | _ :: _ => Some j end
      | FlowN _ _ _ _ => None
      end
  end.

End Builder.

Arguments BaseGruneisenMaker : clear implicits.

End Gruneisen.

(* ===================================================================== *)
(** ** The equation-of-state flow builder (eos.py) *)
(* ===================================================================== *)

Module Eos.
Import Numeric Jobflow.
Local Open Scope build_scope.

Section Builder.
Context {num : Type} `{Num num}.

(** The post-processor capability: its class name, the least number of data
    points it fits, and its [make], which is external code. *)
Record EOSPostProcessor : Type := {
  class_name : string;
  min_data_points : Z;
  postprocess : Value num -> nat -> Node num * nat
}.

(** The dataclass fields.  [initial_relax_maker], [static_maker] and
    [postprocessor] may be None; [eos_relax_maker] is a Maker. *)
Record CommonEosMaker : Type := {
  name : string;
  initial_relax_maker : option addr;
  eos_relax_maker : addr;
  static_maker : option addr;
  linear_strain : num * num;
  number_of_frames : Z;
  postprocessor : option EOSPostProcessor;
  _store_transformation_information : bool
}.

(** The local [jobs]: a dictionary with the three keys "relax", "static" and
    "utility", created in that order. *)
Record JobTable : Type := {
  relax : list (Node num);
  static : list (Node num);
  utility : list (Node num)
}.

Definition append_relax (jobs : JobTable) (n : Node num) : JobTable :=
  {| relax := relax jobs ++ [n]; static := static jobs;
     utility := utility jobs |}.

Definition append_static (jobs : JobTable) (n : Node num) : JobTable :=
  {| relax := relax jobs; static := static jobs ++ [n];
     utility := utility jobs |}.

Definition append_utility (jobs : JobTable) (n : Node num) : JobTable :=
  {| relax := relax jobs; static := static jobs;
     utility := utility jobs ++ [n] |}.

(** [jobs[key]] *)
Definition jobs_of (jobs : JobTable) (key : string) : Exc + list (Node num) :=
  if String.eqb key "relax" then inr (relax jobs)
  else if String.eqb key "static" then inr (static jobs)
  else if String.eqb key "utility" then inr (utility jobs)
  else inl (KeyError key).

(** [jobs.values()] *)
Definition jobs_values (jobs : JobTable) : list (list (Node num)) :=
  [relax jobs; static jobs; utility jobs].

Definition job_types (self : CommonEosMaker) : list string :=
  match static_maker self with
  | Some _ => ["relax"; "static"]
  | None => ["relax"]
  end.

Definition quantities : list string :=
  ["energy"; "volume"; "stress"; "structure"; "dir_name"].

(** Lines 83-89. *)
Definition init_flow_output (self : CommonEosMaker) : Dict num :=
  map (fun key => (key, VDict (map (fun quantity => (quantity, VList []))
                                   quantities)))
      (job_types self).

(** The [{"E0": ..., "V0": ...}] entry of an equilibrium calculation. *)
Definition equilibrium_entry (out : OutputRef) : Value num :=
  VDict [ ("E0", VRef (Attr (Attr out "output") "energy"));
          ("V0", VRef (Attr (Attr out "structure") "volume")) ].

(** Lines 91-121: the optional relaxation of the input structure and the
    static calculation on the relaxed structure. *)
Definition equilibrium (self : CommonEosMaker) (structure prev_dir : Value num)
    (jobs : JobTable) (flow_output : Dict num)
  : M num (Value num * Value num * JobTable * Dict num) :=
  match initial_relax_maker self with
  | None => ret (structure, prev_dir, jobs, flow_output)
  | Some irm =>
      relax_flow <- call_maker irm structure prev_dir ;;
      let relax_flow := set_name "EOS equilibrium relaxation" relax_flow in
      let relax_flow := decorate " EOS equilibrium relaxation" relax_flow in
      let out := node_output relax_flow in
      let flow_output :=
        dict_set flow_output "initial_relax" (equilibrium_entry out) in
      let structure := VRef (Attr out "structure") in
      let prev_dir := VRef (Attr out "dir_name") in
      let jobs := append_relax jobs relax_flow in
      match static_maker self with
      | None => ret (structure, prev_dir, jobs, flow_output)
      | Some sm =>
          equil_static <- call_maker sm structure prev_dir ;;
          let equil_static := set_name "EOS equilibrium static" equil_static in
          let flow_output :=
            dict_set flow_output "initial_static"
              (equilibrium_entry (node_output equil_static)) in
          ret (structure, prev_dir, append_static jobs equil_static,
               flow_output)
      end
  end.

(** [numpy.linspace] checks the count first. *)
Definition np_linspace (start stop : num) (n : Z) : Exc + (list num * num) :=
  if (n <? 0)%Z
  then inl (ValueError ("Number of samples, " ++ str_of_Z n
                        ++ ", must be non-negative.")%string)
  else inr (linspace start stop (Z.to_nat n)).

(** Lines 123-137: the strain of each frame. *)
Definition strain_samples (self : CommonEosMaker) : Exc + list num :=
  match np_linspace (fst (linear_strain self)) (snd (linear_strain self))
                    (number_of_frames self) with
  | inl e => inl e
  | inr (strain_l, strain_delta) =>
      inr (match initial_relax_maker self with
           | Some _ => perturb_zero_strain strain_l strain_delta
           | None => strain_l
           end)
  end.

(** A list of 3x3 matrices as a Python value (nested lists of floats). *)
Definition matrix_value (m : list (list num)) : Value num :=
  VList (map (fun row => VList (map VNum row)) m).

Definition deformation_value (ms : list (list (list num))) : Value num :=
  VList (map matrix_value ms).

(** [transformations.output[frame_idx]] *)
Definition transformation (transformations : Job num) (frame_idx : nat)
  : OutputRef :=
  Index (OutRef (job_uuid transformations)) frame_idx.

(** One turn of the loop of lines 145-176. *)
Definition frame_body (self : CommonEosMaker) (transformations : Job num)
    (prev_dir : Value num) (jobs : JobTable) (frame_idx : nat)
  : M num JobTable :=
  (if _store_transformation_information self
   then store_additional_data (eos_relax_maker self) "transformations:json"
          (VRef (transformation transformations frame_idx))
   else ret tt) ;;;
  relax_job <- call_maker (eos_relax_maker self)
                 (VRef (Attr (transformation transformations frame_idx)
                             "final_structure"))
                 prev_dir ;;
  let suffix := (" deformation " ++ str_of_nat frame_idx)%string in
  let relax_job := add_to_name suffix relax_job in
  let relax_job := decorate suffix relax_job in
  let jobs := append_relax jobs relax_job in
  match static_maker self with
  | None => ret jobs
  | Some sm =>
      static_job <- call_maker sm
                      (VRef (Attr (node_output relax_job) "structure"))
                      (VRef (Attr (node_output relax_job) "dir_name")) ;;
      let static_job :=
        add_to_name (" " ++ str_of_nat frame_idx)%string static_job in
      ret (append_static jobs static_job)
  end.

(** [flow_output[key][quantity] += [v]] *)
Definition extend (flow_output : Dict num) (key quantity : string)
    (v : Value num) : Exc + Dict num :=
  match dict_get flow_output key with
  | None => inl (KeyError key)
  | Some (VDict q) =>
      match dict_get q quantity with
      | None => inl (KeyError quantity)
      | Some (VList l) =>
          inr (dict_set flow_output key
                 (VDict (dict_set q quantity (VList (l ++ [v])))))
      | Some _ => inl (TypeError quantity)
      end
  | Some _ => inl (TypeError key)
  end.

(** Lines 180-186 for one job. *)
Definition collect_body (key : string) (flow_output : Dict num)
    (job : Node num) : M num (Dict num) :=
  let output := Attr (node_output job) "output" in
  let dir_name := Attr (node_output job) "dir_name" in
  fo <- lift (extend flow_output key "energy" (VRef (Attr output "energy"))) ;;
  fo <- lift (extend fo key "volume"
                     (VRef (Attr (Attr output "structure") "volume"))) ;;
  fo <- lift (extend fo key "stress" (VRef (Attr output "stress"))) ;;
  fo <- lift (extend fo key "structure" (VRef (Attr output "structure"))) ;;
  lift (extend fo key "dir_name" (VRef dir_name)).

(** Lines 178-186. *)
Definition collect (self : CommonEosMaker) (jobs : JobTable)
    (flow_output : Dict num) : M num (Dict num) :=
  for_each (job_types self)
    (fun fo key => js <- lift (jobs_of jobs key) ;;
                   for_each js (collect_body key) fo)
    flow_output.

(** Lines 78-186: every job but the post-processing, and the aggregated
    output. *)
Definition aggregate (self : CommonEosMaker) (structure prev_dir : Value num)
  : M num (JobTable * Dict num) :=
  let jobs := {| relax := []; static := []; utility := [] |} in
  let flow_output := init_flow_output self in
  '(structure, prev_dir, jobs, flow_output) <-
     equilibrium self structure prev_dir jobs flow_output ;;
  strain_l <- lift (strain_samples self) ;;
  let deformation_l := map deformation strain_l in
  transformations <- new_job "apply_strain_to_structure"
                       [structure; deformation_value deformation_l] [] ;;
  let jobs := append_utility jobs (JobN transformations) in
  jobs <- for_each (seq 0 (Z.to_nat (number_of_frames self)))
            (frame_body self transformations prev_dir) jobs ;;
  flow_output <- collect self jobs flow_output ;;
  ret (jobs, flow_output).

Definition too_few_frames_message (pp : EOSPostProcessor) : string :=
  ("To perform least squares EOS fit with " ++ class_name pp
   ++ ", you must specify self.number_of_frames >= "
   ++ str_of_Z (min_data_points pp) ++ ".")%string.

(** [postprocessor.make(flow_output)] *)
Definition call_postprocessor (pp : EOSPostProcessor) (v : Value num)
  : M num (Node num) :=
  fun st =>
    let '(n, u) := postprocess pp v (next_uuid st) in
    (inr n, {| next_uuid := u; heap := heap st; dicts := dicts st |}).

(** Lines 188-206: the optional fit, and the flow. *)
Definition finish (self : CommonEosMaker) (jobs : JobTable)
    (flow_output : Dict num) : M num (Flow num) :=
  '(flow_output, jobs) <-
     match postprocessor self with
     | None => ret (VDict flow_output, jobs)
     | Some pp =>
         let min_points := min_data_points pp in
         if (Z.of_nat (length (relax jobs)) <? min_points)%Z
         then raise (ValueError (too_few_frames_message pp))
         else
           post_process <- call_postprocessor pp (VDict flow_output) ;;
           let post_process :=
             set_name (name self ++ " postprocessing")%string post_process in
           ret (VRef (node_output post_process),
                append_utility jobs post_process)
     end ;;
  let job_list := fold_left (fun acc val => acc ++ val) (jobs_values jobs) [] in
  ret {| flow_name := name self; flow_jobs := job_list;
         flow_output := flow_output |}.

(** [CommonEosMaker.make] *)
Definition make (self : CommonEosMaker) (structure prev_dir : Value num)
  : M num (Flow num) :=
  '(jobs, flow_output) <- aggregate self structure prev_dir ;;
  finish self jobs flow_output.

End Builder.

Arguments EOSPostProcessor : clear implicits.
Arguments CommonEosMaker : clear implicits.
Arguments JobTable : clear implicits.

End Eos.

(* ===================================================================== *)
(** ** The settings loader (settings.py) *)
(* ===================================================================== *)

Module Settings.
Import Numeric Jobflow.

Section Loader.
Context {num : Type}.

(** What the validator can find at a path: nothing, a file that [loadfn]
    fails on (it raises), or a file that loads to a mapping. *)
Inductive FileState : Type :=
| Missing
| Unreadable (e : Exc)
| Loads (d : Dict num).

Definition FileSystem : Type := string -> FileState.

(** [Settings.load_default_settings] (lines 112-131), the root validator
    that runs before the fields are validated.  [DEFAULT_CONFIG_FILE_PATH]
    is the module constant, [~/.atomate.json] made absolute.  [Path(x)] of a
    value that is not a string is a TypeError (the wording of its message
    varies with the Python version; its first words are kept). *)
Definition load_default_settings (DEFAULT_CONFIG_FILE_PATH : string)
    (fs : FileSystem) (values : Dict num) : Exc + Dict num :=
  let config_file_path :=
    match dict_get values "CONFIG_FILE" with
    | Some v => v
    | None => VStr DEFAULT_CONFIG_FILE_PATH
    end in
  let new_values : Dict num := [] in
  match config_file_path with
  | VStr path =>
      match fs path with
      | Missing => inr new_values
      | Unreadable e => inl e
      | Loads d => inr (dict_update new_values d)
      end
  | _ => inl (TypeError "expected str, bytes or os.PathLike object")
  end.

End Loader.

Arguments FileState : clear implicits.
Arguments FileSystem : clear implicits.

End Settings.
(* ===================================================================== *)
(** ** Concrete Makers and configurations *)
(* ===================================================================== *)

Module Examples.
Import Numeric Jobflow.

Section Configs.
Context {num : Type} `{Num num}.

(** A Maker whose [make] is a single job; the job records the content of
    the Maker's [write_additional_data] at the moment of the call.  The
    attribute refers to the dictionary at [da]. *)
Definition job_maker (tag : string) (da : daddr) : MakerObj num :=
  {| write_additional_data := Some da;
     maker_make := fun wad structure prev_dir u =>
       (JobN {| job_name := tag; job_uuid := u; function := tag;
                function_args := [structure; prev_dir];
                function_kwargs := match wad with Some d => d | None => [] end |},
        S u) |}.

(** A phonon Maker: a flow of two jobs whose last one computes the
    frequencies. *)
Definition phonon_flow_maker : MakerObj num :=
  {| write_additional_data := None;
     maker_make := fun _ structure _ u =>
       (FlowN "phonon" u
          [ JobN {| job_name := "generate_phonon_displacements";
                    job_uuid := S u;
                    function := "generate_phonon_displacements";
                    function_args := [structure]; function_kwargs := [] |};
            JobN {| job_name := "generate_frequencies_eigenvectors";
                    job_uuid := S (S u);
                    function := "generate_frequencies_eigenvectors";
                    function_args := [VRef (OutRef (S u))];
                    function_kwargs := [] |} ]
          (OutRef (S (S u))),
        S (S (S u))) |}.

(** A store: a relaxation Maker at 0, a static Maker at 1, a phonon Maker at
    2, and a Maker that answers with a bare job at every other address.
    Each Maker with a [write_additional_data] has a dictionary of its own,
    empty at the start. *)
Definition makers (a : addr) : MakerObj num :=
  match a with
  | 0%nat => job_maker "relax" 0
  | 1%nat => job_maker "static" 1
  | 2%nat => phonon_flow_maker
  | _ => job_maker "phonon" 3
  end.

Definition start : State num :=
  {| next_uuid := 0; heap := makers; dicts := fun _ => [] |}.

(** The same store, but the static Maker was made from the relaxation Maker
    with [dataclasses.replace]: both refer to the one dictionary at 0. *)
Definition makers_sharing (a : addr) : MakerObj num :=
  match a with
  | 0%nat => job_maker "relax" 0
  | 1%nat => job_maker "static" 0
  | 2%nat => phonon_flow_maker
  | _ => job_maker "phonon" 3
  end.

Definition start_sharing : State num :=
  {| next_uuid := 0; heap := makers_sharing; dicts := fun _ => [] |}.

Definition silicon : Value num := VStr "Si".

(** An energy fit that needs at least [k] points. *)
Definition energy_fit (k : Z) : Eos.EOSPostProcessor num :=
  {| Eos.class_name := "PostProcessEosEnergy";
     Eos.min_data_points := k;
     Eos.postprocess := fun flow_output u =>
       (JobN {| job_name := "PostProcessEosEnergy"; job_uuid := u;
                function := "PostProcessEosEnergy.make";
                function_args := [flow_output]; function_kwargs := [] |},
        S u) |}.

Definition eos_maker (initial static : option addr) (lo hi : num)
    (frames : Z) (fit : option (Eos.EOSPostProcessor num)) (store : bool)
  : Eos.CommonEosMaker num :=
  {| Eos.name := "EOS Maker";
     Eos.initial_relax_maker := initial;
     Eos.eos_relax_maker := 0%nat;
     Eos.static_maker := static;
     Eos.linear_strain := (lo, hi);
     Eos.number_of_frames := frames;
     Eos.postprocessor := fit;
     Eos._store_transformation_information := store |}.

Definition gruneisen_maker (bulk : option addr) (phonon : addr) (pv sp : num)
  : Gruneisen.BaseGruneisenMaker num :=
  {| Gruneisen.name := "Gruneisen";
     Gruneisen.bulk_relax_maker := bulk;
     Gruneisen.code := VStr "vasp";
     Gruneisen.const_vol_relax_maker := 0%nat;
     Gruneisen.kpath_scheme := "seekpath";
     Gruneisen.phonon_maker := phonon;
     Gruneisen.perc_vol := pv;
     Gruneisen.mesh := VList [VInt 20; VInt 20; VInt 20];
     Gruneisen.compute_gruneisen_param_kwargs := [];
     Gruneisen.symprec := sp |}.

End Configs.

(** The default strain range in exact arithmetic and in binary64. *)
Definition lo_exact : exact := Fin (-5 # 100).
Definition hi_exact : exact := Fin (5 # 100).
Definition lo_float : float := (-0.05)%float.
Definition hi_float : float := 0.05%float.

End Examples.

(* ===================================================================== *)
(** ** The vocabulary of the properties *)
(* ===================================================================== *)

Module Properties.
Import Numeric Jobflow Eos.

Section Generic.
Context {num : Type} `{Num num}.

(** *** Makers and their jobs *)

(** What the builder guarantees of a job or flow: it came out of the Maker
    at address [a], called on [structure]. *)
Definition made_by (st : State num) (a : addr) (structure prev_dir : Value num)
    (n : Node num) : Prop :=
  exists wad u, n = fst (maker_make (heap st a) wad structure prev_dir u).

(** A phonon run of branch [branch]: the phonon Maker's flow for
    [structure], with the file names of its last job overridden. *)
Definition phonon_run (st : State num) (self : Gruneisen.BaseGruneisenMaker num)
    (branch : string) (structure : Value num) (n : Node num) : Prop :=
  exists raw j,
    made_by st (Gruneisen.phonon_maker self) structure VNone raw /\
    Gruneisen.override_filenames branch raw = inr n /\
    Gruneisen.terminal_job n = Some j /\
    Forall (fun kv => dict_get (function_kwargs j) (fst kv) = Some (snd kv))
           (Gruneisen.filename_overrides branch).

(** The keys of the five file names a phonon run writes. *)
Definition filename_keys : list string :=
  [ "filename_phonopy_yaml"; "filename_band_yaml"; "filename_dos_yaml";
    "filename_bs"; "filename_dos" ].

(** The phonon flow [n] ends in a job whose five file names start with
    [prefix]: the phonopy file, the band structure and the density of
    states as yaml, and the two plots. *)
Definition carries_prefix (prefix : string) (n : Node num) : Prop :=
  exists nm u js j o,
    n = FlowN nm u (js ++ [JobN j]) o /\
    dict_get (function_kwargs j) "filename_phonopy_yaml"
    = Some (VStr (prefix ++ "phonopy.yaml")) /\
    dict_get (function_kwargs j) "filename_band_yaml"
    = Some (VStr (prefix ++ "phonon_band_structure.yaml")) /\
    dict_get (function_kwargs j) "filename_dos_yaml"
    = Some (VStr (prefix ++ "phonon_dos.yaml")) /\
    dict_get (function_kwargs j) "filename_bs"
    = Some (VStr (prefix ++ "phonon_band_structure.pdf")) /\
    dict_get (function_kwargs j) "filename_dos"
    = Some (VStr (prefix ++ "phonon_dos.pdf")).

(** The five file names of the last job of a flow, as far as they are set
    to strings. *)
Definition file_names (n : Node num) : list (option string) :=
  match n with
  | FlowN _ _ js _ =>
      match last js (FlowN "" 0 [] (OutRef 0)) with
      | JobN j =>
          map (fun k => match dict_get (function_kwargs j) k with
                        | Some (VStr s) => Some s
                        | _ => None
                        end)
              filename_keys
      | FlowN _ _ _ _ => []
      end
  | JobN _ => []
  end.

(** The keywords [compute_gruneisen_param] receives by name. *)
Definition keyword_names : list string :=
  [ "code"; "kpath_scheme"; "mesh"; "phonopy_yaml_paths_dict"; "structure";
    "symprec"; "phonon_imaginary_modes_info" ].

(** *** The output of the EOS flow *)

(** The references collected from one job (lines 180-186 of eos.py). *)
Definition energy_ref (j : Node num) : Value num :=
  VRef (Attr (Attr (node_output j) "output") "energy").
Definition volume_ref (j : Node num) : Value num :=
  VRef (Attr (Attr (Attr (node_output j) "output") "structure") "volume").
Definition stress_ref (j : Node num) : Value num :=
  VRef (Attr (Attr (node_output j) "output") "stress").
Definition structure_ref (j : Node num) : Value num :=
  VRef (Attr (Attr (node_output j) "output") "structure").
Definition dir_name_ref (j : Node num) : Value num :=
  VRef (Attr (node_output j) "dir_name").

(** The five parallel sequences collected from the jobs [js], in order. *)
Definition quantity_table (js : list (Node num)) : Value num :=
  VDict [ ("energy", VList (map energy_ref js));
          ("volume", VList (map volume_ref js));
          ("stress", VList (map stress_ref js));
          ("structure", VList (map structure_ref js));
          ("dir_name", VList (map dir_name_ref js)) ].

(** *** What [CommonEosMaker.make] does to the Makers *)

(** The Maker objects are the same in both states: no attribute of a Maker
    was rebound, so each Maker has the code it had and refers to the
    dictionary object it referred to. *)
Definition same_makers (st0 st : State num) : Prop := heap st = heap st0.

(** Every dictionary object is as it was, save the one the
    [eos_relax_maker] refers to when transformations are stored. *)
Definition makers_preserved (self : CommonEosMaker num) (st st' : State num)
  : Prop :=
  forall da,
    _store_transformation_information self = false \/
    write_additional_data (heap st (eos_relax_maker self)) <> Some da ->
    dicts st' da = dicts st da.

(** Whatever [make] writes into a dictionary goes under the key
    "transformations:json": every other key of every dictionary keeps its
    value. *)
Definition data_kept (st st' : State num) : Prop :=
  forall da k,
    k <> "transformations:json" ->
    dict_get (dicts st' da) k = dict_get (dicts st da) k.

(** *** The jobs of the EOS flow *)

(** The relaxation of frame [i]: the job or flow [eos_relax_maker] makes for
    the i-th transformed structure, named for its frame. *)
Definition frame_relax (st0 : State num) (self : CommonEosMaker num)
    (t : Job num) (prev_dir : Value num) (i : nat) (r : Node num) : Prop :=
  exists raw,
    made_by st0 (eos_relax_maker self)
      (VRef (Attr (transformation t i) "final_structure")) prev_dir raw /\
    r = decorate (" deformation " ++ str_of_nat i)
          (add_to_name (" deformation " ++ str_of_nat i) raw).

(** The static calculation of frame [i]: made by the static Maker for the
    output of that frame's relaxation [r]. *)
Definition frame_static (st0 : State num) (sm : addr) (ir : nat * Node num)
    (s : Node num) : Prop :=
  exists raw,
    made_by st0 sm (VRef (Attr (node_output (snd ir)) "structure"))
            (VRef (Attr (node_output (snd ir)) "dir_name")) raw /\
    s = add_to_name (" " ++ str_of_nat (fst ir)) raw.

(** The static jobs of the frames [idxs] with relaxations [rs]. *)
Definition frame_statics (st0 : State num) (self : CommonEosMaker num)
    (idxs : list nat) (rs ss : list (Node num)) : Prop :=
  match static_maker self with
  | Some sm => Forall2 (frame_static st0 sm) (combine idxs rs) ss
  | None => ss = []
  end.

(** The equilibrium jobs: none without an initial relaxation Maker; else the
    relaxation of the input structure and, with a static Maker, the static
    calculation on its output.  [structure'] and [prev_dir'] are what the
    frames start from. *)
Definition equilibrium_jobs (st : State num) (self : CommonEosMaker num)
    (structure prev_dir : Value num) (eq_relax eq_static : list (Node num))
    (structure' prev_dir' : Value num) : Prop :=
  match initial_relax_maker self with
  | None =>
      eq_relax = [] /\ eq_static = [] /\
      structure' = structure /\ prev_dir' = prev_dir
  | Some irm =>
      exists raw r0,
        made_by st irm structure prev_dir raw /\
        r0 = decorate " EOS equilibrium relaxation"
               (set_name "EOS equilibrium relaxation" raw) /\
        eq_relax = [r0] /\
        structure' = VRef (Attr (node_output r0) "structure") /\
        prev_dir' = VRef (Attr (node_output r0) "dir_name") /\
        match static_maker self with
        | None => eq_static = []
        | Some sm =>
            exists raws,
              made_by st sm structure' prev_dir' raws /\
              eq_static = [set_name "EOS equilibrium static" raws]
        end
  end.

(** The aggregated output: the tables of the job types, then the
    equilibrium entries. *)
Definition aggregated_output (self : CommonEosMaker num)
    (rel stat eq_relax eq_static : list (Node num)) : Dict num :=
  ("relax", quantity_table rel)
  :: match static_maker self with
     | Some _ => [("static", quantity_table stat)]
     | None => []
     end
  ++ map (fun r => ("initial_relax", equilibrium_entry (node_output r)))
         eq_relax
  ++ map (fun s => ("initial_static", equilibrium_entry (node_output s)))
         eq_static.

(** What [aggregate] returns for a frame count that is not negative. *)
Definition aggregation (self : CommonEosMaker num)
    (structure prev_dir : Value num) (st : State num)
    (jobs : JobTable num) (fo : Dict num) (st' : State num) : Prop :=
  exists eq_relax eq_static structure' prev_dir' strain_l t rs ss,
    jobs = {| relax := eq_relax ++ rs; static := eq_static ++ ss;
              utility := [JobN t] |} /\
    fo = aggregated_output self (eq_relax ++ rs) (eq_static ++ ss)
                           eq_relax eq_static /\
    equilibrium_jobs st self structure prev_dir eq_relax eq_static
                     structure' prev_dir' /\
    strain_samples self = inr strain_l /\
    length strain_l = Z.to_nat (number_of_frames self) /\
    function t = "apply_strain_to_structure" /\
    function_args t = [structure'; deformation_value (map deformation strain_l)] /\
    Forall2 (frame_relax st self t prev_dir')
            (seq 0 (Z.to_nat (number_of_frames self))) rs /\
    frame_statics st self (seq 0 (Z.to_nat (number_of_frames self))) rs ss /\
    same_makers st st' /\ makers_preserved self st st' /\ data_kept st st'.

(** One data point more when the equilibrium relaxation is part of the
    flow. *)
Definition equilibrium_points (self : CommonEosMaker num) : nat :=
  match initial_relax_maker self with Some _ => 1 | None => 0 end.

(** The number of relax jobs the check of line 190 counts. *)
Definition data_points (self : CommonEosMaker num) : Z :=
  (number_of_frames self + Z.of_nat (equilibrium_points self))%Z.

(** The post-processing job, when there is one. *)
Definition fit_of (self : CommonEosMaker num) (fo : Dict num) (st : State num)
  : list (Node num) :=
  match postprocessor self with
  | None => []
  | Some pp =>
      [set_name (name self ++ " postprocessing")
                (fst (postprocess pp (VDict fo) (next_uuid st)))]
  end.

(** The sequence stored under [key] and [quantity] of an output mapping. *)
Definition sequence_of (fo : Dict num) (key quantity : string)
  : option (list (Value num)) :=
  match dict_get fo key with
  | Some (VDict t) =>
      match dict_get t quantity with
      | Some (VList l) => Some l
      | _ => None
      end
  | _ => None
  end.

(** The shift of a lone zero sample: [strain_delta / 2] times the only
    point of [linspace(-1, 1, 1)]. *)
Definition lone_shift (strain_delta : num) : num :=
  fmul (fdiv strain_delta (fadd (of_int 1) (of_int 1)))
       (fadd (fmul (of_int 0) (fsub (of_int 1) (of_int (-1)))) (of_int (-1))).

(** *** The strain samples, in the arithmetic of the program *)

(** How many samples lie within 1e-15 of zero. *)
Definition on_zero (l : list num) : nat := length (filter zero_strain l).

(** The shifts for [nzs] samples on zero: the fraction
    [strain_delta / (nzs + 1)] of the step, times the [nzs] points of the
    linear map over [-1, 1]. *)
Definition zero_shifts (strain_delta : num) (nzs : nat) : list num :=
  map (fun t => fmul (fdiv strain_delta
                           (fadd (of_int (Z.of_nat nzs)) (of_int 1))) t)
      (fst (linspace (of_int (-1)) (of_int 1) nzs)).

(** [l] is [l0] with the k-th sample on zero moved by the k-th shift and
    every other sample in its place. *)
Inductive shifted_on_zero : list num -> list num -> list num -> Prop :=
| shifted_nil shifts : shifted_on_zero [] shifts []
| shifted_keep x l0 shifts l :
    zero_strain x = false ->
    shifted_on_zero l0 shifts l ->
    shifted_on_zero (x :: l0) shifts (x :: l)
| shifted_move x s l0 shifts l :
    zero_strain x = true ->
    shifted_on_zero l0 shifts l ->
    shifted_on_zero (x :: l0) (s :: shifts) (fadd x s :: l).

(** A sample on zero has moved by [s]; a sample off zero has not moved. *)
Definition moved_by (s x v : num) : Prop :=
  if zero_strain x then v = fadd x s else v = x.

(** The step of [n >= 2] samples from [a] to [b]: [(b - a) / (n - 1)]. *)
Definition linear_step (a b : num) (n : nat) : num :=
  fdiv (fsub b a) (of_int (Z.of_nat n - 1)).

(** [n >= 2] samples from [a] to [b] inclusive, spaced by the step: sample
    [i < n - 1] is [i * step + a] and the last one is [b] itself.  Every
    operation is the arithmetic's own (rounded, in binary64). *)
Definition linear_samples (a b : num) (n : nat) : list num :=
  map (fun i => fadd (fmul (of_int (Z.of_nat i)) (linear_step a b n)) a)
      (seq 0 (n - 1))
  ++ [b].

(** The same samples by the route numpy takes when the step compares equal
    to zero: sample [i < n - 1] is [i / (n - 1) * (b - a) + a]. *)
Definition linear_samples_zero_step (a b : num) (n : nat) : list num :=
  map (fun i => fadd (fmul (fdiv (of_int (Z.of_nat i))
                                 (of_int (Z.of_nat n - 1)))
                           (fsub b a)) a)
      (seq 0 (n - 1))
  ++ [b].

(** The matrix [identity(3) * (1 + e)], entry by entry: [1 * (1 + e)] on the
    diagonal and [0 * (1 + e)] elsewhere. *)
Definition scaled_unit (e : num) (m : list (list num)) : Prop :=
  m = [ [ fmul (of_int 1) (fadd (of_int 1) e);
          fmul (of_int 0) (fadd (of_int 1) e);
          fmul (of_int 0) (fadd (of_int 1) e) ];
        [ fmul (of_int 0) (fadd (of_int 1) e);
          fmul (of_int 1) (fadd (of_int 1) e);
          fmul (of_int 0) (fadd (of_int 1) e) ];
        [ fmul (of_int 0) (fadd (of_int 1) e);
          fmul (of_int 0) (fadd (of_int 1) e);
          fmul (of_int 1) (fadd (of_int 1) e) ] ].

(** Enough data points for the configured fit (always, without one). *)
Definition enough_points (self : CommonEosMaker num) : Prop :=
  match postprocessor self with
  | None => True
  | Some pp => (min_data_points pp <= data_points self)%Z
  end.

End Generic.

(** *** Exact arithmetic *)

Local Open Scope Q_scope.

(** The tolerance 1e-15. *)
Definition tolQ : Q := 1 # 1000000000000000.

(** [|x| < 1e-15] *)
Definition zeroQ (x : Q) : bool := negb (Qle_bool tolQ (Qabs x)).

(** [ys] is [lo, lo + h, lo + 2h, ...]. *)
Fixpoint spaced (h lo : Q) (ys : list Q) : Prop :=
  match ys with
  | [] => True
  | y :: rest => y == lo /\ spaced h (lo + h) rest
  end.

(** Strictly ascending: every sample is below all that follow, so the
    samples are pairwise distinct. *)
Fixpoint ascending (ys : list Q) : Prop :=
  match ys with
  | [] => True
  | y :: rest => Forall (fun z => y < z) rest /\ ascending rest
  end.

(** How the perturbation moves a sample [x] when at most one sample is on
    zero: half a step down if it is on zero, not at all otherwise. *)
Definition moved (h x v : Q) : Prop :=
  if zeroQ x then v == x - h * (1 # 2) else v == x.

(** The step of [n >= 2] samples from [a] to [b]. *)
Definition step_of (a b : Q) (n : nat) : Q :=
  (b - a) / inject_Z (Z.of_nat n - 1).

(** Equality of exact numbers: of their values. *)
Definition exact_eq (x y : exact) : Prop :=
  match x, y with
  | Fin p, Fin q => p == q
  | NaN, NaN => True
  | _, _ => False
  end.

(** [-x] *)
Definition exact_opp (x : exact) : exact :=
  match x with Fin p => Fin (- p) | NaN => NaN end.

(** A sample list that reads the same from both ends up to sign. *)
Definition symmetric (l : list exact) : Prop :=
  Forall2 exact_eq l (map exact_opp (rev l)).

(** The matrix [(1 + e) * identity]. *)
Definition scaled_identity (e : Q) (m : list (list exact)) : Prop :=
  exists d o,
    d == 1 + e /\ o == 0 /\
    m = [ [Fin d; Fin o; Fin o]; [Fin o; Fin d; Fin o]; [Fin o; Fin o; Fin d] ].

(** [n] samples from [a] to [b] inclusive, linearly spaced by
    [(b - a) / (n - 1)]. *)
Definition linearly_spaced (a b : Q) (n : nat) (l : list exact) : Prop :=
  exists ys,
    l = map Fin ys /\ length ys = n /\
    spaced (step_of a b n) a ys /\
    hd 0 ys == a /\ last ys 0 == b.

End Properties.

(* ===================================================================== *)
(** ** More vocabulary: names, wiring and the Maker's data *)
(* ===================================================================== *)

Module MoreProperties.
Import Numeric Jobflow Eos Properties.

Section Generic.
Context {num : Type} `{Num num}.

(** A job or flow with every name erased: what is left is the graph (uuids,
    functions, arguments, outputs). *)
Fixpoint strip_names (n : Node num) : Node num :=
  match n with
  | JobN j => JobN (rename_job j "")
  | FlowN _ u js o => FlowN "" u (map strip_names js) o
  end.

(** The key the EOS builder writes under. *)
Definition transformations_key : string := "transformations:json".

(** The Maker data the relaxation of frame [i] is made with when
    transformations are stored: the data [d] the Maker came with, with the
    transformation of that frame under "transformations:json". *)
Definition frame_data (d : Dict num) (t : Job num) (i : nat) : Dict num :=
  dict_set d transformations_key (VRef (transformation t i)).

(** The relaxation of frame [i], made while the Maker holds [frame_data]. *)
Definition frame_relax_with_data (st0 : State num) (self : CommonEosMaker num)
    (d : Dict num) (t : Job num) (prev_dir : Value num) (i : nat)
    (r : Node num) : Prop :=
  exists u,
    r = decorate (" deformation " ++ str_of_nat i)
          (add_to_name (" deformation " ++ str_of_nat i)
             (fst (maker_make (heap st0 (eos_relax_maker self))
                     (Some (frame_data d t i))
                     (VRef (Attr (transformation t i) "final_structure"))
                     prev_dir u))).

(** The Maker's data is [d] up to the entry "transformations:json". *)
Definition data_up_to_entry (d : Dict num) (st : State num) (a : addr) : Prop :=
  exists dcur,
    additional_data st a = Some dcur /\
    forall v, dict_set dcur transformations_key v
              = dict_set d transformations_key v.

(** [n] is what the Maker at some address returned for some structure, but
    for names: same graph of jobs (uuids, functions, arguments) and same
    output. *)
Definition made_and_renamed (st : State num) (n : Node num) : Prop :=
  exists a structure prev_dir raw,
    made_by st a structure prev_dir raw /\
    strip_names n = strip_names raw /\
    node_output n = node_output raw.

(** A sample that is off zero is where it was. *)
Definition kept_off_zero (x v : num) : Prop := zero_strain x = false -> v = x.

(** The number of jobs of the EOS flow. *)
Definition job_count (self : CommonEosMaker num) : nat :=
  let per_type := (Z.to_nat (number_of_frames self) + equilibrium_points self)%nat in
  (per_type
   + match static_maker self with Some _ => per_type | None => 0 end
   + 1
   + match postprocessor self with Some _ => 1 | None => 0 end)%nat.

(** The message of numpy for a negative count. *)
Definition negative_count_message (n : Z) : string :=
  ("Number of samples, " ++ str_of_Z n ++ ", must be non-negative.")%string.

(** The six Maker calls of the Grueneisen builder, in the order of the
    code and each with the next free uuid: the bulk relaxation, the two
    constant-volume relaxations (the job between takes the uuid [u1]), and
    the three phonon runs.  [u_end] is the uuid that is free after the
    last. *)
Definition all_makers_called (self : Gruneisen.BaseGruneisenMaker num)
    (b : addr) (structure : Value num) (st : State num) (u_end : nat) : Prop :=
  exists bulk u1 cvp u2 cvm u3 pg u4 pp u5 pm,
    maker_make (heap st b) (additional_data st b) structure VNone
               (next_uuid st) = (bulk, u1) /\
    maker_make (heap st (Gruneisen.const_vol_relax_maker self))
               (additional_data st (Gruneisen.const_vol_relax_maker self))
               (VRef (Key (OutRef u1) "plus")) VNone (S u1) = (cvp, u2) /\
    maker_make (heap st (Gruneisen.const_vol_relax_maker self))
               (additional_data st (Gruneisen.const_vol_relax_maker self))
               (VRef (Key (OutRef u1) "minus")) VNone u2 = (cvm, u3) /\
    maker_make (heap st (Gruneisen.phonon_maker self))
               (additional_data st (Gruneisen.phonon_maker self))
               (VRef (Attr (node_output bulk) "structure")) VNone u3
    = (pg, u4) /\
    maker_make (heap st (Gruneisen.phonon_maker self))
               (additional_data st (Gruneisen.phonon_maker self))
               (VRef (Attr (node_output cvp) "structure")) VNone u4
    = (pp, u5) /\
    maker_make (heap st (Gruneisen.phonon_maker self))
               (additional_data st (Gruneisen.phonon_maker self))
               (VRef (Attr (node_output cvm) "structure")) VNone u5
    = (pm, u_end).

(** The keyword arguments the extraction job is called with, given the three
    phonon runs, the ground structure reference and the extra keywords. *)
Definition extraction_keywords (self : Gruneisen.BaseGruneisenMaker num)
    (pg pp pm : Node num) (ground : Value num) : Dict num :=
  [ ("code", Gruneisen.code self);
    ("kpath_scheme", VStr (Gruneisen.kpath_scheme self));
    ("mesh", Gruneisen.mesh self);
    ("phonopy_yaml_paths_dict",
     VDict [ ("ground", VRef (Attr (Attr (node_output pg) "jobdirs")
                                   "taskdoc_run_job_dir"));
             ("plus", VRef (Attr (Attr (node_output pp) "jobdirs")
                                 "taskdoc_run_job_dir"));
             ("minus", VRef (Attr (Attr (node_output pm) "jobdirs")
                                  "taskdoc_run_job_dir")) ]);
    ("structure", ground);
    ("symprec", VNum (Gruneisen.symprec self));
    ("phonon_imaginary_modes_info",
     VDict [ ("ground", VRef (Attr (node_output pg) "has_imaginary_modes"));
             ("plus", VRef (Attr (node_output pp) "has_imaginary_modes"));
             ("minus", VRef (Attr (node_output pm) "has_imaginary_modes")) ]) ]
  ++ Gruneisen.compute_gruneisen_param_kwargs self.

(** [n'] is [n] with nothing changed but the five file names of its last
    job. *)
Definition only_filenames_changed (n n' : Node num) : Prop :=
  exists nm u js j j' o,
    n = FlowN nm u (js ++ [JobN j]) o /\
    n' = FlowN nm u (js ++ [JobN j']) o /\
    job_name j' = job_name j /\ job_uuid j' = job_uuid j /\
    function j' = function j /\ function_args j' = function_args j /\
    forall k, ~ In k filename_keys ->
              dict_get (function_kwargs j') k = dict_get (function_kwargs j) k.

End Generic.

End MoreProperties.

(* ===================================================================== *)
(** ** Facts about dictionaries and Makers *)
(* ===================================================================== *)

Module JobflowFacts.
Import Numeric Jobflow Properties.

Section Facts.
Context {num : Type}.

Lemma dict_get_set_same (d : Dict num) k v :
  dict_get (dict_set d k v) k = Some v.
Proof.
  induction d as [|[k' v'] d IH]; simpl.
  - now rewrite String.eqb_refl.
  - destruct (String.eqb k' k) eqn:E; simpl; rewrite E; auto.
Qed.

Lemma dict_get_set_other (d : Dict num) k k' v :
  k <> k' -> dict_get (dict_set d k v) k' = dict_get d k'.
Proof.
  intros Hne. induction d as [|[k0 v0] d IH]; simpl.
  - destruct (String.eqb k k') eqn:E; auto.
    apply String.eqb_eq in E. contradiction.
  - destruct (String.eqb k0 k) eqn:E; simpl.
    + apply String.eqb_eq in E. subst k0.
      destruct (String.eqb k k') eqn:E'; auto.
      apply String.eqb_eq in E'. contradiction.
    + now rewrite IH.
Qed.

Lemma dict_get_notin (d : Dict num) k :
  ~ In k (map fst d) -> dict_get d k = None.
Proof.
  induction d as [|[k' v] d IH]; simpl; intros Hk; [reflexivity|].
  destruct (String.eqb k' k) eqn:E.
  - apply String.eqb_eq in E. tauto.
  - apply IH. tauto.
Qed.

Lemma node_output_set_name nm (n : Node num) :
  node_output (set_name nm n) = node_output n.
Proof. destruct n; reflexivity. Qed.

Lemma made_by_intro (st : State num) a w s p u n u' :
  maker_make (heap st a) w s p u = (n, u') -> made_by st a s p n.
Proof. intros E. exists w, u. now rewrite E. Qed.

End Facts.

(** Name the result of the next Maker call in the goal. *)
Ltac run_maker :=
  match goal with
  | |- context [maker_make ?m ?w ?s ?p ?u] =>
      let n := fresh "n" in let u' := fresh "u" in let E := fresh "E" in
      destruct (maker_make m w s p u) as [n u'] eqn:E; cbn [fst snd]
  end.

End JobflowFacts.

(* ===================================================================== *)
(** ** Facts about the Grueneisen builder *)
(* ===================================================================== *)

Module GruneisenFacts.
Import Numeric Jobflow Properties JobflowFacts Gruneisen.

Section Facts.
Context {num : Type} `{Num num}.

(** The override succeeds exactly on a flow whose last element is a job. *)
Lemma on_last_update_ok upd (js : list (Node num)) j :
  js <> [] -> last js (FlowN "" 0 [] (OutRef 0)) = JobN j ->
  exists j',
    on_last (update_kwargs upd) js = inr (removelast js ++ [JobN j']) /\
    job_uuid j' = job_uuid j /\
    function_kwargs j' = dict_update (function_kwargs j) upd.
Proof.
  induction js as [|x rest IH]; intros Hne Hlast; [congruence|].
  destruct rest as [|y rest'].
  - simpl in Hlast. subst x. simpl. eexists. split; [reflexivity|]. auto.
  - destruct IH as (j' & E & Hu & Hk); [discriminate | exact Hlast |].
    exists j'. split; [|auto].
    change (on_last (update_kwargs upd) (x :: y :: rest'))
      with (match on_last (update_kwargs upd) (y :: rest') with
            | inl e => inl e | inr r => inr (x :: r) end).
    rewrite E. reflexivity.
Qed.

Lemma on_last_update_fails upd (js : list (Node num)) :
  (js = [] \/ exists nm u l o, last js (FlowN "" 0 [] (OutRef 0)) = FlowN nm u l o) ->
  on_last (update_kwargs upd) js = inl IndexError \/
  on_last (update_kwargs upd) js = inl (AttributeError "function_kwargs").
Proof.
  induction js as [|x rest IH]; intros Hbad; [now left|].
  destruct Hbad as [?|(nm & u & l & o & Hlast)]; [discriminate|].
  destruct rest as [|y rest'].
  - simpl in Hlast. subst x. now right.
  - change (on_last (update_kwargs upd) (x :: y :: rest'))
      with (match on_last (update_kwargs upd) (y :: rest') with
            | inl e => inl e | inr r => inr (x :: r) end).
    destruct IH as [E|E]; [right; eauto 6 | |]; rewrite E; auto.
Qed.

Lemma override_fails st (n : Node num) :
  terminal_job n = None ->
  override_filenames st n = inl (AttributeError "jobs") \/
  override_filenames st n = inl IndexError \/
  override_filenames st n = inl (AttributeError "function_kwargs").
Proof.
  destruct n as [j|nm u js o]; simpl; [now left|].
  intros Ht.
  destruct (on_last_update_fails (filename_overrides st) js) as [E|E].
  - destruct js as [|x r]; [now left|].
    right. destruct (last (x :: r) _) as [j|nm' u' l' o'] eqn:El;
      [discriminate | eauto 6].
  - rewrite E. auto.
  - rewrite E. auto.
Qed.

Lemma filenames_set (d : Dict num) (branch : string) :
  Forall (fun kv => dict_get (dict_update d (filename_overrides branch)) (fst kv)
                    = Some (snd kv))
         (filename_overrides branch).
Proof.
  unfold dict_update, filename_overrides. simpl.
  repeat constructor; simpl;
    repeat (rewrite dict_get_set_other by discriminate);
    apply dict_get_set_same.
Qed.

Lemma override_ok branch (raw : Node num) :
  terminal_job raw <> None ->
  exists n j, override_filenames branch raw = inr n /\
    terminal_job n = Some j /\
    node_output n = node_output raw /\
    Forall (fun kv => dict_get (function_kwargs j) (fst kv) = Some (snd kv))
           (filename_overrides branch).
Proof.
  destruct raw as [j|nm u js o]; simpl; [congruence|].
  intros Ht.
  destruct (last js _) as [j|nm' u' l' o'] eqn:El; [|congruence].
  destruct js as [|x r]; [congruence|].
  destruct (on_last_update_ok (filename_overrides branch) (x :: r) j)
    as (j' & E & _ & Hk); [discriminate | exact El |].
  rewrite E. exists (FlowN nm u (removelast (x :: r) ++ [JobN j']) o), j'.
  split; [reflexivity|]. split.
  - cbn [terminal_job]. rewrite last_last.
    destruct (removelast (x :: r) ++ [JobN j']) eqn:E';
      [destruct (removelast (x :: r)); discriminate | reflexivity].
  - split; [reflexivity|]. rewrite Hk. apply filenames_set.
Qed.

Lemma explicit_has (self : BaseGruneisenMaker num) d1 d2 g k :
  ~ In k keyword_names -> dict_has (explicit_keywords self d1 d2 g) k = false.
Proof.
  intros Hk. unfold dict_has. now rewrite dict_get_notin.
Qed.

Lemma merge_keywords_ok (self : BaseGruneisenMaker num) d1 d2 g extra :
  Forall (fun kv => ~ In (fst kv) keyword_names) extra ->
  merge_keywords (explicit_keywords self d1 d2 g) extra
  = inr (explicit_keywords self d1 d2 g ++ extra).
Proof.
  intros Hx. unfold merge_keywords.
  assert (find (fun kv => dict_has (explicit_keywords self d1 d2 g) (fst kv))
               extra = None) as ->; [|reflexivity].
  induction Hx as [|kv extra Hk _ IH]; [reflexivity|].
  simpl. now rewrite explicit_has.
Qed.

End Facts.
End GruneisenFacts.

(* ===================================================================== *)
(** ** Facts about the equation-of-state builder *)
(* ===================================================================== *)

Module EosFacts.
Import Numeric Jobflow Properties JobflowFacts Eos.

Section Facts.
Context {num : Type} `{Num num}.

(** *** Dictionaries *)

Lemma dict_set_set (d : Dict num) k v w :
  dict_set (dict_set d k v) k w = dict_set d k w.
Proof.
  induction d as [|[k' v'] d IH]; simpl.
  - now rewrite String.eqb_refl.
  - destruct (String.eqb k' k) eqn:E; simpl; rewrite E; [reflexivity|].
    now rewrite IH.
Qed.

Lemma dict_set_get_id (d : Dict num) k v :
  dict_get d k = Some v -> dict_set d k v = d.
Proof.
  induction d as [|[k' v'] d IH]; simpl; [discriminate|].
  destruct (String.eqb k' k) eqn:E.
  - now intros [= ->].
  - intros Hg. now rewrite IH.
Qed.

(** *** The samples: how many *)

Lemma set_last_length (l : list num) v : length (set_last l v) = length l.
Proof.
  destruct l as [|x l]; [reflexivity|].
  unfold set_last. rewrite length_app, removelast_firstn_len, length_firstn.
  simpl. lia.
Qed.

Lemma linspace_length (a b : num) n : length (fst (linspace a b n)) = n.
Proof.
  unfold linspace, arange.
  destruct (0 <? Z.of_nat n - 1)%Z;
    [destruct (feqb _ _)|]; cbn [fst];
    (destruct (1 <? Z.of_nat n)%Z;
     [rewrite set_last_length|]; now rewrite !length_map, length_seq).
Qed.

Lemma masked_add_length (l shift : list num) :
  length (masked_add l shift) = length l.
Proof.
  revert shift. induction l as [|x l IH]; intros shift; [reflexivity|].
  simpl. destruct (zero_strain x); [destruct shift|]; simpl; now rewrite IH.
Qed.

Lemma perturb_length (l : list num) delta :
  length (perturb_zero_strain l delta) = length l.
Proof.
  unfold perturb_zero_strain.
  destruct (existsb _ _); [apply masked_add_length | reflexivity].
Qed.

(** With a count that is not negative, the samples exist and there are as
    many as frames. *)
Lemma strain_samples_length (self : CommonEosMaker num) :
  (0 <= number_of_frames self)%Z ->
  exists strain_l,
    strain_samples self = inr strain_l /\
    length strain_l = Z.to_nat (number_of_frames self).
Proof.
  intros HN. unfold strain_samples, np_linspace.
  destruct (number_of_frames self <? 0)%Z eqn:E; [lia|].
  pose proof (linspace_length (fst (linear_strain self))
                (snd (linear_strain self))
                (Z.to_nat (number_of_frames self))) as Hl.
  destruct (linspace _ _ _) as [strain_l delta]. cbn [fst] in Hl.
  destruct (initial_relax_maker self); eexists; split; try reflexivity;
    [now rewrite perturb_length | exact Hl].
Qed.

(** *** The aggregated output, in closed form *)

Lemma collect_body_spec key (d : Dict num) l j st :
  dict_get d key = Some (quantity_table l) ->
  collect_body key d j st
  = (inr (dict_set d key (quantity_table (l ++ [j]))), st).
Proof.
  intros Hg. unfold collect_body, bind, lift, extend.
  rewrite Hg. cbn [quantity_table dict_get String.eqb Ascii.eqb Bool.eqb].
  cbn.
  repeat (rewrite dict_get_set_same; cbn).
  rewrite !dict_set_set. unfold quantity_table.
  rewrite !map_app. reflexivity.
Qed.

Lemma collect_jobs_spec key js :
  forall (d : Dict num) l st,
    dict_get d key = Some (quantity_table l) ->
    for_each js (collect_body key) d st
    = (inr (dict_set d key (quantity_table (l ++ js))), st).
Proof.
  induction js as [|j js IH]; intros d l st Hg.
  - cbn. rewrite app_nil_r, dict_set_get_id by exact Hg. reflexivity.
  - cbn [for_each]. unfold bind at 1.
    rewrite (collect_body_spec key d l j st Hg).
    rewrite (IH _ (l ++ [j])) by apply dict_get_set_same.
    rewrite dict_set_set, <- app_assoc. reflexivity.
Qed.

(** *** The frames *)

Lemma same_makers_refl (st : State num) : same_makers st st.
Proof. reflexivity. Qed.

Lemma makers_preserved_refl (self : CommonEosMaker num) st :
  makers_preserved self st st.
Proof. intros a _. reflexivity. Qed.

Lemma makers_preserved_trans (self : CommonEosMaker num) st1 st2 st3 :
  same_makers st1 st2 ->
  makers_preserved self st1 st2 -> makers_preserved self st2 st3 ->
  makers_preserved self st1 st3.
Proof.
  intros Hs H12 H23 da Ha. rewrite H23, H12; [reflexivity | exact Ha |].
  unfold same_makers in Hs. now rewrite Hs.
Qed.

Lemma data_kept_refl (st : State num) : data_kept st st.
Proof. intros a k _. reflexivity. Qed.

Lemma data_kept_trans (st1 st2 st3 : State num) :
  data_kept st1 st2 -> data_kept st2 st3 -> data_kept st1 st3.
Proof. intros H12 H23 a k Hk. now rewrite H23, H12. Qed.

Lemma made_by_same (st0 st : State num) a w s p u n u' :
  same_makers st0 st ->
  maker_make (heap st a) w s p u = (n, u') -> made_by st0 a s p n.
Proof.
  intros Hs E. exists w, u. unfold same_makers in Hs.
  rewrite <- Hs, E. reflexivity.
Qed.

(** The optional write of lines 146-155. *)
Lemma store_spec (self : CommonEosMaker num) v st0 st :
  same_makers st0 st ->
  exists st1,
    (if _store_transformation_information self
     then store_additional_data (eos_relax_maker self) "transformations:json" v
     else ret tt) st = (inr tt, st1) /\
    same_makers st0 st1 /\ makers_preserved self st st1 /\
    data_kept st st1.
Proof.
  intros Hs.
  destruct (_store_transformation_information self) eqn:Ef.
  - unfold store_additional_data.
    destruct (write_additional_data (heap st (eos_relax_maker self)))
      as [da|] eqn:Ew.
    + eexists. split; [reflexivity|]. split; [|split].
      * exact Hs.
      * intros db [Hf|Hb]; [congruence|]. cbn.
        destruct (Nat.eqb db da) eqn:Eb; [|reflexivity].
        apply Nat.eqb_eq in Eb. congruence.
      * intros db k Hk. cbn.
        destruct (Nat.eqb db da) eqn:Eb; [|reflexivity].
        apply Nat.eqb_eq in Eb. subst db.
        rewrite dict_get_set_other by congruence. reflexivity.
    + eexists. repeat split;
        auto using makers_preserved_refl, data_kept_refl.
  - eexists. repeat split; auto using makers_preserved_refl, data_kept_refl.
Qed.

Lemma frame_body_spec (self : CommonEosMaker num) t prev_dir st0 jobs i st :
  same_makers st0 st ->
  exists r ss st',
    frame_body self t prev_dir jobs i st
    = (inr {| relax := relax jobs ++ [r]; static := static jobs ++ ss;
              utility := utility jobs |}, st') /\
    same_makers st0 st' /\ makers_preserved self st st' /\
    data_kept st st' /\
    frame_relax st0 self t prev_dir i r /\
    frame_statics st0 self [i] [r] ss.
Proof.
  intros Hs. unfold frame_body, frame_statics.
  destruct (store_spec self (VRef (transformation t i)) st0 st Hs)
    as (st1 & E1 & Hs1 & Hp1 & Hd1).
  unfold bind at 1. rewrite E1.
  unfold bind, call_maker, ret. cbn.
  run_maker. cbn.
  pose proof (made_by_same _ _ _ _ _ _ _ _ _ Hs1 E) as Hraw.
  destruct (static_maker self) as [sm|].
  - unfold bind, call_maker, ret. cbn. run_maker. cbn.
    pose proof (made_by_same _ _ _ _ _ _ _ _ _ Hs1 E0) as Hraws.
    eexists _, [_], _. split; [reflexivity|].
    split; [exact Hs1|]. split; [exact Hp1|]. split; [exact Hd1|].
    split; [eexists; split; [exact Hraw | reflexivity]|].
    constructor; [|constructor].
    eexists; split; [exact Hraws | reflexivity].
  - eexists _, [], _. unfold append_relax. cbn. rewrite app_nil_r.
    split; [reflexivity|].
    split; [exact Hs1|]. split; [exact Hp1|]. split; [exact Hd1|].
    split; [eexists; split; [exact Hraw | reflexivity]|].
    reflexivity.
Qed.

Lemma frames_spec (self : CommonEosMaker num) t prev_dir st0 idxs :
  forall jobs st,
    same_makers st0 st ->
    exists rs ss st',
      for_each idxs (frame_body self t prev_dir) jobs st
      = (inr {| relax := relax jobs ++ rs; static := static jobs ++ ss;
                utility := utility jobs |}, st') /\
      same_makers st0 st' /\ makers_preserved self st st' /\
      data_kept st st' /\
      Forall2 (frame_relax st0 self t prev_dir) idxs rs /\
      frame_statics st0 self idxs rs ss.
Proof.
  induction idxs as [|i idxs IH]; intros jobs st Hs.
  - exists [], [], st. cbn. rewrite !app_nil_r. destruct jobs.
    repeat split; auto using makers_preserved_refl, data_kept_refl.
    unfold frame_statics. destruct (static_maker self); constructor.
  - cbn [for_each]. unfold bind at 1.
    destruct (frame_body_spec self t prev_dir st0 jobs i st Hs)
      as (r & ss1 & st1 & E1 & Hs1 & Hp1 & Hd1 & Hr & Hss1).
    rewrite E1.
    destruct (IH {| relax := relax jobs ++ [r]; static := static jobs ++ ss1;
                    utility := utility jobs |} st1 Hs1)
      as (rs & ss & st' & E & Hs' & Hp' & Hd' & Hrs & Hss).
    rewrite E. cbn [relax static utility].
    exists (r :: rs), (ss1 ++ ss), st'.
    rewrite <- !app_assoc. split; [reflexivity|].
    split; [exact Hs'|].
    split; [apply (makers_preserved_trans self st st1 st');
            [unfold same_makers in *; congruence | assumption | assumption]|].
    split; [eapply data_kept_trans; eauto|].
    split; [constructor; assumption|].
    unfold frame_statics in *. destruct (static_maker self) as [sm|].
    + inversion Hss1 as [|? s1 ? ? Hs1' Hnil]; subst.
      inversion Hnil; subst. cbn. constructor; assumption.
    + subst. reflexivity.
Qed.

(** *** Everything before the fit *)

Lemma collect_spec (self : CommonEosMaker num) jobs (d : Dict num) st :
  dict_get d "relax" = Some (quantity_table []) ->
  dict_get d "static" = Some (quantity_table []) \/ static_maker self = None ->
  collect self jobs d st
  = (inr (match static_maker self with
          | Some _ =>
              dict_set (dict_set d "relax" (quantity_table (relax jobs)))
                       "static" (quantity_table (static jobs))
          | None => dict_set d "relax" (quantity_table (relax jobs))
          end), st).
Proof.
  intros Hr Hs. unfold collect, job_types.
  destruct (static_maker self) as [sm|].
  - destruct Hs as [Hs|Hs]; [|discriminate].
    cbn [for_each]. unfold bind, lift, ret. cbn [jobs_of String.eqb].
    cbn.
    rewrite (collect_jobs_spec "relax" (relax jobs) d [] st Hr). cbn.
    rewrite (collect_jobs_spec "static" (static jobs) _ [] st); [reflexivity|].
    rewrite dict_get_set_other by discriminate. exact Hs.
  - cbn [for_each]. unfold bind, lift, ret. cbn.
    rewrite (collect_jobs_spec "relax" (relax jobs) d [] st Hr). reflexivity.
Qed.

Lemma aggregate_spec (self : CommonEosMaker num) structure prev_dir st :
  (0 <= number_of_frames self)%Z ->
  exists jobs fo st',
    aggregate self structure prev_dir st = (inr (jobs, fo), st') /\
    aggregation self structure prev_dir st jobs fo st'.
Proof.
  intros HN.
  destruct (strain_samples_length self HN) as (strain_l & Es & Hl).
  unfold aggregate, aggregation, equilibrium, equilibrium_jobs,
    aggregated_output.
  rewrite Es.
  destruct (initial_relax_maker self) as [irm|] eqn:Ei;
    destruct (static_maker self) as [sm|] eqn:Est;
    unfold bind, call_maker, new_job, ret, lift; cbn -[collect];
    repeat (run_maker; cbn -[collect]);
    match goal with
    | |- context [for_each ?idxs (frame_body self ?t ?p) ?jobs ?s] =>
        destruct (frames_spec self t p st idxs jobs s eq_refl)
          as (rs & ss & st' & Ef & Hs' & Hp' & Hd' & Hrs & Hss)
    end;
    rewrite Ef; cbn -[collect];
    (rewrite collect_spec;
     [| unfold init_flow_output, job_types; rewrite Est; reflexivity
      | unfold init_flow_output, job_types; rewrite Est;
        first [left; reflexivity | right; reflexivity] ]);
    rewrite Est; unfold init_flow_output, job_types; rewrite Est; cbn;
    (eexists _, _, _; split; [reflexivity|]).
  - eexists [_], [_], _, _, strain_l, _, rs, ss.
    repeat (split; [try reflexivity; eauto using made_by_intro|]); auto.
    eexists _, _. repeat (split; [try reflexivity; eauto using made_by_intro|]).
    eexists. split; [eauto using made_by_intro | reflexivity].
  - assert (ss = []) as -> by (unfold frame_statics in Hss;
                              now rewrite Est in Hss).
    eexists [_], [], _, _, strain_l, _, rs, [].
    repeat (split; [try reflexivity; eauto using made_by_intro|]); auto.
    eexists _, _.
    repeat (split; [try reflexivity; eauto using made_by_intro|]).
    reflexivity.
  - eexists [], [], _, _, strain_l, _, rs, ss.
    repeat (split; [try reflexivity; eauto using made_by_intro|]); auto.
  - assert (ss = []) as -> by (unfold frame_statics in Hss;
                              now rewrite Est in Hss).
    eexists [], [], _, _, strain_l, _, rs, [].
    repeat (split; [try reflexivity; eauto using made_by_intro|]); auto.
Qed.

(** *** The fit and the flow *)

Lemma aggregation_relax_length (self : CommonEosMaker num) structure prev_dir
    st jobs fo st' :
  aggregation self structure prev_dir st jobs fo st' ->
  length (relax jobs)
  = (Z.to_nat (number_of_frames self) + equilibrium_points self)%nat /\
  length (static jobs)
  = match static_maker self with
    | Some _ => (Z.to_nat (number_of_frames self) + equilibrium_points self)%nat
    | None => 0%nat
    end.
Proof.
  intros (eq_relax & eq_static & s' & p' & strain_l & t & rs & ss & -> & _ &
          Heq & _ & _ & _ & _ & Hrs & Hss & _).
  cbn [relax static]. rewrite !length_app.
  apply Forall2_length in Hrs. rewrite length_seq in Hrs.
  unfold frame_statics in Hss. unfold equilibrium_jobs in Heq.
  unfold equilibrium_points.
  destruct (initial_relax_maker self) as [irm|].
  - destruct Heq as (raw & r0 & _ & _ & -> & _ & _ & Hst).
    destruct (static_maker self) as [sm|].
    + destruct Hst as (raws & _ & ->).
      apply Forall2_length in Hss.
      rewrite length_combine, length_seq in Hss. cbn. lia.
    + subst. cbn. lia.
  - destruct Heq as (-> & -> & _).
    destruct (static_maker self) as [sm|].
    + apply Forall2_length in Hss.
      rewrite length_combine, length_seq in Hss. cbn. lia.
    + subst. cbn. lia.
Qed.

Lemma finish_spec (self : CommonEosMaker num) jobs fo st :
  finish self jobs fo st
  = match postprocessor self with
    | None =>
        (inr {| flow_name := name self;
                flow_jobs := relax jobs ++ static jobs ++ utility jobs;
                flow_output := VDict fo |}, st)
    | Some pp =>
        if (Z.of_nat (length (relax jobs)) <? min_data_points pp)%Z
        then (inl (ValueError (too_few_frames_message pp)), st)
        else
          (inr {| flow_name := name self;
                  flow_jobs := relax jobs ++ static jobs ++ utility jobs
                               ++ fit_of self fo st;
                  flow_output :=
                    VRef (node_output
                            (fst (postprocess pp (VDict fo) (next_uuid st)))) |},
           {| next_uuid := snd (postprocess pp (VDict fo) (next_uuid st));
              heap := heap st; dicts := dicts st |})
    end.
Proof.
  unfold finish, fit_of.
  destruct (postprocessor self) as [pp|].
  - destruct (Z.of_nat (length (relax jobs)) <? min_data_points pp)%Z;
      [reflexivity|].
    unfold bind, call_postprocessor, ret. cbn.
    destruct (postprocess pp (VDict fo) (next_uuid st)) as [n u]. cbn.
    rewrite <- !app_assoc.
    destruct n; reflexivity.
  - unfold bind, ret. cbn. now rewrite <- app_assoc.
Qed.

(** [make] is [aggregate], then [finish]. *)
Lemma make_spec (self : CommonEosMaker num) structure prev_dir st :
  (0 <= number_of_frames self)%Z ->
  exists jobs fo st1,
    aggregate self structure prev_dir st = (inr (jobs, fo), st1) /\
    make self structure prev_dir st = finish self jobs fo st1 /\
    aggregation self structure prev_dir st jobs fo st1.
Proof.
  intros HN.
  destruct (aggregate_spec self structure prev_dir st HN)
    as (jobs & fo & st1 & Ea & Hagg).
  exists jobs, fo, st1. split; [exact Ea|]. split; [|exact Hagg].
  unfold make, bind. now rewrite Ea.
Qed.

Lemma finish_heap (self : CommonEosMaker num) jobs fo st :
  heap (snd (finish self jobs fo st)) = heap st.
Proof.
  rewrite finish_spec. destruct (postprocessor self) as [pp|]; [|reflexivity].
  destruct (_ <? _)%Z; reflexivity.
Qed.

Lemma finish_dicts (self : CommonEosMaker num) jobs fo st :
  dicts (snd (finish self jobs fo st)) = dicts st.
Proof.
  rewrite finish_spec. destruct (postprocessor self) as [pp|]; [|reflexivity].
  destruct (_ <? _)%Z; reflexivity.
Qed.

Lemma quantity_table_sequences (fo : Dict num) key js :
  dict_get fo key = Some (quantity_table js) ->
  Forall (fun quantity =>
            exists l, sequence_of fo key quantity = Some l /\
                      length l = length js)
         quantities.
Proof.
  intros Hg. unfold sequence_of, quantities. rewrite Hg.
  repeat constructor; cbn; eexists; (split; [reflexivity|]);
    apply length_map.
Qed.

Lemma aggregated_tables (self : CommonEosMaker num) rel stat eq_relax eq_static :
  dict_get (aggregated_output self rel stat eq_relax eq_static) "relax"
  = Some (quantity_table rel) /\
  (static_maker self <> None ->
   dict_get (aggregated_output self rel stat eq_relax eq_static) "static"
   = Some (quantity_table stat)).
Proof.
  unfold aggregated_output. split; [reflexivity|].
  destruct (static_maker self); [reflexivity | congruence].
Qed.

End Facts.
End EosFacts.
(* ===================================================================== *)
(** ** Facts about the strain samples *)
(* ===================================================================== *)

Module StrainFacts.
Import Numeric Properties.

(** *** In any arithmetic *)

Section Generic.
Context {num : Type} `{Num num}.

Lemma existsb_mask (l : list num) :
  existsb (fun b => b) (map zero_strain l)
  = match filter zero_strain l with [] => false | _ :: _ => true end.
Proof.
  induction l as [|x l IH]; [reflexivity|].
  simpl. destruct (zero_strain x); [reflexivity | exact IH].
Qed.

Lemma masked_add_none (l shift : list num) :
  filter zero_strain l = [] -> masked_add l shift = l.
Proof.
  induction l as [|x l IH]; [reflexivity|].
  simpl. destruct (zero_strain x); [discriminate|].
  intros Hf. now rewrite IH.
Qed.

Lemma perturb_at_most_one (l : list num) delta :
  (length (filter zero_strain l) <= 1)%nat ->
  perturb_zero_strain l delta = masked_add l [lone_shift delta].
Proof.
  intros Hc. unfold perturb_zero_strain. rewrite existsb_mask.
  destruct (filter zero_strain l) as [|z [|z' r]] eqn:Ef.
  - now rewrite masked_add_none.
  - reflexivity.
  - simpl in Hc. lia.
Qed.

Lemma perturb_no_zero (l : list num) delta :
  Forall (fun x => zero_strain x = false) l -> perturb_zero_strain l delta = l.
Proof.
  intros Hz. unfold perturb_zero_strain. rewrite existsb_mask.
  assert (filter zero_strain l = []) as ->; [|reflexivity].
  induction Hz as [|x l Hx _ IH]; [reflexivity|].
  cbn [filter]. now rewrite Hx.
Qed.

End Generic.

(** *** In exact arithmetic *)

Local Open Scope Q_scope.

Lemma zero_strain_Fin x : zero_strain (Fin x) = zeroQ x.
Proof. reflexivity. Qed.

Lemma zeroQ_true x : zeroQ x = true <-> Qabs x < tolQ.
Proof.
  unfold zeroQ. rewrite negb_true_iff. split.
  - intros E. apply Qnot_le_lt. intros Hle.
    apply Qle_bool_iff in Hle. congruence.
  - intros Hlt. destruct (Qle_bool tolQ (Qabs x)) eqn:E; [|reflexivity].
    apply Qle_bool_iff in E. apply Qle_not_lt in E. contradiction.
Qed.

Lemma zeroQ_false x : zeroQ x = false <-> tolQ <= Qabs x.
Proof.
  unfold zeroQ. rewrite negb_false_iff. apply Qle_bool_iff.
Qed.

Lemma zeroQ_above x : tolQ <= x -> zeroQ x = false.
Proof.
  intros Hx. apply zeroQ_false.
  apply Qle_trans with x; [exact Hx | apply Qle_Qabs].
Qed.

Lemma spaced_eq h lo lo' ys : lo == lo' -> spaced h lo ys -> spaced h lo' ys.
Proof.
  revert lo lo'. induction ys as [|y ys IH]; intros lo lo' E; [auto|].
  simpl. intros [Hy Hr]. split; [now rewrite <- E|].
  apply (IH (lo + h)); [now rewrite E | exact Hr].
Qed.

Lemma inject_succ k :
  inject_Z (Z.of_nat (S k)) == inject_Z (Z.of_nat k) + 1.
Proof.
  rewrite Nat2Z.inj_succ. unfold Z.succ. now rewrite inject_Z_plus.
Qed.

Lemma spaced_app h lo ys zs :
  spaced h lo ys ->
  spaced h (lo + inject_Z (Z.of_nat (length ys)) * h) zs ->
  spaced h lo (ys ++ zs).
Proof.
  revert lo. induction ys as [|y ys IH]; intros lo Hy Hz.
  - simpl in *. eapply spaced_eq; [|exact Hz]. ring.
  - cbn [spaced length app] in *. destruct Hy as [Hy Hr]. split; [exact Hy|].
    apply IH; [exact Hr|].
    eapply spaced_eq; [|exact Hz].
    rewrite inject_succ. ring.
Qed.

Lemma spaced_lower h lo ys :
  0 <= h -> spaced h lo ys -> Forall (fun y => lo <= y) ys.
Proof.
  intros Hh. revert lo. induction ys as [|y ys IH]; intros lo; [constructor|].
  simpl. intros [Hy Hr]. constructor; [rewrite Hy; apply Qle_refl|].
  apply IH in Hr. eapply Forall_impl; [|exact Hr].
  intros z Hz. cbn beta in *. lra.
Qed.

Lemma spaced_ascending h lo ys : 0 < h -> spaced h lo ys -> ascending ys.
Proof.
  intros Hh. revert lo. induction ys as [|y ys IH]; intros lo; [exact (fun _ => I)|].
  simpl. intros [Hy Hr]. split; [|eapply IH; exact Hr].
  apply spaced_lower in Hr; [|lra].
  eapply Forall_impl; [|exact Hr]. intros z Hz. cbn beta in *. lra.
Qed.

Lemma spaced_map_seq (f : nat -> Q) a h m :
  forall k,
    (forall i, f i == a + inject_Z (Z.of_nat i) * h) ->
    spaced h (a + inject_Z (Z.of_nat k) * h) (map f (seq k m)).
Proof.
  induction m as [|m IH]; intros k Hf; [exact I|].
  cbn [spaced map seq]. split; [apply Hf|].
  eapply spaced_eq; [|apply (IH (S k) Hf)].
  rewrite inject_succ. ring.
Qed.

Lemma zeroQ_bounds x : zeroQ x = true -> - tolQ < x /\ x < tolQ.
Proof. intros E. now apply Qabs_Qlt_condition, zeroQ_true. Qed.

Lemma zeroQ_nonzero x : zeroQ x = false -> ~ x == 0.
Proof.
  intros E Hx. apply zeroQ_false in E. rewrite Hx in E.
  revert E. unfold tolQ. cbn. unfold Qle. cbn. lia.
Qed.

Lemma moved_off_zero h ys :
  Forall (fun y => tolQ <= y) ys -> Forall2 (moved h) ys ys.
Proof.
  induction 1 as [|y ys Hy _ IH]; constructor; [|exact IH].
  unfold moved. rewrite zeroQ_above by exact Hy. reflexivity.
Qed.

Lemma off_zero_filter ys :
  Forall (fun y => tolQ <= y) ys -> filter zero_strain (map Fin ys) = [].
Proof.
  induction 1 as [|y ys Hy _ IH]; [reflexivity|].
  cbn [map filter]. rewrite zero_strain_Fin, zeroQ_above by exact Hy.
  exact IH.
Qed.

(** The perturbation of samples spaced by [h >= 2e-15]: at most one sits on
    zero; it moves half a step down and every other sample stays; no
    sample is zero afterwards, and the samples still ascend. *)
Lemma masked_single h s :
  0 < h -> 2 * tolQ <= h -> s == - (h * (1 # 2)) ->
  forall ys lo,
    spaced h lo ys ->
    exists vs,
      masked_add (map Fin ys) [Fin s] = map Fin vs /\
      Forall2 (moved h) ys vs /\
      Forall (fun v => lo - h * (1 # 2) <= v) vs /\
      Forall (fun v => ~ v == 0) vs /\
      ascending vs /\
      (length (filter zero_strain (map Fin ys)) <= 1)%nat.
Proof.
  intros Hh Htol Hs. assert (Ht : 0 < tolQ) by reflexivity.
  induction ys as [|y rest IH]; intros lo Hsp.
  - exists []. cbn. repeat split; auto.
  - cbn [spaced] in Hsp. destruct Hsp as [Hy Hrest].
    cbn [map masked_add filter]. rewrite zero_strain_Fin.
    destruct (zeroQ y) eqn:Ez.
    + apply zeroQ_bounds in Ez as Hb. destruct Hb as [Hlow Hup].
      assert (Hfar : Forall (fun z => tolQ <= z) rest).
      { eapply Forall_impl; [|apply (spaced_lower h (lo + h)); [lra|exact Hrest]].
        intros z Hz. cbn beta in *. lra. }
      exists ((y + s) :: rest).
      rewrite masked_add_none by (now apply off_zero_filter).
      rewrite off_zero_filter by exact Hfar.
      split; [reflexivity|]. split.
      { constructor; [|now apply moved_off_zero].
        unfold moved. rewrite Ez. lra. }
      split.
      { constructor; [lra|].
        eapply Forall_impl; [|exact Hfar]. intros z Hz. cbn beta in *. lra. }
      split.
      { constructor; [lra|].
        eapply Forall_impl; [|exact Hfar]. intros z Hz. cbn beta in *. lra. }
      split; [|cbn; lia].
      cbn [ascending]. split.
      * eapply Forall_impl; [|exact Hfar]. intros z Hz. cbn beta in *. lra.
      * apply (spaced_ascending h (lo + h)); assumption.
    + destruct (IH (lo + h) Hrest) as (vs & Em & Hmv & Hlo & Hnz & Hasc & Hc).
      exists (y :: vs). rewrite Em.
      split; [reflexivity|]. split.
      { constructor; [|exact Hmv]. unfold moved. rewrite Ez. reflexivity. }
      split.
      { constructor; [lra|].
        eapply Forall_impl; [|exact Hlo]. intros z Hz. cbn beta in *. lra. }
      split.
      { constructor; [now apply zeroQ_nonzero | exact Hnz]. }
      split; [|exact Hc].
      cbn [ascending]. split; [|exact Hasc].
      eapply Forall_impl; [|exact Hlo]. intros z Hz. cbn beta in *. lra.
Qed.

Lemma set_last_snoc (l : list exact) x v : set_last (l ++ [x]) v = l ++ [v].
Proof.
  unfold set_last. destruct (l ++ [x]) eqn:E.
  - destruct l; discriminate.
  - rewrite <- E. now rewrite removelast_last.
Qed.

Lemma divisor_nonzero n : (2 <= n)%nat -> ~ inject_Z (Z.of_nat n - 1) == 0.
Proof.
  intros Hn E. unfold Qeq in E. simpl in E. lia.
Qed.

(** [linspace] in exact arithmetic: [n >= 2] samples, spaced by the step
    from [a], the last one [b] itself. *)
Lemma linspace_exact a b n :
  (2 <= n)%nat ->
  exists ys,
    linspace (Fin a) (Fin b) n = (map Fin (ys ++ [b]), Fin (step_of a b n)) /\
    length (ys ++ [b]) = n /\
    spaced (step_of a b n) a (ys ++ [b]).
Proof.
  intros Hn. destruct n as [|m]; [lia|].
  pose proof (divisor_nonzero (S m) Hn) as Hd.
  assert (Hdb : Qeq_bool (inject_Z (Z.of_nat (S m) - 1)) 0 = false).
  { destruct (Qeq_bool _ 0) eqn:E; [|reflexivity].
    apply Qeq_bool_iff in E. contradiction. }
  assert (Hlast : b == a + inject_Z (Z.of_nat m) * step_of a b (S m)).
  { unfold step_of in *.
    replace (Z.of_nat (S m) - 1)%Z with (Z.of_nat m) in * by lia.
    field. exact Hd. }
  unfold linspace, arange.
  replace (0 <? Z.of_nat (S m) - 1)%Z with true by (symmetry; apply Z.ltb_lt; lia).
  replace (1 <? Z.of_nat (S m))%Z with true by (symmetry; apply Z.ltb_lt; lia).
  cbn [fsub fdiv of_int feqb fmul fadd exact_num exact_lift2 exact_div].
  rewrite Hdb. fold (step_of a b (S m)).
  cbn [exact_eqb].
  rewrite seq_S, !map_app. cbn [map Nat.add].
  destruct (Qeq_bool (step_of a b (S m)) (inject_Z 0)) eqn:Ez.
  - exists (map (fun i => inject_Z (Z.of_nat i) / inject_Z (Z.of_nat (S m) - 1)
                          * (b - a) + a) (seq 0 m)).
    split; [|split].
    + rewrite !map_app, !map_map. cbn [map].
      rewrite set_last_snoc. f_equal. f_equal.
      apply map_ext. intros i. unfold exact_div. now rewrite Hdb.
    + rewrite length_app, length_map, length_seq. cbn. lia.
    + apply spaced_app.
      * eapply spaced_eq; [|apply spaced_map_seq with (k := 0%nat) (a := a)].
        -- cbn. ring.
        -- intros i. unfold step_of. field. exact Hd.
      * rewrite length_map, length_seq. cbn. split; [exact Hlast | exact I].
  - exists (map (fun i => inject_Z (Z.of_nat i) * step_of a b (S m) + a)
                (seq 0 m)).
    split; [|split].
    + rewrite !map_app, !map_map. cbn [map].
      rewrite set_last_snoc. reflexivity.
    + rewrite length_app, length_map, length_seq. cbn. lia.
    + apply spaced_app.
      * eapply spaced_eq; [|apply spaced_map_seq with (k := 0%nat) (a := a)].
        -- cbn. ring.
        -- intros i. ring.
      * rewrite length_map, length_seq. cbn. split; [exact Hlast | exact I].
Qed.

Lemma lone_shift_exact h :
  exists s, lone_shift (Fin h) = Fin s /\ s == - (h * (1 # 2)).
Proof.
  eexists. split; [reflexivity|]. unfold inject_Z. field.
Qed.

Lemma deformation_scaled e : scaled_identity e (deformation (Fin e)).
Proof.
  eexists _, _. split; [|split; [|reflexivity]]; unfold inject_Z; ring.
Qed.

Lemma deformations_scaled ys :
  Forall2 scaled_identity ys (map deformation (map Fin ys)).
Proof.
  induction ys as [|y ys IH]; constructor;
    [apply deformation_scaled | exact IH].
Qed.

Lemma spaced_hd h lo ys d : ys <> [] -> spaced h lo ys -> hd d ys == lo.
Proof. destruct ys as [|y ys]; [congruence|]. now intros _ [Hy _]. Qed.

End StrainFacts.

(* ===================================================================== *)
(** ** More facts: names, file names, keywords *)
(* ===================================================================== *)

Module MoreFacts.
Import Numeric Jobflow Properties MoreProperties JobflowFacts.

Section Facts.
Context {num : Type} `{Num num}.

(** *** Names *)

Lemma strip_append_name s : forall n : Node num,
  strip_names (append_name s n) = strip_names n.
Proof.
  fix IH 1. intros [j|nm u js o]; [reflexivity|].
  cbn [append_name strip_names]. f_equal. rewrite map_map.
  induction js as [|x js IHjs]; [reflexivity|].
  cbn [map]. now rewrite IH, IHjs.
Qed.

Lemma strip_set_name nm (n : Node num) :
  strip_names (set_name nm n) = strip_names n.
Proof. destruct n; reflexivity. Qed.

Lemma strip_decorate s (n : Node num) :
  strip_names (decorate s n) = strip_names n.
Proof.
  destruct n as [j|nm u js o]; [reflexivity|].
  cbn [decorate]. destruct (1 <? length js)%nat; [|reflexivity].
  cbn [strip_names]. f_equal. rewrite map_map.
  apply map_ext. intros x. apply strip_append_name.
Qed.

Lemma node_output_decorate s (n : Node num) :
  node_output (decorate s n) = node_output n.
Proof.
  destruct n as [j|nm u js o]; [reflexivity|].
  cbn [decorate]. now destruct (1 <? length js)%nat.
Qed.

Lemma node_name_decorate s (n : Node num) :
  node_name (decorate s n) = node_name n.
Proof.
  destruct n as [j|nm u js o]; [reflexivity|].
  cbn [decorate]. now destruct (1 <? length js)%nat.
Qed.

Lemma node_name_set_name nm (n : Node num) : node_name (set_name nm n) = nm.
Proof. destruct n; reflexivity. Qed.

Lemma node_name_add_to_name s (n : Node num) :
  node_name (add_to_name s n) = (node_name n ++ s)%string.
Proof. unfold add_to_name. apply node_name_set_name. Qed.

Lemma node_output_add_to_name s (n : Node num) :
  node_output (add_to_name s n) = node_output n.
Proof. unfold add_to_name. apply node_output_set_name. Qed.

(** *** The override of the file names *)

Lemma dict_update_other (upd d : Dict num) k :
  ~ In k (map fst upd) -> dict_get (dict_update d upd) k = dict_get d k.
Proof.
  unfold dict_update. revert d.
  induction upd as [|[k' v] upd IH]; intros d Hk; [reflexivity|].
  cbn [fold_left fst snd]. cbn [map fst In] in Hk.
  rewrite IH by tauto. apply dict_get_set_other. tauto.
Qed.

Lemma on_last_update_inv upd (js js' : list (Node num)) :
  Gruneisen.on_last (Gruneisen.update_kwargs upd) js = inr js' ->
  exists l j,
    js = l ++ [JobN j] /\
    js' = l ++ [JobN {| job_name := job_name j; job_uuid := job_uuid j;
                        function := function j;
                        function_args := function_args j;
                        function_kwargs :=
                          dict_update (function_kwargs j) upd |}].
Proof.
  revert js'. induction js as [|x rest IH]; intros js' E; [discriminate|].
  destruct rest as [|y rest'].
  - cbn in E. destruct x as [j|]; [|discriminate].
    injection E as <-. exists [], j. split; reflexivity.
  - change (Gruneisen.on_last (Gruneisen.update_kwargs upd) (x :: y :: rest'))
      with (match Gruneisen.on_last (Gruneisen.update_kwargs upd) (y :: rest')
            with inl e => inl e | inr r => inr (x :: r) end) in E.
    destruct (Gruneisen.on_last _ (y :: rest')) as [e|r] eqn:Er;
      [discriminate|].
    injection E as <-.
    destruct (IH r eq_refl) as (l & j & El & Er').
    exists (x :: l), j. rewrite El, Er'. split; reflexivity.
Qed.

(** *** Repeated keywords *)

Lemma append_assoc (a b c : string) :
  ((a ++ b) ++ c = a ++ (b ++ c))%string.
Proof. induction a as [|x a IH]; cbn; [reflexivity | now rewrite IH]. Qed.

(** A flow whose file names were overridden for [branch] carries the prefix
    [branch_]. *)
Lemma override_carries branch (raw n : Node num) :
  Gruneisen.override_filenames branch raw = inr n ->
  carries_prefix (branch ++ "_") n.
Proof.
  intros E. destruct raw as [j|nm u js o]; [discriminate|].
  cbn [Gruneisen.override_filenames] in E.
  destruct (Gruneisen.on_last _ js) as [e|js'] eqn:Eo; [discriminate|].
  injection E as <-.
  destruct (on_last_update_inv _ _ _ Eo) as (l & j & -> & ->).
  eexists nm, u, l, _, o. split; [reflexivity|].
  cbn [function_kwargs]. rewrite !append_assoc.
  unfold dict_update, Gruneisen.filename_overrides. cbn [fold_left fst snd].
  repeat split;
    repeat (rewrite dict_get_set_other by discriminate);
    apply dict_get_set_same.
Qed.

Lemma carries_file_names prefix (n : Node num) :
  carries_prefix prefix n ->
  file_names n
  = map Some [ prefix ++ "phonopy.yaml";
               prefix ++ "phonon_band_structure.yaml";
               prefix ++ "phonon_dos.yaml";
               prefix ++ "phonon_band_structure.pdf";
               prefix ++ "phonon_dos.pdf" ]%string.
Proof.
  intros (nm & u & js & j & o & -> & H1 & H2 & H3 & H4 & H5).
  unfold file_names. rewrite last_last. cbn [map filename_keys].
  now rewrite H1, H2, H3, H4, H5.
Qed.

Lemma explicit_has_name (self : Gruneisen.BaseGruneisenMaker num) d1 d2 g k :
  In k keyword_names ->
  dict_has (Gruneisen.explicit_keywords self d1 d2 g) k = true.
Proof.
  intros Hk. cbn in Hk.
  repeat (destruct Hk as [<-|Hk]; [reflexivity|]). contradiction.
Qed.

Lemma explicit_has_iff (self : Gruneisen.BaseGruneisenMaker num) d1 d2 g k :
  dict_has (Gruneisen.explicit_keywords self d1 d2 g) k = true
  <-> In k keyword_names.
Proof.
  split; [|apply explicit_has_name].
  intros Hh. destruct (in_dec string_dec k keyword_names) as [Hi|Hn];
    [exact Hi|].
  unfold dict_has in Hh. rewrite dict_get_notin in Hh by exact Hn.
  discriminate.
Qed.

Lemma merge_keywords_repeat (self : Gruneisen.BaseGruneisenMaker num)
    d1 d2 g extra :
  Exists (fun kv => In (fst kv) keyword_names) extra ->
  exists k,
    Gruneisen.merge_keywords (Gruneisen.explicit_keywords self d1 d2 g) extra
    = inl (TypeError k) /\
    In k keyword_names /\ In k (map fst extra).
Proof.
  intros Hx. unfold Gruneisen.merge_keywords.
  induction extra as [|[k v] extra IH]; [inversion Hx|].
  cbn [find fst].
  destruct (dict_has (Gruneisen.explicit_keywords self d1 d2 g) k) eqn:Eh.
  - exists k. split; [reflexivity|]. split; [now apply explicit_has_iff in Eh|].
    now left.
  - inversion Hx as [? ? Hk|? ? Hrest]; subst.
    + cbn [fst] in Hk. apply (explicit_has_name self d1 d2 g) in Hk.
      congruence.
    + destruct (IH Hrest) as (k' & E & Hn & Hi).
      exists k'. split; [|split; [exact Hn | now right]].
      destruct (find _ extra) as [[k0 v0]|]; [exact E | discriminate E].
Qed.

End Facts.
End MoreFacts.

(* ===================================================================== *)
(** ** More facts: the frames and the Maker's data *)
(* ===================================================================== *)

Module MoreEosFacts.
Import Numeric Jobflow Properties MoreProperties JobflowFacts EosFacts MoreFacts Eos.

Section Facts.
Context {num : Type} `{Num num}.

(** Collecting the output reads and writes no state. *)
Lemma for_each_lift_state {A B} (f : B -> A -> Exc + B) (xs : list A) :
  forall (acc : B) (st : State num),
    snd (for_each xs (fun b a => lift (f b a)) acc st) = st.
Proof.
  induction xs as [|x xs IH]; intros acc st; [reflexivity|].
  cbn [for_each]. unfold bind, lift at 1.
  destruct (f acc x); [reflexivity | apply IH].
Qed.

Lemma collect_body_state key (fo : Dict num) job st :
  snd (collect_body key fo job st) = st.
Proof.
  unfold collect_body, bind, lift.
  repeat match goal with
         | |- context [extend ?a ?b ?c ?d] => destruct (extend a b c d)
         end; reflexivity.
Qed.

Lemma collect_jobs_state key js :
  forall (fo : Dict num) st, snd (for_each js (collect_body key) fo st) = st.
Proof.
  induction js as [|j js IH]; intros fo st; [reflexivity|].
  cbn [for_each]. unfold bind.
  pose proof (collect_body_state key fo j st) as Hb.
  destruct (collect_body key fo j st) as [[e|fo'] st1]; cbn [snd] in Hb;
    subst st1; [reflexivity | apply IH].
Qed.

Lemma collect_state (self : CommonEosMaker num) jobs fo st :
  snd (collect self jobs fo st) = st.
Proof.
  unfold collect. generalize (job_types self). intros keys. revert fo st.
  induction keys as [|key keys IH]; intros fo st; [reflexivity|].
  cbn [for_each]. unfold bind, lift.
  destruct (jobs_of jobs key) as [e|js]; [reflexivity|].
  pose proof (collect_jobs_state key js fo st) as Hb.
  destruct (for_each js (collect_body key) fo st) as [[e|fo'] st1];
    cbn [snd] in Hb; subst st1; [reflexivity | apply IH].
Qed.

(** [aggregate] up to the loop over the frames: the equilibrium jobs, the
    samples and the job that applies the strain; then the loop and the
    collection. *)
Lemma aggregate_unfold (self : CommonEosMaker num) structure prev_dir st :
  (0 <= number_of_frames self)%Z ->
  exists eq_relax eq_static structure' prev_dir' strain_l t fo_pre st_pre,
    equilibrium_jobs st self structure prev_dir eq_relax eq_static
                     structure' prev_dir' /\
    strain_samples self = inr strain_l /\
    function t = "apply_strain_to_structure" /\
    function_args t = [structure'; deformation_value (map deformation strain_l)] /\
    heap st_pre = heap st /\
    dicts st_pre = dicts st /\
    aggregate self structure prev_dir st
    = bind (for_each (seq 0 (Z.to_nat (number_of_frames self)))
                     (frame_body self t prev_dir')
                     {| relax := eq_relax; static := eq_static;
                        utility := [JobN t] |})
           (fun jobs => bind (collect self jobs fo_pre)
                             (fun fo => ret (jobs, fo)))
           st_pre.
Proof.
  intros HN.
  destruct (strain_samples_length self HN) as (strain_l & Es & _).
  unfold aggregate, equilibrium, equilibrium_jobs. rewrite Es.
  destruct (initial_relax_maker self) as [irm|];
    destruct (static_maker self) as [sm|].
  - unfold bind at 1 2 3, call_maker, ret. cbn -[bind for_each collect].
    run_maker. run_maker.
    unfold bind at 1 2, lift, new_job. cbn -[bind for_each collect].
    eexists [_], [_], _, _, strain_l, _, _, _.
    repeat match goal with |- _ /\ _ => split end; revgoals.
    all: try reflexivity.
    eexists _, _. repeat (split; [try reflexivity; eauto using made_by_intro|]).
    eexists. split; [eauto using made_by_intro | reflexivity].
  - unfold bind at 1 2, call_maker, ret. cbn -[bind for_each collect].
    run_maker.
    unfold bind at 1 2, lift, new_job. cbn -[bind for_each collect].
    eexists [_], [], _, _, strain_l, _, _, _.
    repeat match goal with |- _ /\ _ => split end; revgoals.
    all: try reflexivity.
    eexists _, _. repeat (split; [try reflexivity; eauto using made_by_intro|]).
    reflexivity.
  - unfold bind at 1, ret. cbn -[bind for_each collect].
    unfold bind at 1 2, lift, new_job. cbn -[bind for_each collect].
    eexists [], [], _, _, strain_l, _, _, _.
    repeat match goal with |- _ /\ _ => split end; revgoals.
    all: reflexivity.
  - unfold bind at 1, ret. cbn -[bind for_each collect].
    unfold bind at 1 2, lift, new_job. cbn -[bind for_each collect].
    eexists [], [], _, _, strain_l, _, _, _.
    repeat match goal with |- _ /\ _ => split end; revgoals.
    all: reflexivity.
Qed.

(** Reading the Maker's data. *)
Lemma additional_data_inv (st : State num) a d :
  additional_data st a = Some d ->
  exists da, write_additional_data (heap st a) = Some da /\ dicts st da = d.
Proof.
  unfold additional_data.
  destruct (write_additional_data (heap st a)) as [da|]; [|discriminate].
  intros [= <-]. now exists da.
Qed.

(** The loop of lines 145-176 when transformations are stored and the Maker
    has the attribute: each frame's relaxation is made while the Maker holds
    that frame's transformation, and the last frame's stays behind. *)
Lemma frames_store (self : CommonEosMaker num) t prev_dir d st0 idxs :
  _store_transformation_information self = true ->
  forall jobs st,
    same_makers st0 st ->
    data_up_to_entry d st (eos_relax_maker self) ->
    exists rs ss st',
      for_each idxs (frame_body self t prev_dir) jobs st
      = (inr {| relax := relax jobs ++ rs; static := static jobs ++ ss;
                utility := utility jobs |}, st') /\
      same_makers st0 st' /\
      data_up_to_entry d st' (eos_relax_maker self) /\
      Forall2 (frame_relax_with_data st0 self d t prev_dir) idxs rs /\
      (idxs <> [] ->
       additional_data st' (eos_relax_maker self)
       = Some (frame_data d t (last idxs 0%nat))).
Proof.
  intros Hflag. induction idxs as [|i idxs IH]; intros jobs st Hs Hd.
  - exists [], [], st. cbn. rewrite !app_nil_r. destruct jobs.
    repeat split; auto. congruence.
  - destruct Hd as (dcur & Ew & Hset).
    destruct (additional_data_inv _ _ _ Ew) as (da & Eda & Edc).
    destruct st as [nu hp ds]. unfold same_makers in Hs. cbn in Hs, Eda, Edc.
    subst hp. clear Ew.
    cbn [for_each]. unfold bind at 1. unfold frame_body at 1.
    rewrite Hflag. unfold bind at 1. unfold store_additional_data at 1.
    cbn [heap]. rewrite Eda. cbn -[for_each bind frame_body].
    unfold bind at 1, call_maker at 1, additional_data at 1.
    cbn -[for_each bind frame_body].
    rewrite Eda. cbn -[for_each bind frame_body].
    rewrite Nat.eqb_refl, Edc, !Hset. fold (frame_data d t i).
    set (ds1 := fun b : daddr =>
                  if Nat.eqb b da then frame_data d t i else ds b).
    assert (Hw1 : forall u,
               additional_data {| next_uuid := u; heap := heap st0;
                                  dicts := ds1 |} (eos_relax_maker self)
               = Some (frame_data d t i)).
    { intros u. unfold additional_data. cbn. rewrite Eda. cbn.
      unfold ds1. now rewrite Nat.eqb_refl. }
    assert (Hd1 : forall u,
               data_up_to_entry d {| next_uuid := u; heap := heap st0;
                                     dicts := ds1 |} (eos_relax_maker self)).
    { intros u. exists (frame_data d t i). split; [apply Hw1|].
      intros v. unfold frame_data. apply dict_set_set. }
    destruct (maker_make (heap st0 (eos_relax_maker self)) _ _ _ _)
      as [raw u] eqn:Er.
    cbn -[for_each bind frame_body].
    assert (Hr : frame_relax_with_data st0 self d t prev_dir i
                   (decorate (" deformation " ++ str_of_nat i)
                      (add_to_name (" deformation " ++ str_of_nat i) raw))).
    { exists nu. now rewrite Er. }
    destruct (static_maker self) as [sm|] eqn:Esm.
    + unfold bind at 1, call_maker at 1, ret.
      cbn -[for_each bind frame_body].
      match goal with
      | |- context [maker_make ?m ?w ?s ?p ?u0] =>
          destruct (maker_make m w s p u0) as [raws u'] eqn:Es
      end.
      cbn -[for_each bind frame_body].
      match goal with
      | |- context [for_each idxs _ ?j ?s] =>
          destruct (IH j s) as (rs & ss & st' & E & Hs' & Hd' & Hrs & Hlast)
      end.
      { reflexivity. }
      { apply Hd1. }
      rewrite E. unfold append_static, append_relax.
      cbn [relax static utility].
      eexists (_ :: rs), (_ :: ss), st'.
      split; [do 3 f_equal; symmetry; apply (app_assoc _ [_] _)|].
      split; [exact Hs'|]. split; [exact Hd'|].
      split; [constructor; assumption|].
      intros _. destruct idxs as [|i' idxs'].
      * apply (f_equal snd) in E. cbn in E. subst st'. apply Hw1.
      * rewrite Hlast by discriminate. reflexivity.
    + unfold ret. cbn -[for_each bind frame_body].
      match goal with
      | |- context [for_each idxs _ ?j ?s] =>
          destruct (IH j s) as (rs & ss & st' & E & Hs' & Hd' & Hrs & Hlast)
      end.
      { reflexivity. }
      { apply Hd1. }
      rewrite E. unfold append_static, append_relax.
      cbn [relax static utility].
      eexists (_ :: rs), ss, st'.
      split; [do 3 f_equal; symmetry; apply (app_assoc _ [_] _)|].
      split; [exact Hs'|]. split; [exact Hd'|].
      split; [constructor; assumption|].
      intros _. destruct idxs as [|i' idxs'].
      * apply (f_equal snd) in E. cbn in E. subst st'. apply Hw1.
      * rewrite Hlast by discriminate. reflexivity.
Qed.

(** Every step of [make] leaves the Maker objects alone. *)
Lemma frames_heap (self : CommonEosMaker num) t prev_dir idxs :
  forall jobs st,
    heap (snd (for_each idxs (frame_body self t prev_dir) jobs st)) = heap st.
Proof.
  induction idxs as [|i idxs IH]; intros jobs st; [reflexivity|].
  cbn [for_each]. unfold bind at 1.
  destruct (frame_body_spec self t prev_dir st jobs i st eq_refl)
    as (r & ss & st1 & E & Hs & _).
  rewrite E. rewrite IH. exact Hs.
Qed.

(** The same loop when nothing can be stored: the flag is off, or the Maker
    has no [write_additional_data] and the write is suppressed.  No
    dictionary changes. *)
Lemma frames_without_attribute (self : CommonEosMaker num) t prev_dir idxs :
  forall jobs st,
    _store_transformation_information self = false \/
    write_additional_data (heap st (eos_relax_maker self)) = None ->
    dicts (snd (for_each idxs (frame_body self t prev_dir) jobs st))
    = dicts st.
Proof.
  induction idxs as [|i idxs IH]; intros jobs st Hw; [reflexivity|].
  cbn [for_each]. unfold bind at 1. unfold frame_body at 1.
  assert (Est : (if _store_transformation_information self
                 then store_additional_data (eos_relax_maker self)
                        "transformations:json" (VRef (transformation t i))
                 else ret tt) st = (inr tt, st)).
  { destruct Hw as [-> | Hw]; [reflexivity|].
    destruct (_store_transformation_information self); [|reflexivity].
    unfold store_additional_data. now rewrite Hw. }
  unfold bind at 1. rewrite Est.
  unfold bind at 1, call_maker at 1. run_maker.
  destruct (static_maker self) as [sm|].
  - unfold bind at 1, call_maker at 1, ret. cbn -[for_each bind frame_body].
    run_maker. rewrite IH; [reflexivity | exact Hw].
  - unfold ret. rewrite IH; [reflexivity | exact Hw].
Qed.

(** The store after [make] is the store after the loop over the frames, and
    the jobs [aggregate] returns are those the loop returns. *)
Lemma make_after_frames (self : CommonEosMaker num) structure prev_dir st :
  (0 <= number_of_frames self)%Z ->
  exists eq_relax eq_static structure' prev_dir' strain_l t st_pre,
    equilibrium_jobs st self structure prev_dir eq_relax eq_static
                     structure' prev_dir' /\
    strain_samples self = inr strain_l /\
    function t = "apply_strain_to_structure" /\
    function_args t = [structure'; deformation_value (map deformation strain_l)] /\
    heap st_pre = heap st /\
    dicts st_pre = dicts st /\
    dicts (snd (make self structure prev_dir st))
    = dicts (snd (for_each (seq 0 (Z.to_nat (number_of_frames self)))
                           (frame_body self t prev_dir')
                           {| relax := eq_relax; static := eq_static;
                              utility := [JobN t] |} st_pre)) /\
    forall jobs fo st1,
      aggregate self structure prev_dir st = (inr (jobs, fo), st1) ->
      fst (for_each (seq 0 (Z.to_nat (number_of_frames self)))
                    (frame_body self t prev_dir')
                    {| relax := eq_relax; static := eq_static;
                       utility := [JobN t] |} st_pre)
      = inr jobs.
Proof.
  intros HN.
  destruct (aggregate_unfold self structure prev_dir st HN)
    as (eq_relax & eq_static & s' & p' & strain_l & t & fo_pre & st_pre &
        Heq & Es & Ht & Hargs & Hh & Hds & Ea).
  exists eq_relax, eq_static, s', p', strain_l, t, st_pre.
  repeat (split; [assumption|]).
  unfold make. unfold bind at 1. rewrite Ea. unfold bind at 1 3.
  destruct (for_each _ _ _ st_pre) as [[e|jobs] st'] eqn:El; cbn [fst snd].
  - split; [reflexivity | discriminate].
  - unfold bind. pose proof (collect_state self jobs fo_pre st') as Hc.
    destruct (collect self jobs fo_pre st') as [[e|fo] st''];
      cbn [snd] in Hc; subst st''.
    + split; [reflexivity | discriminate].
    + unfold ret. split; [apply finish_dicts|].
      intros jobs' fo' st1 [= <- _ _]. reflexivity.
Qed.

Lemma last_seq n : (0 < n)%nat -> last (seq 0 n) 0%nat = (n - 1)%nat.
Proof.
  intros Hn. destruct n as [|m]; [lia|].
  rewrite seq_S, last_last. cbn. lia.
Qed.

(** A negative count: numpy refuses it, after the equilibrium jobs were
    made, and nothing in the store has changed. *)
Lemma make_negative (self : CommonEosMaker num) structure prev_dir st :
  (number_of_frames self < 0)%Z ->
  exists st',
    make self structure prev_dir st
    = (inl (ValueError (negative_count_message (number_of_frames self))), st') /\
    heap st' = heap st /\ dicts st' = dicts st.
Proof.
  intros HN.
  unfold make, aggregate, strain_samples, np_linspace, equilibrium.
  destruct (number_of_frames self <? 0)%Z eqn:E; [|lia].
  destruct (initial_relax_maker self); [destruct (static_maker self)|];
    unfold bind, call_maker, ret, lift; cbn;
    repeat (run_maker; cbn); eexists; repeat split; reflexivity.
Qed.

(** [make] rebinds no attribute of a Maker. *)
Lemma make_heap (self : CommonEosMaker num) structure prev_dir st :
  heap (snd (make self structure prev_dir st)) = heap st.
Proof.
  destruct (Z.neg_nonneg_cases (number_of_frames self)) as [HN|HN].
  - destruct (make_negative self structure prev_dir st HN)
      as (st' & -> & Hh & _). exact Hh.
  - destruct (make_spec self structure prev_dir st HN)
      as (jobs & fo & st1 & _ & -> & Hagg).
    rewrite finish_heap.
    destruct Hagg as (? & ? & ? & ? & ? & ? & ? & ? & _ & _ & _ & _ & _ & _ &
                      _ & _ & _ & Hs & _).
    exact Hs.
Qed.

(** With the flag set and a Maker that has the attribute: the jobs of the
    frames and the entry that stays behind. *)
Lemma make_store (self : CommonEosMaker num) structure prev_dir st d :
  (0 <= number_of_frames self)%Z ->
  _store_transformation_information self = true ->
  additional_data st (eos_relax_maker self) = Some d ->
  exists jobs fo st1 eq_relax eq_static structure' prev_dir' t rs,
    aggregate self structure prev_dir st = (inr (jobs, fo), st1) /\
    make self structure prev_dir st = finish self jobs fo st1 /\
    equilibrium_jobs st self structure prev_dir eq_relax eq_static
                     structure' prev_dir' /\
    relax jobs = eq_relax ++ rs /\
    utility jobs = [JobN t] /\
    function t = "apply_strain_to_structure" /\
    Forall2 (frame_relax_with_data st self d t prev_dir')
            (seq 0 (Z.to_nat (number_of_frames self))) rs /\
    ((0 < number_of_frames self)%Z ->
     additional_data (snd (make self structure prev_dir st))
                     (eos_relax_maker self)
     = Some (frame_data d t (Z.to_nat (number_of_frames self) - 1))).
Proof.
  intros HN Hflag Hw.
  destruct (make_spec self structure prev_dir st HN)
    as (jobs & fo & st1 & Ea & Em & _).
  destruct (make_after_frames self structure prev_dir st HN)
    as (eq_relax & eq_static & s' & p' & strain_l & t & st_pre &
        Heq & _ & Ht & _ & Hh & Hds & Hdicts & Hjobs).
  specialize (Hjobs jobs fo st1 Ea).
  destruct (frames_store self t p' d st
              (seq 0 (Z.to_nat (number_of_frames self))) Hflag
              {| relax := eq_relax; static := eq_static; utility := [JobN t] |}
              st_pre)
    as (rs & ss & st' & El & Hs' & _ & Hrs & Hlast).
  { exact Hh. }
  { exists d. unfold additional_data in *. rewrite Hh, Hds.
    split; [exact Hw | reflexivity]. }
  rewrite El in Hjobs, Hdicts. cbn [fst snd relax static utility] in *.
  injection Hjobs as <-.
  exists {| relax := eq_relax ++ rs; static := eq_static ++ ss;
            utility := [JobN t] |}, fo, st1, eq_relax, eq_static, s', p', t, rs.
  repeat (split; [first [assumption | reflexivity]|]).
  intros Hpos.
  assert (Hne : seq 0 (Z.to_nat (number_of_frames self)) <> []).
  { destruct (Z.to_nat (number_of_frames self)) eqn:E; [lia | discriminate]. }
  specialize (Hlast Hne). rewrite last_seq in Hlast by lia.
  rewrite <- Hlast. unfold additional_data. rewrite make_heap, Hdicts.
  unfold same_makers in Hs'. now rewrite Hs'.
Qed.

(** Nothing to store: the flag is off, the Maker has no
    [write_additional_data], or there is no frame.  [make] changes no
    dictionary. *)
Lemma make_without_store (self : CommonEosMaker num) structure prev_dir st :
  _store_transformation_information self = false \/
  write_additional_data (heap st (eos_relax_maker self)) = None \/
  (number_of_frames self <= 0)%Z ->
  dicts (snd (make self structure prev_dir st)) = dicts st.
Proof.
  intros Hw.
  destruct (Z.neg_nonneg_cases (number_of_frames self)) as [HN|HN].
  - destruct (make_negative self structure prev_dir st HN)
      as (st' & -> & _ & Hd). exact Hd.
  - destruct (make_after_frames self structure prev_dir st HN)
      as (eq_relax & eq_static & s' & p' & strain_l & t & st_pre &
          _ & _ & _ & _ & Hh & Hds & Hdicts & _).
    rewrite Hdicts. destruct Hw as [Hf | [Hn | Hz]].
    + rewrite frames_without_attribute; [exact Hds | now left].
    + rewrite frames_without_attribute; [exact Hds | right; now rewrite Hh].
    + replace (number_of_frames self) with 0%Z by lia. exact Hds.
Qed.

(** Every relax and static job of the flow is what its Maker returned, but
    for names. *)
Lemma aggregation_renamed (self : CommonEosMaker num) structure prev_dir st
    jobs fo st' :
  aggregation self structure prev_dir st jobs fo st' ->
  Forall (made_and_renamed st) (relax jobs) /\
  Forall (made_and_renamed st) (static jobs).
Proof.
  intros (eq_relax & eq_static & s' & p' & strain_l & t & rs & ss &
          -> & _ & Heq & _ & _ & _ & _ & Hrs & Hss & _).
  cbn [relax static].
  assert (Hfr : Forall (made_and_renamed st) rs).
  { clear Hss. induction Hrs as [|i r idxs rs (raw & Hm & ->) _ IH];
      constructor; [|exact IH].
    eexists _, _, _, raw. split; [exact Hm|].
    unfold add_to_name.
    rewrite strip_decorate, strip_set_name, node_output_decorate,
      node_output_set_name. split; reflexivity. }
  assert (Hfs : Forall (made_and_renamed st) ss).
  { unfold frame_statics in Hss. destruct (static_maker self) as [sm|];
      [|subst ss; constructor].
    clear Hfr Hrs. induction Hss as [|ir s irs ss (raw & Hm & ->) _ IH];
      constructor; [|exact IH].
    eexists _, _, _, raw. split; [exact Hm|].
    unfold add_to_name. rewrite strip_set_name, node_output_set_name.
    split; reflexivity. }
  unfold equilibrium_jobs in Heq.
  destruct (initial_relax_maker self) as [irm|].
  - destruct Heq as (raw & r0 & Hm & -> & -> & _ & _ & Hst).
    split.
    + constructor; [|exact Hfr].
      eexists _, _, _, raw. split; [exact Hm|].
      rewrite strip_decorate, strip_set_name, node_output_decorate,
        node_output_set_name. split; reflexivity.
    + destruct (static_maker self) as [sm|].
      * destruct Hst as (raws & Hms & ->). constructor; [|exact Hfs].
        eexists _, _, _, raws. split; [exact Hms|].
        rewrite strip_set_name, node_output_set_name. split; reflexivity.
      * subst eq_static. exact Hfs.
  - destruct Heq as (-> & -> & _ & _). split; assumption.
Qed.

End Facts.
End MoreEosFacts.

(* ===================================================================== *)
(** ** More facts: the samples at the edges *)
(* ===================================================================== *)

Module MoreStrainFacts.
Import Numeric Properties MoreProperties EosFacts StrainFacts.

Section Generic.
Context {num : Type} `{Num num}.

Lemma kept_refl (l : list num) : Forall2 kept_off_zero l l.
Proof. induction l; constructor; [intros _; reflexivity | assumption]. Qed.

Lemma masked_add_kept (l : list num) :
  forall shift, Forall2 kept_off_zero l (masked_add l shift).
Proof.
  induction l as [|x l IH]; intros shift; [constructor|].
  cbn [masked_add]. destruct (zero_strain x) eqn:Ez.
  - destruct shift as [|s shift]; constructor; auto;
      intros Hx; unfold kept_off_zero in *; congruence.
  - constructor; [intros _; reflexivity | apply IH].
Qed.

Lemma perturb_kept (l : list num) delta :
  Forall2 kept_off_zero l (perturb_zero_strain l delta).
Proof.
  unfold perturb_zero_strain.
  destruct (existsb _ _); [apply masked_add_kept | apply kept_refl].
Qed.

Lemma Forall2_last {A B} (R : A -> B -> Prop) l l' d d' :
  Forall2 R l l' -> l <> [] -> R (last l d) (last l' d').
Proof.
  induction 1 as [|x y l l' Hxy Hl IH]; [congruence|].
  intros _. destruct Hl as [|x' y' l l' Hxy' Hl]; [exact Hxy|].
  apply IH. discriminate.
Qed.

(** The last of two or more samples is the upper end itself. *)
Lemma linspace_last (a b d : num) n :
  (2 <= n)%nat ->
  last (fst (linspace a b n)) d = b /\ fst (linspace a b n) <> [].
Proof.
  intros Hn. unfold linspace.
  replace (1 <? Z.of_nat n)%Z with true by (symmetry; apply Z.ltb_lt; lia).
  destruct (0 <? Z.of_nat n - 1)%Z; [destruct (feqb _ _)|]; cbn [fst];
    match goal with
    | |- context [set_last ?l b] =>
        assert (Hl : l <> []) by
          (unfold arange; destruct n; [lia | discriminate]);
        unfold set_last; destruct l as [|x r] eqn:El; [congruence|];
        rewrite <- El, last_last; split; [reflexivity|];
        destruct (removelast l); discriminate
    end.
Qed.

(** *** The perturbation, sample by sample *)

Lemma shifted_none (l shifts : list num) :
  on_zero l = 0%nat -> shifted_on_zero l shifts l.
Proof.
  unfold on_zero. induction l as [|x l IH]; [constructor|].
  cbn [filter]. destruct (zero_strain x) eqn:Ez; [discriminate|].
  intros Hc. constructor; auto.
Qed.

Lemma masked_add_shifted (l : list num) :
  forall shifts,
    (on_zero l <= length shifts)%nat ->
    shifted_on_zero l shifts (masked_add l shifts).
Proof.
  unfold on_zero. induction l as [|x l IH]; intros shifts Hc; [constructor|].
  cbn [masked_add filter] in *. destruct (zero_strain x) eqn:Ez.
  - destruct shifts as [|s shifts]; [cbn in Hc; lia|].
    constructor; [exact Ez|]. apply IH. cbn in Hc. lia.
  - constructor; [exact Ez|]. now apply IH.
Qed.

Lemma zero_shifts_length (delta : num) nzs :
  length (zero_shifts delta nzs) = nzs.
Proof. unfold zero_shifts. now rewrite length_map, linspace_length. Qed.

(** Lines 133-137: the samples on zero receive the shifts, one each. *)
Lemma perturb_shifted (l : list num) delta :
  shifted_on_zero l (zero_shifts delta (on_zero l))
                  (perturb_zero_strain l delta).
Proof.
  unfold perturb_zero_strain. rewrite existsb_mask.
  change (length (filter zero_strain l)) with (on_zero l).
  change (map _ (fst (linspace (of_int (-1)) (of_int 1) (on_zero l))))
    with (zero_shifts delta (on_zero l)).
  destruct (filter zero_strain l) as [|z r] eqn:Ef.
  - apply shifted_none. unfold on_zero. now rewrite Ef.
  - apply masked_add_shifted. now rewrite zero_shifts_length.
Qed.

Lemma moved_by_off_zero s (l : list num) :
  on_zero l = 0%nat -> Forall2 (moved_by s) l l.
Proof.
  unfold on_zero. induction l as [|x l IH]; [constructor|].
  cbn [filter]. destruct (zero_strain x) eqn:Ez; [discriminate|].
  intros Hc. constructor; [unfold moved_by; now rewrite Ez | auto].
Qed.

Lemma masked_add_lone s (l : list num) :
  (on_zero l <= 1)%nat -> Forall2 (moved_by s) l (masked_add l [s]).
Proof.
  unfold on_zero. induction l as [|x l IH]; intros Hc; [constructor|].
  cbn [masked_add filter] in *. destruct (zero_strain x) eqn:Ez.
  - assert (Hz : filter zero_strain l = []).
    { destruct (filter zero_strain l); [reflexivity | cbn in Hc; lia]. }
    rewrite masked_add_none by exact Hz.
    constructor; [unfold moved_by; now rewrite Ez|].
    apply moved_by_off_zero. unfold on_zero. now rewrite Hz.
  - constructor; [unfold moved_by; now rewrite Ez | now apply IH].
Qed.

(** A lone sample on zero moves by [strain_delta / 2 * (-1)]. *)
Lemma perturb_lone (l : list num) delta :
  (on_zero l <= 1)%nat ->
  Forall2 (moved_by (lone_shift delta)) l (perturb_zero_strain l delta).
Proof.
  intros Hc. rewrite perturb_at_most_one by exact Hc.
  now apply masked_add_lone.
Qed.

(** *** The samples of [linspace], in closed form *)

Lemma set_last_app (l : list num) x v : set_last (l ++ [x]) v = l ++ [v].
Proof.
  unfold set_last. destruct (l ++ [x]) eqn:E.
  - destruct l; discriminate.
  - rewrite <- E, removelast_last. reflexivity.
Qed.

Lemma linspace_closed_form (a b : num) n :
  (2 <= n)%nat ->
  linspace a b n
  = (if feqb (linear_step a b n) (of_int 0)
     then linear_samples_zero_step a b n
     else linear_samples a b n,
     linear_step a b n).
Proof.
  intros Hn. unfold linspace, linear_samples, linear_samples_zero_step.
  fold (linear_step a b n).
  replace (0 <? Z.of_nat n - 1)%Z with true by (symmetry; apply Z.ltb_lt; lia).
  replace (1 <? Z.of_nat n)%Z with true by (symmetry; apply Z.ltb_lt; lia).
  destruct n as [|m]; [lia|].
  replace (S m - 1)%nat with m by lia.
  unfold arange. rewrite seq_S. cbn [Nat.add].
  destruct (feqb (linear_step a b (S m)) (of_int 0));
    rewrite !map_app, !map_map; cbn [map]; rewrite set_last_app;
    reflexivity.
Qed.

Lemma deformation_unit (e : num) : scaled_unit e (deformation e).
Proof. reflexivity. Qed.

Lemma deformations_unit (l : list num) :
  Forall2 scaled_unit l (map deformation l).
Proof.
  induction l; constructor; [apply deformation_unit | assumption].
Qed.

End Generic.

Local Open Scope Q_scope.

Lemma zeroQ_wd x y : x == y -> zeroQ x = zeroQ y.
Proof.
  intros E. destruct (zeroQ y) eqn:Ey.
  - apply zeroQ_true. rewrite E. now apply zeroQ_true.
  - apply zeroQ_false. rewrite E. now apply zeroQ_false.
Qed.

Lemma zeroQ_zero x : x == 0 -> zeroQ x = true.
Proof. intros E. now rewrite (zeroQ_wd x 0 E). Qed.

Lemma spaced_constant h lo a ys :
  h == 0 -> lo == a -> spaced h lo ys -> Forall (fun y => y == a) ys.
Proof.
  intros Hh. revert lo. induction ys as [|y ys IH]; intros lo Hlo;
    [constructor|].
  cbn [spaced]. intros [Hy Hr]. constructor; [now rewrite Hy|].
  apply (IH (lo + h)); [rewrite Hh, Hlo; ring | exact Hr].
Qed.

Lemma filter_all_on_zero a xs :
  zeroQ a = true -> Forall (fun x => x == a) xs ->
  filter zero_strain (map Fin xs) = map Fin xs.
Proof.
  intros Ha. induction 1 as [|x xs Hx _ IH]; [reflexivity|].
  cbn [map filter]. rewrite zero_strain_Fin, (zeroQ_wd x a Hx), Ha.
  now rewrite IH.
Qed.

Lemma filter_none_on_zero a xs :
  zeroQ a = false -> Forall (fun x => x == a) xs ->
  filter zero_strain (map Fin xs) = [].
Proof.
  intros Ha. induction 1 as [|x xs Hx _ IH]; [reflexivity|].
  cbn [map filter]. now rewrite zero_strain_Fin, (zeroQ_wd x a Hx), Ha.
Qed.

(** Samples that all sit on [a], itself on zero, shifted by shifts that are
    all zero, still all sit on [a]. *)
Lemma masked_add_constant a xs :
  zeroQ a = true ->
  forall ss,
    Forall (fun x => x == a) xs -> Forall (fun s => s == 0) ss ->
    length ss = length xs ->
    exists vs,
      masked_add (map Fin xs) (map Fin ss) = map Fin vs /\
      Forall (fun v => v == a) vs /\ length vs = length xs.
Proof.
  intros Ha. induction xs as [|x xs IH]; intros ss Hx Hs Hl.
  - exists []. repeat split; constructor.
  - destruct ss as [|s ss]; [discriminate|].
    inversion Hx as [|? ? Hx0 Hxs]; subst.
    inversion Hs as [|? ? Hs0 Hss]; subst.
    destruct (IH ss Hxs Hss) as (vs & E & Hv & Hlv); [cbn in Hl; lia|].
    exists ((x + s) :: vs).
    cbn [map masked_add]. rewrite zero_strain_Fin, (zeroQ_wd x a Hx0), Ha.
    rewrite E. split; [reflexivity|]. split.
    + constructor; [rewrite Hx0, Hs0; ring | exact Hv].
    + cbn. now rewrite Hlv.
Qed.

Lemma count_nonzero n : ~ inject_Z (Z.of_nat n) + inject_Z 1 == 0.
Proof.
  rewrite <- inject_Z_plus. unfold Qeq, inject_Z. cbn. lia.
Qed.

(** The perturbation of [n >= 2] samples that all sit on [a], with a zero
    step, moves none of them. *)
Lemma perturb_constant a h ys :
  h == 0 -> (2 <= length ys)%nat -> Forall (fun y => y == a) ys ->
  exists vs,
    perturb_zero_strain (map Fin ys) (Fin h) = map Fin vs /\
    Forall (fun v => v == a) vs /\ length vs = length ys.
Proof.
  intros Hh Hn Hy. unfold perturb_zero_strain. rewrite existsb_mask.
  destruct (zeroQ a) eqn:Ha.
  - rewrite (filter_all_on_zero a ys Ha Hy).
    destruct (map Fin ys) as [|y0 r] eqn:Ey.
    { exists ys. rewrite <- Ey. auto. }
    rewrite <- Ey. rewrite length_map.
    destruct (linspace_exact (inject_Z (-1)) (inject_Z 1) (length ys) Hn)
      as (ts & El & Hlt & _).
    change (of_int (-1)) with (Fin (inject_Z (-1))).
    change (of_int 1) with (Fin (inject_Z 1)).
    rewrite El. cbn [fst].
    change (of_int (Z.of_nat (length ys)))
      with (Fin (inject_Z (Z.of_nat (length ys)))).
    cbn [fdiv fadd exact_num exact_div exact_lift2].
    destruct (Qeq_bool _ 0) eqn:Eq.
    { apply Qeq_bool_iff in Eq. now apply count_nonzero in Eq. }
    set (c := h / _).
    assert (Hc : c == 0).
    { unfold c. rewrite Hh. unfold Qdiv. ring. }
    replace (map (fun t => fmul (Fin c) t) (map Fin (ts ++ [inject_Z 1])))
      with (map Fin (map (Qmult c) (ts ++ [inject_Z 1])))
      by (rewrite !map_map; reflexivity).
    apply (masked_add_constant a ys Ha); [exact Hy | |].
    + apply Forall_forall. intros s Hs. apply in_map_iff in Hs.
      destruct Hs as (t & <- & _). rewrite Hc. ring.
    + now rewrite length_map.
  - rewrite (filter_none_on_zero a ys Ha Hy). exists ys. auto.
Qed.

End MoreStrainFacts.

(* ===================================================================== *)
(** ** More facts: updating an empty mapping *)
(* ===================================================================== *)

Module SettingsFacts.
Import Numeric Jobflow.

Section Facts.
Context {num : Type}.

Lemma dict_set_fresh (d : Dict num) k v :
  ~ In k (map fst d) -> dict_set d k v = d ++ [(k, v)].
Proof.
  induction d as [|[k' v'] d IH]; intros Hk; [reflexivity|].
  cbn [dict_set]. destruct (String.eqb k' k) eqn:E.
  - apply String.eqb_eq in E. subst k'. exfalso. apply Hk. now left.
  - cbn [app]. rewrite IH; [reflexivity|]. intros Hin. apply Hk. now right.
Qed.

(** Updating with a mapping of fresh, distinct keys appends it. *)
Lemma dict_update_fresh (upd : Dict num) :
  forall d, NoDup (map fst (d ++ upd)) -> dict_update d upd = d ++ upd.
Proof.
  unfold dict_update.
  induction upd as [|[k v] upd IH]; intros d Hnd; cbn [fold_left fst snd].
  - now rewrite app_nil_r.
  - assert (Hk : ~ In k (map fst d)).
    { rewrite map_app in Hnd. cbn [map fst] in Hnd.
      apply NoDup_remove_2 in Hnd. intros Hin. apply Hnd, in_or_app.
      now left. }
    rewrite (dict_set_fresh d k v Hk), IH.
    + now rewrite <- app_assoc.
    + now rewrite <- app_assoc.
Qed.

End Facts.
End SettingsFacts.

(* ===================================================================== *)
(** ** Theorems: the Grueneisen builder *)
(* ===================================================================== *)

Import Numeric Jobflow Properties MoreProperties JobflowFacts GruneisenFacts
  MoreFacts Examples.

(** C1 (the code at a failing input): without a bulk-relaxation Maker,
    [make] reads the local [bulk] that was never bound and raises
    UnboundLocalError before any job is made; the state is untouched. *)
Theorem gruneisen_without_bulk_relax_raises :
  forall (num : Type) (NumOps : Num num) nm code cv kp ph pv mesh kw sp
         (structure : Value num) (st : State num),
    Gruneisen.make
      {| Gruneisen.name := nm; Gruneisen.bulk_relax_maker := None;
         Gruneisen.code := code; Gruneisen.const_vol_relax_maker := cv;
         Gruneisen.kpath_scheme := kp; Gruneisen.phonon_maker := ph;
         Gruneisen.perc_vol := pv; Gruneisen.mesh := mesh;
         Gruneisen.compute_gruneisen_param_kwargs := kw;
         Gruneisen.symprec := sp |}
      structure st
    = (inl (UnboundLocalError "bulk"), st).
Proof. reflexivity. Qed.

(** C10: when the phonon Maker's result has no last job to carry
    [function_kwargs] (it is a bare job, an empty flow, or a flow that ends
    in a flow), [make] raises: nothing guards the override of the file
    names.  With a bulk-relaxation Maker the error is the AttributeError or
    IndexError of the override itself. *)
Theorem gruneisen_phonon_override_unguarded :
  forall (num : Type) (NumOps : Num num)
         (self : Gruneisen.BaseGruneisenMaker num)
         (structure : Value num) (st : State num),
    (forall wad s p u,
        Gruneisen.terminal_job
          (fst (maker_make (heap st (Gruneisen.phonon_maker self)) wad s p u))
        = None) ->
    exists e st',
      Gruneisen.make self structure st = (inl e, st') /\
      (e = UnboundLocalError "bulk" \/ e = AttributeError "jobs" \/
       e = IndexError \/ e = AttributeError "function_kwargs") /\
      (Gruneisen.bulk_relax_maker self <> None -> e <> UnboundLocalError "bulk").
Proof.
  intros num NumOps self structure st Hbad.
  unfold Gruneisen.make.
  destruct (Gruneisen.bulk_relax_maker self) as [b|] eqn:Hb.
  - unfold bind, call_maker, new_job, ret, lift, raise; cbn.
    run_maker. cbn. run_maker. cbn. run_maker. cbn.
    unfold Gruneisen.phonon_body at 1.
    unfold bind, call_maker, lift; cbn.
    run_maker.
    match goal with
    | E : maker_make (heap st (Gruneisen.phonon_maker self)) ?w ?s ?p ?u = _
      |- _ => pose proof (Hbad w s p u) as Hn; rewrite E in Hn; cbn [fst] in Hn
    end.
    destruct (override_fails "ground" _ Hn) as [Ho|[Ho|Ho]]; rewrite Ho;
      (eexists _, _; split; [reflexivity|]; split;
       [auto | intros _; discriminate]).
  - eexists _, _. split; [reflexivity|]. split; [auto | congruence].
Qed.

Lemma gruneisen_phonon_override_unguarded_witness :
  exists e st',
    Gruneisen.make (gruneisen_maker (Some 0%nat) 3%nat 0.01%float 0.0001%float)
                   silicon start
    = (inl e, st') /\
    (e = UnboundLocalError "bulk" \/ e = AttributeError "jobs" \/
     e = IndexError \/ e = AttributeError "function_kwargs") /\
    (Some 0%nat <> None -> e <> UnboundLocalError "bulk").
Proof.
  exact (gruneisen_phonon_override_unguarded float _
           (gruneisen_maker (Some 0%nat) 3%nat 0.01%float 0.0001%float)
           silicon start (fun _ _ _ _ => eq_refl)).
Defined.

(** Name the outcome of the override on the phonon flow just made. *)
Ltac use_phonon Hok :=
  match goal with
  | E : maker_make (heap ?st (Gruneisen.phonon_maker ?self)) ?w ?s ?p ?u
        = (?n, _) |- context [Gruneisen.override_filenames ?br ?n] =>
      let Hn := fresh "Hn" in
      pose proof (Hok w s p u) as Hn; rewrite E in Hn; cbn [fst] in Hn;
      let n' := fresh "ph" in let j := fresh "j" in
      let Ho := fresh "Ho" in let Ht := fresh "Ht" in
      let Hout := fresh "Hout" in let Hf := fresh "Hf" in
      destruct (override_ok br n Hn) as (n' & j & Ho & Ht & Hout & Hf);
      rewrite Ho; cbn
  end.

(** C8 (counterexample): every Maker is configured and the phonon Maker
    returns flows that end in a job, but the extra keywords repeat [mesh]:
    the call of [compute_gruneisen_param] is a TypeError and [make] returns
    no flow. *)
Lemma gruneisen_repeated_keyword_gives_no_flow :
  fst (Gruneisen.make
         {| Gruneisen.name := "Gruneisen";
            Gruneisen.bulk_relax_maker := Some 0%nat;
            Gruneisen.code := VStr "vasp";
            Gruneisen.const_vol_relax_maker := 0%nat;
            Gruneisen.kpath_scheme := "seekpath";
            Gruneisen.phonon_maker := 2%nat;
            Gruneisen.perc_vol := 0.01%float;
            Gruneisen.mesh := VList [VInt 20; VInt 20; VInt 20];
            Gruneisen.compute_gruneisen_param_kwargs :=
              [("mesh", VList [VInt 4; VInt 4; VInt 4])];
            Gruneisen.symprec := 0.0001%float |}
         silicon start)
  = inl (TypeError "mesh").
Proof. reflexivity. Qed.

(** C8 (amended): with a bulk-relaxation Maker, a phonon Maker whose flows
    end in a job, and no extra keyword that repeats one of the seven the
    builder passes by name, [make] returns a flow of exactly eight jobs in
    construction order: the bulk relaxation, the volume perturbation, the
    two constant-volume relaxations (plus, minus), the three phonon runs
    (ground, plus, minus) and the extraction, whose output is the flow's
    output.  The last job of the three phonon runs carries file names with
    the prefixes "ground_", "plus_" and "minus_", and the fifteen file names
    are pairwise distinct. *)
Theorem gruneisen_builds_eight_jobs :
  forall (num : Type) (NumOps : Num num)
         (self : Gruneisen.BaseGruneisenMaker num)
         (structure : Value num) (st : State num) (b : addr),
    Gruneisen.bulk_relax_maker self = Some b ->
    (forall wad s p u,
        Gruneisen.terminal_job
          (fst (maker_make (heap st (Gruneisen.phonon_maker self)) wad s p u))
        <> None) ->
    Forall (fun kv => ~ In (fst kv) keyword_names)
           (Gruneisen.compute_gruneisen_param_kwargs self) ->
    exists bulk sd cvp cvm pg pp pm gg st',
      Gruneisen.make self structure st
      = (inr {| flow_name := "Flow";
                flow_jobs := [bulk; JobN sd; cvp; cvm; pg; pp; pm; JobN gg];
                flow_output := VRef (OutRef (job_uuid gg)) |}, st') /\
      made_by st b structure VNone bulk /\
      function sd = "shrink_expand_structure" /\
      function_kwargs sd
      = [ ("structure", VRef (Attr (node_output bulk) "structure"));
          ("perc_vol", VNum (Gruneisen.perc_vol self)) ] /\
      made_by st (Gruneisen.const_vol_relax_maker self)
              (VRef (Key (OutRef (job_uuid sd)) "plus")) VNone cvp /\
      made_by st (Gruneisen.const_vol_relax_maker self)
              (VRef (Key (OutRef (job_uuid sd)) "minus")) VNone cvm /\
      phonon_run st self "ground"
                 (VRef (Attr (node_output bulk) "structure")) pg /\
      phonon_run st self "plus"
                 (VRef (Attr (node_output cvp) "structure")) pp /\
      phonon_run st self "minus"
                 (VRef (Attr (node_output cvm) "structure")) pm /\
      function gg = "compute_gruneisen_param" /\
      carries_prefix "ground_" pg /\
      carries_prefix "plus_" pp /\
      carries_prefix "minus_" pm /\
      NoDup (file_names pg ++ file_names pp ++ file_names pm).
Proof.
  intros num NumOps self structure st b Hb Hok Hkw.
  unfold Gruneisen.make. rewrite Hb.
  unfold bind, call_maker, new_job, ret, lift, raise; cbn.
  run_maker. cbn. run_maker. cbn. run_maker. cbn.
  unfold Gruneisen.phonon_body, bind, call_maker, lift, ret; cbn.
  run_maker. use_phonon Hok.
  run_maker. use_phonon Hok.
  run_maker. use_phonon Hok.
  rewrite merge_keywords_ok by exact Hkw. cbn.
  match goal with
  | |- context [ [?a; JobN ?sd; ?c; ?d; ?e; ?f; ?g; JobN ?gg] ] =>
      exists a, sd, c, d, e, f, g, gg
  end.
  eexists. split; [reflexivity|]. cbn.
  pose proof (override_carries _ _ _ Ho) as Cg.
  pose proof (override_carries _ _ _ Ho0) as Cp.
  pose proof (override_carries _ _ _ Ho1) as Cm.
  unfold phonon_run.
  repeat match goal with |- _ /\ _ => split end;
    eauto 8 using made_by_intro.
  rewrite (carries_file_names _ _ Cg), (carries_file_names _ _ Cp),
    (carries_file_names _ _ Cm).
  cbn. repeat constructor; cbn; intuition discriminate.
Qed.

Lemma gruneisen_builds_eight_jobs_witness :
  exists bulk sd cvp cvm pg pp pm gg st',
    Gruneisen.make (gruneisen_maker (Some 0%nat) 2%nat 0.01%float 0.0001%float)
                   silicon start
    = (inr {| flow_name := "Flow";
              flow_jobs := [bulk; JobN sd; cvp; cvm; pg; pp; pm; JobN gg];
              flow_output := VRef (OutRef (job_uuid gg)) |}, st') /\
    made_by start 0%nat silicon VNone bulk /\
    function sd = "shrink_expand_structure" /\
    function_kwargs sd
    = [ ("structure", VRef (Attr (node_output bulk) "structure"));
        ("perc_vol", VNum 0.01%float) ] /\
    made_by start 0%nat (VRef (Key (OutRef (job_uuid sd)) "plus")) VNone cvp /\
    made_by start 0%nat (VRef (Key (OutRef (job_uuid sd)) "minus")) VNone cvm /\
    phonon_run start
      (gruneisen_maker (Some 0%nat) 2%nat 0.01%float 0.0001%float)
      "ground" (VRef (Attr (node_output bulk) "structure")) pg /\
    phonon_run start
      (gruneisen_maker (Some 0%nat) 2%nat 0.01%float 0.0001%float)
      "plus" (VRef (Attr (node_output cvp) "structure")) pp /\
    phonon_run start
      (gruneisen_maker (Some 0%nat) 2%nat 0.01%float 0.0001%float)
      "minus" (VRef (Attr (node_output cvm) "structure")) pm /\
    function gg = "compute_gruneisen_param" /\
    carries_prefix "ground_" pg /\
    carries_prefix "plus_" pp /\
    carries_prefix "minus_" pm /\
    NoDup (file_names pg ++ file_names pp ++ file_names pm).
Proof.
  exact (gruneisen_builds_eight_jobs float _
           (gruneisen_maker (Some 0%nat) 2%nat 0.01%float 0.0001%float)
           silicon start 0%nat eq_refl
           ltac:(intros; cbn; discriminate)
           (Forall_nil _)).
Defined.

(* ===================================================================== *)
(** ** Theorems: the jobs and the output of the EOS builder *)
(* ===================================================================== *)

Import EosFacts MoreEosFacts Examples.

(** C2 (counterexample): one frame, a fit that needs two points, and an
    initial relaxation: the frame count is below the minimum, yet [make]
    returns a flow, because the check counts the equilibrium relaxation with
    the frames. *)
Lemma eos_check_counts_equilibrium_job :
  (Eos.number_of_frames
     (eos_maker (Some 0%nat) None lo_float hi_float 1 (Some (energy_fit 2))
                false)
   < Eos.min_data_points (energy_fit (num := float) 2))%Z /\
  exists flow st',
    Eos.make (eos_maker (Some 0%nat) None lo_float hi_float 1
                        (Some (energy_fit 2)) false)
             silicon VNone start
    = (inr flow, st').
Proof.
  split; [reflexivity|].
  eexists _, _. vm_compute. reflexivity.
Qed.

(** C2 (amended): with a post-processor that needs [k] points, [make] raises
    the configuration error exactly when the number of relax jobs, that is
    the frame count plus one when an initial relaxation is configured, is
    below [k]; otherwise it returns a flow. *)
Theorem eos_frame_count_check :
  forall (num : Type) (NumOps : Num num) (self : Eos.CommonEosMaker num)
         (structure prev_dir : Value num) (st : State num)
         (pp : Eos.EOSPostProcessor num),
    (0 <= Eos.number_of_frames self)%Z ->
    Eos.postprocessor self = Some pp ->
    if (data_points self <? Eos.min_data_points pp)%Z
    then exists st',
        Eos.make self structure prev_dir st
        = (inl (ValueError (Eos.too_few_frames_message pp)), st')
    else exists flow st',
        Eos.make self structure prev_dir st = (inr flow, st').
Proof.
  intros num NumOps self structure prev_dir st pp HN Hpp.
  destruct (make_spec self structure prev_dir st HN)
    as (jobs & fo & st1 & _ & -> & Hagg).
  apply aggregation_relax_length in Hagg. destruct Hagg as [Hlen _].
  rewrite finish_spec, Hpp, Hlen.
  replace (Z.of_nat (Z.to_nat (Eos.number_of_frames self)
                     + equilibrium_points self))
    with (data_points self) by (unfold data_points; lia).
  destruct (data_points self <? Eos.min_data_points pp)%Z; eauto.
Qed.

Lemma eos_frame_count_check_witness :
  (0 <= 6)%Z /\
  exists flow st',
    Eos.make (eos_maker None None lo_float hi_float 6 (Some (energy_fit 2))
                        false)
             silicon VNone start
    = (inr flow, st').
Proof.
  split; [lia|].
  exact (eos_frame_count_check float _
           (eos_maker None None lo_float hi_float 6 (Some (energy_fit 2)) false)
           silicon VNone start (energy_fit 2)
           ltac:(cbn; lia) eq_refl).
Defined.

(** C3 (counterexample): one frame, no initial relaxation, no static Maker,
    no fit: the frame's relaxation comes first in the flow and the job that
    applies the strain comes after it. *)
Lemma eos_strain_job_follows_frames :
  exists flow st',
    Eos.make (eos_maker None None lo_float hi_float 1 None false)
             silicon VNone start
    = (inr flow, st') /\
    map node_name (flow_jobs flow)
    = ["relax deformation 0"; "apply_strain_to_structure"].
Proof.
  eexists _, _. split; vm_compute; reflexivity.
Qed.

(** C3 (amended): the jobs of the flow are grouped by type: the relax jobs
    (the initial relaxation if configured, then the frames' relaxations in
    frame order), the static jobs (the initial static if configured, then
    the frames' statics in frame order), then the utility jobs (the job that
    applies the strain, then the post-processing job if configured).  The
    flow's output is the aggregated mapping, or the post-processing job's
    output when there is one. *)
Theorem eos_job_order :
  forall (num : Type) (NumOps : Num num) (self : Eos.CommonEosMaker num)
         (structure prev_dir : Value num) (st : State num),
    (0 <= Eos.number_of_frames self)%Z ->
    enough_points self ->
    exists eq_relax eq_static structure' prev_dir' t rs ss fo st1 st',
      Eos.make self structure prev_dir st
      = (inr {| flow_name := Eos.name self;
                flow_jobs := (eq_relax ++ rs) ++ (eq_static ++ ss)
                             ++ [JobN t] ++ fit_of self fo st1;
                flow_output :=
                  match fit_of self fo st1 with
                  | [] => VDict fo
                  | fit :: _ => VRef (node_output fit)
                  end |}, st') /\
      equilibrium_jobs st self structure prev_dir eq_relax eq_static
                       structure' prev_dir' /\
      Forall2 (frame_relax st self t prev_dir')
              (seq 0 (Z.to_nat (Eos.number_of_frames self))) rs /\
      frame_statics st self (seq 0 (Z.to_nat (Eos.number_of_frames self)))
                    rs ss /\
      function t = "apply_strain_to_structure" /\
      fo = aggregated_output self (eq_relax ++ rs) (eq_static ++ ss)
                             eq_relax eq_static.
Proof.
  intros num NumOps self structure prev_dir st HN Hen.
  destruct (make_spec self structure prev_dir st HN)
    as (jobs & fo & st1 & _ & -> & Hagg).
  pose proof (aggregation_relax_length _ _ _ _ _ _ _ Hagg) as [Hlen _].
  destruct Hagg as (eq_relax & eq_static & s' & p' & strain_l & t & rs & ss &
                    -> & Hfo & Heq & _ & _ & Ht & _ & Hrs & Hss & _).
  exists eq_relax, eq_static, s', p', t, rs, ss, fo, st1.
  rewrite finish_spec. unfold enough_points in Hen. unfold fit_of.
  cbn [Eos.relax Eos.static Eos.utility] in *.
  destruct (Eos.postprocessor self) as [pp|].
  - rewrite Hlen.
    replace (Z.of_nat (Z.to_nat (Eos.number_of_frames self)
                       + equilibrium_points self))
      with (data_points self) by (unfold data_points; lia).
    destruct (data_points self <? Eos.min_data_points pp)%Z eqn:E; [lia|].
    eexists. split; [|auto].
    cbn [app]. rewrite node_output_set_name. reflexivity.
  - eexists. split; [|auto]. rewrite app_nil_r. reflexivity.
Qed.

Lemma eos_job_order_witness :
  exists eq_relax eq_static structure' prev_dir' t rs ss fo st1 st',
    Eos.make (eos_maker (Some 0%nat) (Some 1%nat) lo_float hi_float 3
                        (Some (energy_fit 2)) false)
             silicon VNone start
    = (inr {| flow_name := "EOS Maker";
              flow_jobs := (eq_relax ++ rs) ++ (eq_static ++ ss)
                           ++ [JobN t]
                           ++ fit_of (eos_maker (Some 0%nat) (Some 1%nat)
                                        lo_float hi_float 3
                                        (Some (energy_fit 2)) false) fo st1;
              flow_output :=
                match fit_of (eos_maker (Some 0%nat) (Some 1%nat)
                                lo_float hi_float 3
                                (Some (energy_fit 2)) false) fo st1 with
                | [] => VDict fo
                | fit :: _ => VRef (node_output fit)
                end |}, st') /\
    equilibrium_jobs start
      (eos_maker (Some 0%nat) (Some 1%nat) lo_float hi_float 3
                 (Some (energy_fit 2)) false)
      silicon VNone eq_relax eq_static structure' prev_dir' /\
    Forall2 (frame_relax start
               (eos_maker (Some 0%nat) (Some 1%nat) lo_float hi_float 3
                          (Some (energy_fit 2)) false) t prev_dir')
            (seq 0 3) rs /\
    frame_statics start
      (eos_maker (Some 0%nat) (Some 1%nat) lo_float hi_float 3
                 (Some (energy_fit 2)) false)
      (seq 0 3) rs ss /\
    function t = "apply_strain_to_structure" /\
    fo = aggregated_output
           (eos_maker (Some 0%nat) (Some 1%nat) lo_float hi_float 3
                      (Some (energy_fit 2)) false)
           (eq_relax ++ rs) (eq_static ++ ss) eq_relax eq_static.
Proof.
  exact (eos_job_order float _
           (eos_maker (Some 0%nat) (Some 1%nat) lo_float hi_float 3
                      (Some (energy_fit 2)) false)
           silicon VNone start ltac:(cbn; lia)
           ltac:(unfold enough_points, data_points; cbn; lia)).
Defined.

(** C6: in the aggregated output, the five sequences under each job type
    have the length of that type's job list, which is the frame count plus
    one when the equilibrium relaxation is included; they are the
    projections of the jobs of that type, in the order the jobs were made
    (equilibrium job first, then frame by frame).  The mapping is the flow's
    output, or the argument of the post-processing job. *)
Theorem eos_parallel_sequences :
  forall (num : Type) (NumOps : Num num) (self : Eos.CommonEosMaker num)
         (structure prev_dir : Value num) (st : State num),
    (0 <= Eos.number_of_frames self)%Z ->
    exists jobs fo st1,
      Eos.aggregate self structure prev_dir st = (inr (jobs, fo), st1) /\
      Eos.make self structure prev_dir st = Eos.finish self jobs fo st1 /\
      aggregation self structure prev_dir st jobs fo st1 /\
      Forall
        (fun key =>
           exists js,
             Eos.jobs_of jobs key = inr js /\
             length js = (Z.to_nat (Eos.number_of_frames self)
                          + equilibrium_points self)%nat /\
             dict_get fo key = Some (quantity_table js) /\
             Forall (fun quantity =>
                       exists l, sequence_of fo key quantity = Some l /\
                                 length l = length js)
                    Eos.quantities)
        (Eos.job_types self).
Proof.
  intros num NumOps self structure prev_dir st HN.
  destruct (make_spec self structure prev_dir st HN)
    as (jobs & fo & st1 & Ea & Em & Hagg).
  exists jobs, fo, st1. repeat (split; [assumption|]).
  pose proof (aggregation_relax_length _ _ _ _ _ _ _ Hagg) as [Hr Hs].
  destruct Hagg as (eq_relax & eq_static & s' & p' & strain_l & t & rs & ss &
                    -> & -> & _).
  cbn [Eos.relax Eos.static] in *.
  destruct (aggregated_tables self (eq_relax ++ rs) (eq_static ++ ss)
                              eq_relax eq_static) as [Gr Gs].
  unfold Eos.job_types.
  destruct (Eos.static_maker self) as [sm|] eqn:Est.
  - specialize (Gs ltac:(discriminate)).
    repeat constructor; eexists; (split; [reflexivity|]); cbn [Eos.relax Eos.static];
      (split; [assumption|]); (split; [assumption|]);
      now apply quantity_table_sequences.
  - repeat constructor; eexists; (split; [reflexivity|]); cbn [Eos.relax];
      (split; [assumption|]); (split; [assumption|]);
      now apply quantity_table_sequences.
Qed.

Lemma eos_parallel_sequences_witness :
  exists jobs fo st1,
    Eos.aggregate (eos_maker (Some 0%nat) (Some 1%nat) lo_float hi_float 6
                             None false) silicon VNone start
    = (inr (jobs, fo), st1) /\
    Eos.make (eos_maker (Some 0%nat) (Some 1%nat) lo_float hi_float 6
                        None false) silicon VNone start
    = Eos.finish (eos_maker (Some 0%nat) (Some 1%nat) lo_float hi_float 6
                            None false) jobs fo st1 /\
    aggregation (eos_maker (Some 0%nat) (Some 1%nat) lo_float hi_float 6
                           None false) silicon VNone start jobs fo st1 /\
    Forall
      (fun key =>
         exists js,
           Eos.jobs_of jobs key = inr js /\
           length js = 7%nat /\
           dict_get fo key = Some (quantity_table js) /\
           Forall (fun quantity =>
                     exists l, sequence_of fo key quantity = Some l /\
                               length l = length js)
                  Eos.quantities)
      ["relax"; "static"].
Proof.
  exact (eos_parallel_sequences float _
           (eos_maker (Some 0%nat) (Some 1%nat) lo_float hi_float 6 None false)
           silicon VNone start ltac:(cbn; lia)).
Defined.

(** C7 (counterexample): with an initial relaxation the output has the key
    "initial_relax", and it maps to the two scalars E0 and V0, not to the
    five sequences: there is no "energy" sequence under it. *)
Lemma eos_initial_relax_entry_is_not_a_table :
  exists jobs fo st',
    Eos.aggregate (eos_maker (Some 0%nat) None lo_float hi_float 2 None false)
                  silicon VNone start
    = (inr (jobs, fo), st') /\
    dict_get fo "initial_relax"
    = Some (VDict [ ("E0", VRef (Attr (Attr (OutRef 0) "output") "energy"));
                    ("V0", VRef (Attr (Attr (OutRef 0) "structure") "volume")) ]) /\
    sequence_of fo "initial_relax" "energy" = None.
Proof.
  eexists _, _, _. split; [vm_compute; reflexivity|].
  split; vm_compute; reflexivity.
Qed.

(** C7 (amended): the keys of the aggregated output are "relax", "static"
    when a static Maker is configured, "initial_relax" when an initial
    relaxation is configured and "initial_static" when both are.  "relax"
    and "static" map to the five parallel sequences of their jobs;
    "initial_relax" and "initial_static" map to the two references E0 and V0
    of the equilibrium job. *)
Theorem eos_output_schema :
  forall (num : Type) (NumOps : Num num) (self : Eos.CommonEosMaker num)
         (structure prev_dir : Value num) (st : State num),
    (0 <= Eos.number_of_frames self)%Z ->
    exists jobs fo st1 eq_relax eq_static,
      Eos.aggregate self structure prev_dir st = (inr (jobs, fo), st1) /\
      Eos.make self structure prev_dir st = Eos.finish self jobs fo st1 /\
      firstn (equilibrium_points self) (Eos.relax jobs) = eq_relax /\
      firstn (length eq_static) (Eos.static jobs) = eq_static /\
      length eq_static
      = match Eos.static_maker self with
        | Some _ => equilibrium_points self
        | None => 0%nat
        end /\
      fo = ("relax", quantity_table (Eos.relax jobs))
           :: match Eos.static_maker self with
              | Some _ => [("static", quantity_table (Eos.static jobs))]
              | None => []
              end
           ++ map (fun r => ("initial_relax",
                             Eos.equilibrium_entry (node_output r))) eq_relax
           ++ map (fun s => ("initial_static",
                             Eos.equilibrium_entry (node_output s))) eq_static.
Proof.
  intros num NumOps self structure prev_dir st HN.
  destruct (make_spec self structure prev_dir st HN)
    as (jobs & fo & st1 & Ea & Em & Hagg).
  destruct Hagg as (eq_relax & eq_static & s' & p' & strain_l & t & rs & ss &
                    -> & -> & Heq & _).
  eexists _, _, st1, eq_relax, eq_static.
  split; [exact Ea|]. split; [exact Em|]. cbn [Eos.relax Eos.static].
  unfold equilibrium_jobs, equilibrium_points, aggregated_output in *.
  destruct (Eos.initial_relax_maker self) as [irm|].
  - destruct Heq as (raw & r0 & _ & _ & -> & _ & _ & Hst).
    destruct (Eos.static_maker self) as [sm|].
    + destruct Hst as (raws & _ & ->). repeat split; reflexivity.
    + subst. repeat split; reflexivity.
  - destruct Heq as (-> & -> & _).
    destruct (Eos.static_maker self); repeat split; reflexivity.
Qed.

Lemma eos_output_schema_witness :
  exists jobs fo st1 eq_relax eq_static,
    Eos.aggregate (eos_maker (Some 0%nat) (Some 1%nat) lo_float hi_float 2
                             None false) silicon VNone start
    = (inr (jobs, fo), st1) /\
    Eos.make (eos_maker (Some 0%nat) (Some 1%nat) lo_float hi_float 2
                        None false) silicon VNone start
    = Eos.finish (eos_maker (Some 0%nat) (Some 1%nat) lo_float hi_float 2
                            None false) jobs fo st1 /\
    firstn 1 (Eos.relax jobs) = eq_relax /\
    firstn (length eq_static) (Eos.static jobs) = eq_static /\
    length eq_static = 1%nat /\
    fo = [ ("relax", quantity_table (Eos.relax jobs));
           ("static", quantity_table (Eos.static jobs)) ]
         ++ map (fun r => ("initial_relax",
                           Eos.equilibrium_entry (node_output r))) eq_relax
         ++ map (fun s => ("initial_static",
                           Eos.equilibrium_entry (node_output s))) eq_static.
Proof.
  exact (eos_output_schema float _
           (eos_maker (Some 0%nat) (Some 1%nat) lo_float hi_float 2 None false)
           silicon VNone start ltac:(cbn; lia)).
Defined.

(** C9 (counterexample): the static Maker was made from the relaxation
    Maker and shares its [write_additional_data] dictionary.  With
    [_store_transformation_information] set, one call of [make] leaves the
    transformation of the last frame in that dictionary: the data of the
    builder's [eos_relax_maker] and of its [static_maker] have both
    changed. *)
Lemma eos_store_flag_mutates_relax_maker :
  additional_data (start_sharing (num := float)) 0%nat = Some [] /\
  additional_data (start_sharing (num := float)) 1%nat = Some [] /\
  additional_data
    (snd (Eos.make (eos_maker None (Some 1%nat) lo_float hi_float 2 None true)
                   silicon VNone start_sharing)) 0%nat
  = Some [("transformations:json", VRef (Index (OutRef 0) 1))] /\
  additional_data
    (snd (Eos.make (eos_maker None (Some 1%nat) lo_float hi_float 2 None true)
                   silicon VNone start_sharing)) 1%nat
  = Some [("transformations:json", VRef (Index (OutRef 0) 1))].
Proof.
  repeat split; vm_compute; reflexivity.
Qed.

(** C9 (amended): whether [make] returns or raises,
    - it rebinds no attribute of a Maker: every Maker object has the code
      and refers to the dictionary object it did before;
    - it changes no dictionary object but the one the [eos_relax_maker]
      refers to, and that one only when
      [_store_transformation_information] is set, and only under the key
      "transformations:json";
    - with the flag off, or an [eos_relax_maker] without
      [write_additional_data], or no frame ([number_of_frames <= 0]), it
      changes nothing at all;
    - with the flag set, at least one frame and an [eos_relax_maker] that
      refers to the dictionary at [da], that dictionary is afterwards what
      it was with the transformation of the last frame under
      "transformations:json", and this is what every Maker that refers to
      the same dictionary then reads. *)
Theorem eos_make_frame :
  forall (num : Type) (NumOps : Num num) (self : Eos.CommonEosMaker num)
         (structure prev_dir : Value num) (st : State num),
    same_makers st (snd (Eos.make self structure prev_dir st)) /\
    makers_preserved self st (snd (Eos.make self structure prev_dir st)) /\
    data_kept st (snd (Eos.make self structure prev_dir st)) /\
    (Eos._store_transformation_information self = false \/
     write_additional_data (heap st (Eos.eos_relax_maker self)) = None \/
     (Eos.number_of_frames self <= 0)%Z ->
     dicts (snd (Eos.make self structure prev_dir st)) = dicts st) /\
    (forall da,
        Eos._store_transformation_information self = true ->
        (0 < Eos.number_of_frames self)%Z ->
        write_additional_data (heap st (Eos.eos_relax_maker self)) = Some da ->
        exists jobs fo st1 t,
          Eos.aggregate self structure prev_dir st = (inr (jobs, fo), st1) /\
          Eos.utility jobs = [JobN t] /\
          function t = "apply_strain_to_structure" /\
          dicts (snd (Eos.make self structure prev_dir st)) da
          = dict_set (dicts st da) "transformations:json"
              (VRef (Index (OutRef (job_uuid t))
                           (Z.to_nat (Eos.number_of_frames self) - 1))) /\
          forall a,
            write_additional_data (heap st a) = Some da ->
            additional_data (snd (Eos.make self structure prev_dir st)) a
            = Some (dict_set (dicts st da) "transformations:json"
                      (VRef (Index (OutRef (job_uuid t))
                                   (Z.to_nat (Eos.number_of_frames self) - 1))))).
Proof.
  intros num NumOps self structure prev_dir st.
  split; [apply make_heap|].
  split; [|split; [|split; [apply make_without_store|]]].
  - destruct (Z.neg_nonneg_cases (Eos.number_of_frames self)) as [HN|HN].
    + destruct (make_negative self structure prev_dir st HN)
        as (st' & -> & _ & Hd).
      intros da _. cbn [snd]. now rewrite Hd.
    + destruct (make_spec self structure prev_dir st HN)
        as (jobs & fo & st1 & _ & -> & Hagg).
      destruct Hagg as (? & ? & ? & ? & ? & ? & ? & ? & _ & _ & _ & _ & _ &
                        _ & _ & _ & _ & _ & Hp & _).
      intros da Hda. rewrite finish_dicts. now apply Hp.
  - destruct (Z.neg_nonneg_cases (Eos.number_of_frames self)) as [HN|HN].
    + destruct (make_negative self structure prev_dir st HN)
        as (st' & -> & _ & Hd).
      intros da k _. cbn [snd]. now rewrite Hd.
    + destruct (make_spec self structure prev_dir st HN)
        as (jobs & fo & st1 & _ & -> & Hagg).
      destruct Hagg as (? & ? & ? & ? & ? & ? & ? & ? & _ & _ & _ & _ & _ &
                        _ & _ & _ & _ & _ & _ & Hd).
      intros da k Hk. rewrite finish_dicts. now apply Hd.
  - intros da Hflag HN Eda.
    destruct (make_store self structure prev_dir st (dicts st da))
      as (jobs & fo & st1 & eq_relax & eq_static & s' & p' & t & rs &
          Ea & _ & _ & _ & Hu & Ht & _ & Hlast);
      [lia | exact Hflag | unfold additional_data; now rewrite Eda |].
    specialize (Hlast HN). unfold additional_data in Hlast.
    rewrite make_heap, Eda in Hlast. cbn [option_map] in Hlast.
    injection Hlast as Hlast.
    exists jobs, fo, st1, t.
    split; [exact Ea|]. split; [exact Hu|]. split; [exact Ht|].
    split; [exact Hlast|].
    intros a Ha. unfold additional_data. rewrite make_heap, Ha.
    cbn [option_map]. now rewrite Hlast.
Qed.

Lemma eos_make_frame_witness :
  same_makers (start_sharing (num := float))
    (snd (Eos.make (eos_maker (Some 0%nat) (Some 1%nat) lo_float hi_float 3
                              None true)
                   silicon VNone start_sharing)) /\
  exists jobs fo st1 t,
    Eos.aggregate (eos_maker (Some 0%nat) (Some 1%nat) lo_float hi_float 3
                             None true)
                  silicon VNone start_sharing
    = (inr (jobs, fo), st1) /\
    Eos.utility jobs = [JobN t] /\
    function t = "apply_strain_to_structure" /\
    dicts (snd (Eos.make (eos_maker (Some 0%nat) (Some 1%nat) lo_float
                                    hi_float 3 None true)
                         silicon VNone start_sharing)) 0%nat
    = dict_set [] "transformations:json"
        (VRef (Index (OutRef (job_uuid t)) 2)) /\
    forall a,
      write_additional_data (heap (start_sharing (num := float)) a)
      = Some 0%nat ->
      additional_data
        (snd (Eos.make (eos_maker (Some 0%nat) (Some 1%nat) lo_float
                                  hi_float 3 None true)
                       silicon VNone start_sharing)) a
      = Some (dict_set [] "transformations:json"
                (VRef (Index (OutRef (job_uuid t)) 2))).
Proof.
  split.
  - exact (proj1 (eos_make_frame float _
                    (eos_maker (Some 0%nat) (Some 1%nat) lo_float hi_float 3
                               None true)
                    silicon VNone start_sharing)).
  - exact (proj2 (proj2 (proj2 (proj2
             (eos_make_frame float _
                (eos_maker (Some 0%nat) (Some 1%nat) lo_float hi_float 3
                           None true)
                silicon VNone start_sharing))))
             0%nat eq_refl ltac:(cbn; lia) eq_refl).
Defined.

(* ===================================================================== *)
(** ** Theorems: the strain samples of the EOS builder *)
(* ===================================================================== *)

Import StrainFacts MoreStrainFacts.
Local Open Scope Q_scope.

(** Without an initial relaxation the samples are those of [linspace], in
    any arithmetic and for any frame count that is not negative. *)
Lemma eos_samples_unperturbed_without_relaxation :
  forall (num : Type) (NumOps : Num num) (self : Eos.CommonEosMaker num),
    Eos.initial_relax_maker self = None ->
    (0 <= Eos.number_of_frames self)%Z ->
    Eos.strain_samples self
    = inr (fst (linspace (fst (Eos.linear_strain self))
                         (snd (Eos.linear_strain self))
                         (Z.to_nat (Eos.number_of_frames self)))).
Proof.
  intros num NumOps self Hi HN. unfold Eos.strain_samples, Eos.np_linspace.
  destruct (Eos.number_of_frames self <? 0)%Z eqn:E; [lia|].
  rewrite Hi. now destruct (linspace _ _ _).
Qed.

(** The samples before the perturbation, in exact arithmetic. *)
Lemma eos_samples_exact (self : Eos.CommonEosMaker exact) a b :
  Eos.linear_strain self = (Fin a, Fin b) ->
  (2 <= Eos.number_of_frames self)%Z ->
  exists ys,
    length (ys ++ [b]) = Z.to_nat (Eos.number_of_frames self) /\
    spaced (step_of a b (Z.to_nat (Eos.number_of_frames self))) a (ys ++ [b]) /\
    fst (linspace (Fin a) (Fin b) (Z.to_nat (Eos.number_of_frames self)))
    = map Fin (ys ++ [b]) /\
    Eos.strain_samples self
    = inr (match Eos.initial_relax_maker self with
           | Some _ =>
               perturb_zero_strain
                 (map Fin (ys ++ [b]))
                 (Fin (step_of a b (Z.to_nat (Eos.number_of_frames self))))
           | None => map Fin (ys ++ [b])
           end).
Proof.
  intros Hls HN.
  destruct (linspace_exact a b (Z.to_nat (Eos.number_of_frames self)))
    as (ys & El & Hlen & Hsp); [lia|].
  exists ys. split; [exact Hlen|]. split; [exact Hsp|].
  split; [now rewrite El|].
  unfold Eos.strain_samples, Eos.np_linspace. rewrite Hls. cbn [fst snd].
  destruct (Eos.number_of_frames self <? 0)%Z eqn:E; [lia|].
  now rewrite El.
Qed.

(** C4 (counterexample): what the perturbation does not keep.
    - Five frames over (-0.05, 0.05) with an initial relaxation: the sample
      on zero moves to -0.0125 and nothing moves to +0.0125; the samples
      were symmetric about zero (in exact arithmetic) and no longer are.
      In binary64 the code computes the same five samples up to rounding.
    - Three frames over (-1, 1) in binary64: [-1; 0; 1] becomes
      [-1; -0.5; 1].
    - Three frames over (-1e-16, 1e-16) in binary64: all three samples lie
      within 1e-15 of zero, the middle one receives the shift 0 and stays
      zero.
    - Two frames over (0, 0) in binary64: both samples stay zero, so the
      samples are neither distinct nor off zero. *)
Lemma eos_perturbation_breaks_symmetry :
  symmetric (fst (linspace lo_exact hi_exact 5)) /\
  (exists l,
     Eos.strain_samples
       (eos_maker (Some 0%nat) None lo_exact hi_exact 5 None false) = inr l /\
     Forall2 exact_eq l
       [Fin (-5 # 100); Fin (-25 # 1000); Fin (-125 # 10000); Fin (25 # 1000);
        Fin (5 # 100)] /\
     ~ symmetric l) /\
  Eos.strain_samples
    (eos_maker (Some 0%nat) None lo_float hi_float 5 None false)
  = inr [(-0.05)%float; (-0.025)%float; (-0.0125)%float;
         0.025000000000000008%float; 0.05%float] /\
  fst (linspace (-1)%float 1%float 3) = [(-1)%float; 0%float; 1%float] /\
  Eos.strain_samples
    (eos_maker (Some 0%nat) None (-1)%float 1%float 3 None false)
  = inr [(-1)%float; (-0.5)%float; 1%float] /\
  Eos.strain_samples
    (eos_maker (Some 0%nat) None (-1e-16)%float 1e-16%float 3 None false)
  = inr [(-1.25e-16)%float; 0%float; 1.25e-16%float] /\
  Eos.strain_samples
    (eos_maker (Some 0%nat) None 0%float 0%float 2 None false)
  = inr [0%float; 0%float].
Proof.
  split; [vm_compute; repeat constructor|].
  split.
  { eexists. split; [vm_compute; reflexivity|]. split.
    - repeat constructor.
    - intros Hsym. vm_compute in Hsym.
      inversion Hsym as [|? ? ? ? _ H1]; subst.
      inversion H1 as [|? ? ? ? _ H2]; subst.
      inversion H2 as [|? ? ? ? H3 _]; subst.
      discriminate H3. }
  split; [vm_compute; reflexivity|].
  split; [vm_compute; reflexivity|].
  split; [vm_compute; reflexivity|].
  split; vm_compute; reflexivity.
Qed.

(** The perturbation without rounding.  In exact rational arithmetic, with
    an initial relaxation, [N >= 2] frames, [a < b] and a step of at least
    2e-15, at most one sample lies within 1e-15 of zero; it moves down by
    half a step and every other sample stays where it was; afterwards there
    are still [N] samples, none is zero, and they ascend strictly.  This is
    the arithmetic of the real numbers, not that of the program: rounding
    can make samples of [linspace] coincide. *)
Lemma perturbation_in_exact_arithmetic :
  forall (self : Eos.CommonEosMaker exact) (a b : Q),
    Eos.linear_strain self = (Fin a, Fin b) ->
    (2 <= Eos.number_of_frames self)%Z ->
    a < b ->
    2 * tolQ <= step_of a b (Z.to_nat (Eos.number_of_frames self)) ->
    exists ys vs,
      fst (linspace (Fin a) (Fin b) (Z.to_nat (Eos.number_of_frames self)))
      = map Fin ys /\
      spaced (step_of a b (Z.to_nat (Eos.number_of_frames self))) a ys /\
      Eos.strain_samples self = inr (map Fin vs) /\
      length vs = Z.to_nat (Eos.number_of_frames self) /\
      match Eos.initial_relax_maker self with
      | None => vs = ys
      | Some _ =>
          Forall2 (moved (step_of a b (Z.to_nat (Eos.number_of_frames self))))
                  ys vs /\
          (length (filter zero_strain (map Fin ys)) <= 1)%nat /\
          Forall (fun v => ~ v == 0) vs /\
          ascending vs
      end.
Proof.
  intros self a b Hls HN Hab Hstep.
  destruct (eos_samples_exact self a b Hls HN)
    as (ys & Hlen & Hsp & El & Es).
  set (h := step_of a b (Z.to_nat (Eos.number_of_frames self))) in *.
  assert (Hh : 0 < h) by (unfold tolQ in Hstep; lra).
  destruct (Eos.initial_relax_maker self) as [irm|].
  - destruct (lone_shift_exact h) as (s & Els & Hs).
    destruct (masked_single h s Hh Hstep Hs (ys ++ [b]) a Hsp)
      as (vs & Em & Hmv & _ & Hnz & Hasc & Hc).
    exists (ys ++ [b]), vs.
    rewrite perturb_at_most_one, Els, Em in Es by exact Hc.
    apply Forall2_length in Hmv as Hl.
    repeat split; auto; congruence.
  - exists (ys ++ [b]), (ys ++ [b]). repeat split; auto.
Qed.

(** C4 (amended): in the arithmetic of the program (binary64, and any
    other) and for every frame count that is not negative.  Without an
    initial relaxation the samples are those of [linspace], unchanged.  With
    one, there are still [N] samples; every sample within 1e-15 of zero,
    [nzs] of them, receives one shift, the k-th of
    [strain_delta / (nzs + 1) * linspace(-1, 1, nzs)], and every other
    sample stays in its place; when a single sample is on zero its shift is
    [strain_delta / 2 * (-1)], half a step down. *)
Theorem eos_zero_strain_perturbation :
  forall (num : Type) (NumOps : Num num) (self : Eos.CommonEosMaker num),
    (0 <= Eos.number_of_frames self)%Z ->
    exists l0 strain_delta l,
      linspace (fst (Eos.linear_strain self)) (snd (Eos.linear_strain self))
               (Z.to_nat (Eos.number_of_frames self))
      = (l0, strain_delta) /\
      Eos.strain_samples self = inr l /\
      length l = Z.to_nat (Eos.number_of_frames self) /\
      match Eos.initial_relax_maker self with
      | None => l = l0
      | Some _ =>
          shifted_on_zero l0 (zero_shifts strain_delta (on_zero l0)) l /\
          (on_zero l0 = 1%nat ->
           Forall2 (moved_by (lone_shift strain_delta)) l0 l)
      end.
Proof.
  intros num NumOps self HN.
  unfold Eos.strain_samples, Eos.np_linspace.
  destruct (Eos.number_of_frames self <? 0)%Z eqn:E; [lia|].
  pose proof (linspace_length (fst (Eos.linear_strain self))
                (snd (Eos.linear_strain self))
                (Z.to_nat (Eos.number_of_frames self))) as Hl.
  destruct (linspace _ _ _) as [l0 delta]. cbn [fst] in Hl.
  exists l0, delta.
  destruct (Eos.initial_relax_maker self) as [irm|].
  - eexists. split; [reflexivity|]. split; [reflexivity|].
    split; [now rewrite perturb_length|].
    split; [apply perturb_shifted|].
    intros Hone. apply perturb_lone. lia.
  - exists l0. repeat split; auto.
Qed.

Lemma eos_zero_strain_perturbation_witness :
  exists l0 strain_delta l,
    linspace lo_float hi_float 5 = (l0, strain_delta) /\
    Eos.strain_samples
      (eos_maker (Some 0%nat) None lo_float hi_float 5 None false)
    = inr l /\
    length l = 5%nat /\
    shifted_on_zero l0 (zero_shifts strain_delta (on_zero l0)) l /\
    (on_zero l0 = 1%nat ->
     Forall2 (moved_by (lone_shift strain_delta)) l0 l).
Proof.
  exact (eos_zero_strain_perturbation float _
           (eos_maker (Some 0%nat) None lo_float hi_float 5 None false)
           ltac:(cbn; lia)).
Defined.

(** In binary64 the shift of a lone sample on zero is half the step, times
    minus one. *)
Lemma lone_shift_binary64 (strain_delta : float) :
  lone_shift strain_delta = (strain_delta / 2 * -1)%float.
Proof. reflexivity. Qed.

(** C5 (counterexample): five frames over (-0.05, 0.05) with an initial
    relaxation.  In binary64 the third sample of [linspace] is 0 and the
    third strain is -0.0125: the strains are not the linearly spaced
    samples.  The same in exact arithmetic. *)
Lemma eos_perturbed_samples_not_linear :
  linear_samples lo_float hi_float 5
  = [(-0.05)%float; (-0.025)%float; 0%float; 0.025000000000000008%float;
     0.05%float] /\
  Eos.strain_samples
    (eos_maker (Some 0%nat) None lo_float hi_float 5 None false)
  = inr [(-0.05)%float; (-0.025)%float; (-0.0125)%float;
         0.025000000000000008%float; 0.05%float] /\
  exists l,
    Eos.strain_samples
      (eos_maker (Some 0%nat) None lo_exact hi_exact 5 None false) = inr l /\
    exact_eq (nth 2 l NaN) (Fin (-125 # 10000)) /\
    ~ linearly_spaced (-5 # 100) (5 # 100) 5 l.
Proof.
  split; [vm_compute; reflexivity|]. split; [vm_compute; reflexivity|].
  eexists. split; [vm_compute; reflexivity|]. split; [reflexivity|].
  intros (ys & Hl & _ & Hsp & _).
  destruct ys as [|y0 [|y1 [|y2 ys]]]; try discriminate Hl.
  injection Hl as _ _ H2 _. cbn [spaced] in Hsp.
  destruct Hsp as (_ & _ & Hy2 & _). subst y2.
  unfold Qeq in Hy2. vm_compute in Hy2. lia.
Qed.

(** The samples without rounding.  In exact rational arithmetic, when no
    initial relaxation is configured or no sample lies within 1e-15 of
    zero, the [N >= 2] samples are the arithmetic progression from [a] to
    [b] inclusive with step [(b - a) / (N - 1)], and each deformation matrix
    is [(1 + strain)] times the identity.  This is the arithmetic of the
    real numbers, not that of the program. *)
Lemma linear_spacing_in_exact_arithmetic :
  forall (self : Eos.CommonEosMaker exact) (a b : Q)
         (structure prev_dir : Value exact) (st : State exact),
    Eos.linear_strain self = (Fin a, Fin b) ->
    (2 <= Eos.number_of_frames self)%Z ->
    Eos.initial_relax_maker self = None \/
    Forall (fun x => zero_strain x = false)
           (fst (linspace (Fin a) (Fin b)
                          (Z.to_nat (Eos.number_of_frames self)))) ->
    exists ys jobs fo st1 t structure',
      Eos.strain_samples self = inr (map Fin ys) /\
      linearly_spaced a b (Z.to_nat (Eos.number_of_frames self)) (map Fin ys) /\
      Eos.aggregate self structure prev_dir st = (inr (jobs, fo), st1) /\
      Eos.utility jobs = [JobN t] /\
      function t = "apply_strain_to_structure" /\
      function_args t
      = [structure'; Eos.deformation_value (map deformation (map Fin ys))] /\
      length (map deformation (map Fin ys))
      = Z.to_nat (Eos.number_of_frames self) /\
      Forall2 scaled_identity ys (map deformation (map Fin ys)) /\
      length (Eos.relax jobs)
      = (Z.to_nat (Eos.number_of_frames self) + equilibrium_points self)%nat.
Proof.
  intros self a b structure prev_dir st Hls HN Hcond.
  destruct (eos_samples_exact self a b Hls HN)
    as (ys & Hlen & Hsp & El & Es).
  assert (Es' : Eos.strain_samples self = inr (map Fin (ys ++ [b]))).
  { rewrite Es. destruct (Eos.initial_relax_maker self) as [irm|];
      [|reflexivity].
    destruct Hcond as [Hc|Hc]; [discriminate|].
    rewrite El in Hc. now rewrite perturb_no_zero. }
  destruct (aggregate_spec self structure prev_dir st) as
    (jobs & fo & st1 & Ea & Hagg); [lia|].
  pose proof (aggregation_relax_length _ _ _ _ _ _ _ Hagg) as [Hrl _].
  destruct Hagg as (eq_relax & eq_static & s' & p' & strain_l & t & rs & ss &
                    Hj & _ & _ & Hs & _ & Ht & Hargs & _).
  rewrite Es' in Hs. injection Hs as <-.
  exists (ys ++ [b]), jobs, fo, st1, t, s'.
  split; [exact Es'|]. split.
  { exists (ys ++ [b]). split; [reflexivity|]. split; [exact Hlen|].
    split; [exact Hsp|]. split.
    - apply (spaced_hd (step_of a b (Z.to_nat (Eos.number_of_frames self))));
        [destruct ys; discriminate | exact Hsp].
    - rewrite last_last. reflexivity. }
  split; [exact Ea|]. split; [now rewrite Hj|].
  split; [exact Ht|]. split; [exact Hargs|].
  split; [now rewrite !length_map|].
  split; [apply deformations_scaled | exact Hrl].
Qed.

(** C5 (amended): in the arithmetic of the program (binary64, and any
    other), for [N >= 2] frames over [(a, b)], whether or not samples are
    perturbed: the builder makes [N] strain samples and [N] deformation
    matrices, each [identity(3) * (1 + strain)] entry by entry, hands the
    matrices to the job that applies the strain, and makes [N] relax jobs,
    one per frame in frame order, after the equilibrium relaxation if there
    is one.  The samples of [linspace] are: step [(b - a) / (N - 1)], sample
    [i < N - 1] equal to [i * step + a], last sample [b] itself (by numpy's
    other route, [i / (N - 1) * (b - a) + a], when the step compares equal
    to zero), every operation rounded as the arithmetic rounds; they are the
    strains when no initial relaxation is configured or none of them lies
    within 1e-15 of zero. *)
Theorem eos_linear_strain_samples :
  forall (num : Type) (NumOps : Num num) (self : Eos.CommonEosMaker num)
         (structure prev_dir : Value num) (st : State num),
    (2 <= Eos.number_of_frames self)%Z ->
    exists l0 l jobs fo st1 t eq_relax eq_static structure' prev_dir' rs,
      fst (linspace (fst (Eos.linear_strain self))
                    (snd (Eos.linear_strain self))
                    (Z.to_nat (Eos.number_of_frames self))) = l0 /\
      l0 = (if feqb (linear_step (fst (Eos.linear_strain self))
                                 (snd (Eos.linear_strain self))
                                 (Z.to_nat (Eos.number_of_frames self)))
                    (of_int 0)
            then linear_samples_zero_step
                   (fst (Eos.linear_strain self))
                   (snd (Eos.linear_strain self))
                   (Z.to_nat (Eos.number_of_frames self))
            else linear_samples
                   (fst (Eos.linear_strain self))
                   (snd (Eos.linear_strain self))
                   (Z.to_nat (Eos.number_of_frames self))) /\
      Eos.strain_samples self = inr l /\
      length l = Z.to_nat (Eos.number_of_frames self) /\
      (Eos.initial_relax_maker self = None \/
       Forall (fun x => zero_strain x = false) l0 -> l = l0) /\
      Eos.aggregate self structure prev_dir st = (inr (jobs, fo), st1) /\
      Eos.utility jobs = [JobN t] /\
      function t = "apply_strain_to_structure" /\
      function_args t
      = [structure'; Eos.deformation_value (map deformation l)] /\
      length (map deformation l) = Z.to_nat (Eos.number_of_frames self) /\
      Forall2 scaled_unit l (map deformation l) /\
      equilibrium_jobs st self structure prev_dir eq_relax eq_static
                       structure' prev_dir' /\
      Eos.relax jobs = eq_relax ++ rs /\
      length eq_relax = equilibrium_points self /\
      length rs = Z.to_nat (Eos.number_of_frames self) /\
      Forall2 (frame_relax st self t prev_dir')
              (seq 0 (Z.to_nat (Eos.number_of_frames self))) rs.
Proof.
  intros num NumOps self structure prev_dir st HN.
  destruct (aggregate_spec self structure prev_dir st) as
    (jobs & fo & st1 & Ea & Hagg); [lia|].
  destruct Hagg as (eq_relax & eq_static & s' & p' & l & t & rs & ss &
                    Hj & _ & Heq & Hs & Hlen & Ht & Hargs & Hrs & _).
  exists (fst (linspace (fst (Eos.linear_strain self))
                        (snd (Eos.linear_strain self))
                        (Z.to_nat (Eos.number_of_frames self)))),
    l, jobs, fo, st1, t, eq_relax, eq_static, s', p', rs.
  split; [reflexivity|].
  split; [rewrite linspace_closed_form by lia; reflexivity|].
  split; [exact Hs|]. split; [exact Hlen|].
  split.
  { intros Hcond. revert Hs. unfold Eos.strain_samples, Eos.np_linspace.
    destruct (Eos.number_of_frames self <? 0)%Z eqn:E; [lia|].
    destruct (linspace _ _ _) as [l0 delta]. cbn [fst] in *.
    destruct (Eos.initial_relax_maker self) as [irm|].
    - destruct Hcond as [Hc|Hc]; [discriminate|].
      rewrite perturb_no_zero by exact Hc. congruence.
    - congruence. }
  split; [exact Ea|]. split; [now rewrite Hj|].
  split; [exact Ht|]. split; [exact Hargs|].
  split; [now rewrite length_map|].
  split; [apply deformations_unit|].
  split; [exact Heq|]. split; [now rewrite Hj|].
  split.
  { unfold equilibrium_jobs, equilibrium_points in *.
    destruct (Eos.initial_relax_maker self) as [irm|].
    - destruct Heq as (raw & r0 & _ & _ & -> & _). reflexivity.
    - destruct Heq as (-> & _). reflexivity. }
  split; [|exact Hrs].
  apply Forall2_length in Hrs. now rewrite length_seq in Hrs.
Qed.

Lemma eos_linear_strain_samples_witness :
  exists l0 l jobs fo st1 t eq_relax eq_static structure' prev_dir' rs,
    fst (linspace lo_float hi_float 6) = l0 /\
    l0 = linear_samples lo_float hi_float 6 /\
    Eos.strain_samples (eos_maker None None lo_float hi_float 6 None false)
    = inr l /\
    length l = 6%nat /\
    (@None addr = None \/ Forall (fun x => zero_strain x = false) l0 ->
     l = l0) /\
    Eos.aggregate (eos_maker None None lo_float hi_float 6 None false)
                  silicon VNone start
    = (inr (jobs, fo), st1) /\
    Eos.utility jobs = [JobN t] /\
    function t = "apply_strain_to_structure" /\
    function_args t
    = [structure'; Eos.deformation_value (map deformation l)] /\
    length (map deformation l) = 6%nat /\
    Forall2 scaled_unit l (map deformation l) /\
    equilibrium_jobs start (eos_maker None None lo_float hi_float 6 None false)
                     silicon VNone eq_relax eq_static structure' prev_dir' /\
    Eos.relax jobs = eq_relax ++ rs /\
    length eq_relax = 0%nat /\
    length rs = 6%nat /\
    Forall2 (frame_relax start
               (eos_maker None None lo_float hi_float 6 None false)
               t prev_dir')
            (seq 0 6) rs.
Proof.
  exact (eos_linear_strain_samples float _
           (eos_maker None None lo_float hi_float 6 None false)
           silicon VNone start ltac:(cbn; lia)).
Defined.

(** The example of the specification: six frames over (-0.05, 0.05), no
    initial relaxation, no static Maker.  Six relax jobs, no static job, only
    the key "relax" in the output; the strains are -0.05, -0.03, -0.01,
    0.01, 0.03, 0.05 exactly in exact arithmetic, and the binary64 numbers
    nearest to what numpy computes. *)
Lemma eos_six_default_frames :
  (exists jobs fo st1 l,
     Eos.aggregate (eos_maker None None lo_exact hi_exact 6 None false)
                   silicon VNone start
     = (inr (jobs, fo), st1) /\
     length (Eos.relax jobs) = 6%nat /\ Eos.static jobs = [] /\
     map fst fo = ["relax"] /\
     Eos.strain_samples (eos_maker None None lo_exact hi_exact 6 None false)
     = inr l /\
     Forall2 exact_eq l
       [Fin (-5 # 100); Fin (-3 # 100); Fin (-1 # 100); Fin (1 # 100);
        Fin (3 # 100); Fin (5 # 100)]) /\
  Eos.strain_samples (eos_maker None None lo_float hi_float 6 None false)
  = inr [(-0.05)%float; (-0.030000000000000002)%float;
         (-0.010000000000000002)%float; 0.009999999999999995%float;
         0.03%float; 0.05%float].
Proof.
  split.
  - eexists _, _, _, _. split; [vm_compute; reflexivity|].
    split; [reflexivity|]. split; [reflexivity|]. split; [reflexivity|].
    split; [vm_compute; reflexivity|]. repeat constructor.
  - vm_compute. reflexivity.
Qed.

(* ===================================================================== *)
(** ** Further theorems: the Grueneisen builder *)
(* ===================================================================== *)

Import MoreProperties MoreFacts.

Local Close Scope Q_scope.

(** Step through [Gruneisen.make]: name each Maker call and split on each
    step that can raise. *)
Ltac gruneisen_steps :=
  repeat first
    [ run_maker; cbn
    | match goal with
      | |- context [Gruneisen.override_filenames ?b ?n] =>
          destruct (Gruneisen.override_filenames b n); cbn
      | |- context [Gruneisen.merge_keywords ?a ?b] =>
          destruct (Gruneisen.merge_keywords a b); cbn
      end ].

(** X1: [BaseGruneisenMaker.make] never writes to a Maker or to a
    dictionary a Maker refers to: whether it returns a flow or raises, every
    Maker object and every dictionary object in the store is what it was. *)
Theorem gruneisen_make_leaves_makers :
  forall (num : Type) (NumOps : Num num)
         (self : Gruneisen.BaseGruneisenMaker num)
         (structure : Value num) (st : State num),
    heap (snd (Gruneisen.make self structure st)) = heap st /\
    dicts (snd (Gruneisen.make self structure st)) = dicts st.
Proof.
  intros num NumOps self structure st.
  unfold Gruneisen.make.
  destruct (Gruneisen.bulk_relax_maker self) as [b|]; [|split; reflexivity].
  unfold bind, call_maker, new_job, ret, lift, raise; cbn.
  gruneisen_steps; try (split; reflexivity).
  all: unfold Gruneisen.phonon_body, bind, call_maker, lift, ret; cbn.
  all: gruneisen_steps; try (split; reflexivity).
  all: unfold Gruneisen.phonon_body, bind, call_maker, lift, ret; cbn.
  all: gruneisen_steps; split; reflexivity.
Qed.

(** X2: an extra keyword that repeats one of the seven keywords the builder
    passes by name makes the call of [compute_gruneisen_param] a TypeError:
    [make] raises it and returns no flow.  The error comes after every Maker
    has been called: the state it leaves is the state after the six Maker
    calls, with the uuids they took, and no job is made for the
    extraction. *)
Theorem gruneisen_repeated_keyword_raises :
  forall (num : Type) (NumOps : Num num)
         (self : Gruneisen.BaseGruneisenMaker num)
         (structure : Value num) (st : State num) (b : addr),
    Gruneisen.bulk_relax_maker self = Some b ->
    (forall wad s p u,
        Gruneisen.terminal_job
          (fst (maker_make (heap st (Gruneisen.phonon_maker self)) wad s p u))
        <> None) ->
    Exists (fun kv => In (fst kv) keyword_names)
           (Gruneisen.compute_gruneisen_param_kwargs self) ->
    exists k u_end,
      Gruneisen.make self structure st
      = (inl (TypeError k),
         {| next_uuid := u_end; heap := heap st; dicts := dicts st |}) /\
      all_makers_called self b structure st u_end /\
      In k keyword_names /\
      In k (map fst (Gruneisen.compute_gruneisen_param_kwargs self)).
Proof.
  intros num NumOps self structure st b Hb Hok Hkw.
  unfold Gruneisen.make. rewrite Hb.
  unfold bind, call_maker, new_job, ret, lift, raise; cbn.
  run_maker. cbn. run_maker. cbn. run_maker. cbn.
  unfold Gruneisen.phonon_body, bind, call_maker, lift, ret; cbn.
  run_maker. use_phonon Hok.
  run_maker. use_phonon Hok.
  run_maker. use_phonon Hok.
  match goal with
  | |- context [Gruneisen.merge_keywords
                  (Gruneisen.explicit_keywords ?s ?d1 ?d2 ?g) ?x] =>
      destruct (merge_keywords_repeat s d1 d2 g x Hkw)
        as (k & Em & Hname & Hextra)
  end.
  rewrite Em. eexists k, _. split; [reflexivity|].
  split; [|split; assumption].
  unfold all_makers_called. eexists _, _, _, _, _, _, _, _, _, _, _.
  repeat split; eassumption.
Qed.

Lemma gruneisen_repeated_keyword_raises_witness :
  exists k u_end,
    Gruneisen.make
      {| Gruneisen.name := "Gruneisen";
         Gruneisen.bulk_relax_maker := Some 0%nat;
         Gruneisen.code := VStr "vasp";
         Gruneisen.const_vol_relax_maker := 0%nat;
         Gruneisen.kpath_scheme := "seekpath";
         Gruneisen.phonon_maker := 2%nat;
         Gruneisen.perc_vol := 0.01%float;
         Gruneisen.mesh := VList [VInt 20; VInt 20; VInt 20];
         Gruneisen.compute_gruneisen_param_kwargs :=
           [("plot", VStr "yes"); ("mesh", VList [VInt 4; VInt 4; VInt 4])];
         Gruneisen.symprec := 0.0001%float |}
      silicon start
    = (inl (TypeError k),
       {| next_uuid := u_end; heap := heap start; dicts := dicts start |}) /\
    all_makers_called
      {| Gruneisen.name := "Gruneisen";
         Gruneisen.bulk_relax_maker := Some 0%nat;
         Gruneisen.code := VStr "vasp";
         Gruneisen.const_vol_relax_maker := 0%nat;
         Gruneisen.kpath_scheme := "seekpath";
         Gruneisen.phonon_maker := 2%nat;
         Gruneisen.perc_vol := 0.01%float;
         Gruneisen.mesh := VList [VInt 20; VInt 20; VInt 20];
         Gruneisen.compute_gruneisen_param_kwargs :=
           [("plot", VStr "yes"); ("mesh", VList [VInt 4; VInt 4; VInt 4])];
         Gruneisen.symprec := 0.0001%float |}
      0%nat silicon start u_end /\
    In k keyword_names /\
    In k ["plot"; "mesh"].
Proof.
  exact (gruneisen_repeated_keyword_raises float _
           {| Gruneisen.name := "Gruneisen";
              Gruneisen.bulk_relax_maker := Some 0%nat;
              Gruneisen.code := VStr "vasp";
              Gruneisen.const_vol_relax_maker := 0%nat;
              Gruneisen.kpath_scheme := "seekpath";
              Gruneisen.phonon_maker := 2%nat;
              Gruneisen.perc_vol := 0.01%float;
              Gruneisen.mesh := VList [VInt 20; VInt 20; VInt 20];
              Gruneisen.compute_gruneisen_param_kwargs :=
                [("plot", VStr "yes"); ("mesh", VList [VInt 4; VInt 4; VInt 4])];
              Gruneisen.symprec := 0.0001%float |}
           silicon start 0%nat eq_refl
           ltac:(intros; cbn; discriminate)
           ltac:(apply Exists_cons_tl, Exists_cons_hd; cbn; tauto)).
Defined.

(** X3: when the override of lines 148-154 goes through, the phonon flow is
    what the phonon Maker made except for the five file names of its last
    job: the flow's name, uuid, output and other jobs, and the last job's
    name, uuid, function, arguments and every other keyword are unchanged;
    the five file names are those of the branch, whatever was there
    before. *)
Theorem gruneisen_override_changes_file_names_only :
  forall (num : Type) (NumOps : Num num) (branch : string)
         (raw n : Node num),
    Gruneisen.override_filenames branch raw = inr n ->
    only_filenames_changed raw n /\
    node_output n = node_output raw /\
    exists j,
      Gruneisen.terminal_job n = Some j /\
      Forall (fun kv => dict_get (function_kwargs j) (fst kv) = Some (snd kv))
             (Gruneisen.filename_overrides branch).
Proof.
  intros num NumOps branch raw n E.
  destruct raw as [j|nm u js o]; [discriminate|].
  cbn [Gruneisen.override_filenames] in E.
  destruct (Gruneisen.on_last _ js) as [e|js'] eqn:Eo; [discriminate|].
  injection E as <-.
  destruct (on_last_update_inv _ _ _ Eo) as (l & j & -> & ->).
  split; [|split; [reflexivity|]].
  - eexists nm, u, l, j, _, o. repeat (split; [reflexivity|]).
    intros k Hk. cbn [function_kwargs]. apply dict_update_other. exact Hk.
  - eexists. split.
    + cbn [Gruneisen.terminal_job]. rewrite last_last.
      destruct l; reflexivity.
    + cbn [function_kwargs]. apply filenames_set.
Qed.

Lemma gruneisen_override_changes_file_names_only_witness :
  only_filenames_changed
    (fst (maker_make (phonon_flow_maker (num := float)) None silicon VNone 7))
    (FlowN "phonon" 7
       [ JobN {| job_name := "generate_phonon_displacements"; job_uuid := 8;
                 function := "generate_phonon_displacements";
                 function_args := [silicon]; function_kwargs := [] |};
         JobN {| job_name := "generate_frequencies_eigenvectors";
                 job_uuid := 9;
                 function := "generate_frequencies_eigenvectors";
                 function_args := [VRef (OutRef 8)];
                 function_kwargs := Gruneisen.filename_overrides "plus" |} ]
       (OutRef 9)) /\
  node_output
    (FlowN (num := float) "phonon" 7
       [ JobN {| job_name := "generate_phonon_displacements"; job_uuid := 8;
                 function := "generate_phonon_displacements";
                 function_args := [silicon]; function_kwargs := [] |};
         JobN {| job_name := "generate_frequencies_eigenvectors";
                 job_uuid := 9;
                 function := "generate_frequencies_eigenvectors";
                 function_args := [VRef (OutRef 8)];
                 function_kwargs := Gruneisen.filename_overrides "plus" |} ]
       (OutRef 9))
  = node_output
      (fst (maker_make (phonon_flow_maker (num := float)) None silicon VNone 7)) /\
  exists j,
    Gruneisen.terminal_job
      (FlowN (num := float) "phonon" 7
         [ JobN {| job_name := "generate_phonon_displacements"; job_uuid := 8;
                   function := "generate_phonon_displacements";
                   function_args := [silicon]; function_kwargs := [] |};
           JobN {| job_name := "generate_frequencies_eigenvectors";
                   job_uuid := 9;
                   function := "generate_frequencies_eigenvectors";
                   function_args := [VRef (OutRef 8)];
                   function_kwargs := Gruneisen.filename_overrides "plus" |} ]
         (OutRef 9))
    = Some j /\
    Forall (fun kv => dict_get (function_kwargs j) (fst kv) = Some (snd kv))
           (Gruneisen.filename_overrides "plus").
Proof.
  exact (gruneisen_override_changes_file_names_only float _ "plus"
           (fst (maker_make phonon_flow_maker None silicon VNone 7))
           _ eq_refl).
Defined.

(** X4: in the flow of eight jobs, the extraction job is called with
    keywords only: the code tag, the k-path scheme, the mesh, the output
    directory and the imaginary-mode flag of each branch taken from that
    branch's phonon run, the output structure of the bulk relaxation as the
    ground structure, the symmetry tolerance, and then the extra
    keywords. *)
Theorem gruneisen_extraction_inputs :
  forall (num : Type) (NumOps : Num num)
         (self : Gruneisen.BaseGruneisenMaker num)
         (structure : Value num) (st : State num) (b : addr),
    Gruneisen.bulk_relax_maker self = Some b ->
    (forall wad s p u,
        Gruneisen.terminal_job
          (fst (maker_make (heap st (Gruneisen.phonon_maker self)) wad s p u))
        <> None) ->
    Forall (fun kv => ~ In (fst kv) keyword_names)
           (Gruneisen.compute_gruneisen_param_kwargs self) ->
    exists bulk sd cvp cvm pg pp pm gg st',
      Gruneisen.make self structure st
      = (inr {| flow_name := "Flow";
                flow_jobs := [bulk; JobN sd; cvp; cvm; pg; pp; pm; JobN gg];
                flow_output := VRef (OutRef (job_uuid gg)) |}, st') /\
      function_args gg = [] /\
      function_kwargs gg
      = extraction_keywords self pg pp pm
          (VRef (Attr (node_output bulk) "structure")) /\
      function_args sd = [].
Proof.
  intros num NumOps self structure st b Hb Hok Hkw.
  unfold Gruneisen.make. rewrite Hb.
  unfold bind, call_maker, new_job, ret, lift, raise; cbn.
  run_maker. cbn. run_maker. cbn. run_maker. cbn.
  unfold Gruneisen.phonon_body, bind, call_maker, lift, ret; cbn.
  run_maker. use_phonon Hok.
  run_maker. use_phonon Hok.
  run_maker. use_phonon Hok.
  rewrite merge_keywords_ok by exact Hkw. cbn.
  match goal with
  | |- context [ [?a; JobN ?sd; ?c; ?d; ?e; ?f; ?g; JobN ?gg] ] =>
      exists a, sd, c, d, e, f, g, gg
  end.
  eexists. split; [reflexivity|]. cbn.
  unfold extraction_keywords. rewrite Hout, Hout0, Hout1.
  repeat split; reflexivity.
Qed.

Lemma gruneisen_extraction_inputs_witness :
  exists bulk sd cvp cvm pg pp pm gg st',
    Gruneisen.make
      {| Gruneisen.name := "Gruneisen";
         Gruneisen.bulk_relax_maker := Some 0%nat;
         Gruneisen.code := VStr "vasp";
         Gruneisen.const_vol_relax_maker := 0%nat;
         Gruneisen.kpath_scheme := "seekpath";
         Gruneisen.phonon_maker := 2%nat;
         Gruneisen.perc_vol := 0.01%float;
         Gruneisen.mesh := VList [VInt 20; VInt 20; VInt 20];
         Gruneisen.compute_gruneisen_param_kwargs := [("plot", VStr "yes")];
         Gruneisen.symprec := 0.0001%float |}
      silicon start
    = (inr {| flow_name := "Flow";
              flow_jobs := [bulk; JobN sd; cvp; cvm; pg; pp; pm; JobN gg];
              flow_output := VRef (OutRef (job_uuid gg)) |}, st') /\
    function_args gg = [] /\
    function_kwargs gg
    = extraction_keywords
        {| Gruneisen.name := "Gruneisen";
           Gruneisen.bulk_relax_maker := Some 0%nat;
           Gruneisen.code := VStr "vasp";
           Gruneisen.const_vol_relax_maker := 0%nat;
           Gruneisen.kpath_scheme := "seekpath";
           Gruneisen.phonon_maker := 2%nat;
           Gruneisen.perc_vol := 0.01%float;
           Gruneisen.mesh := VList [VInt 20; VInt 20; VInt 20];
           Gruneisen.compute_gruneisen_param_kwargs := [("plot", VStr "yes")];
           Gruneisen.symprec := 0.0001%float |}
        pg pp pm (VRef (Attr (node_output bulk) "structure")) /\
    function_args sd = [].
Proof.
  exact (gruneisen_extraction_inputs float _
           {| Gruneisen.name := "Gruneisen";
              Gruneisen.bulk_relax_maker := Some 0%nat;
              Gruneisen.code := VStr "vasp";
              Gruneisen.const_vol_relax_maker := 0%nat;
              Gruneisen.kpath_scheme := "seekpath";
              Gruneisen.phonon_maker := 2%nat;
              Gruneisen.perc_vol := 0.01%float;
              Gruneisen.mesh := VList [VInt 20; VInt 20; VInt 20];
              Gruneisen.compute_gruneisen_param_kwargs := [("plot", VStr "yes")];
              Gruneisen.symprec := 0.0001%float |}
           silicon start 0%nat eq_refl
           ltac:(intros; cbn; discriminate)
           ltac:(repeat constructor; cbn; intuition discriminate)).
Defined.

(* ===================================================================== *)
(** ** Further theorems: the EOS builder *)
(* ===================================================================== *)

Import MoreEosFacts.

(** X5: a negative [number_of_frames] is refused by [numpy.linspace]:
    [make] raises its ValueError, with numpy's message, and returns no
    flow; no Maker object and no dictionary a Maker refers to has
    changed. *)
Theorem eos_negative_frame_count_raises :
  forall (num : Type) (NumOps : Num num) (self : Eos.CommonEosMaker num)
         (structure prev_dir : Value num) (st : State num),
    (Eos.number_of_frames self < 0)%Z ->
    exists st',
      Eos.make self structure prev_dir st
      = (inl (ValueError
                (negative_count_message (Eos.number_of_frames self))), st') /\
      heap st' = heap st /\ dicts st' = dicts st.
Proof.
  intros num NumOps self structure prev_dir st HN.
  now apply make_negative.
Qed.

Lemma eos_negative_frame_count_raises_witness :
  exists st',
    Eos.make (eos_maker (Some 0%nat) (Some 1%nat) lo_float hi_float (-1)
                        (Some (energy_fit 2)) true)
             silicon VNone start
    = (inl (ValueError "Number of samples, -1, must be non-negative."), st') /\
    heap st' = heap (start (num := float)) /\
    dicts st' = dicts (start (num := float)).
Proof.
  exact (eos_negative_frame_count_raises float _
           (eos_maker (Some 0%nat) (Some 1%nat) lo_float hi_float (-1)
                      (Some (energy_fit 2)) true)
           silicon VNone start ltac:(cbn; lia)).
Defined.

(** X6: with [_store_transformation_information] set, at least one frame and
    an [eos_relax_maker] that has [write_additional_data] (holding [d]),
    [make] leaves in that Maker the data [d] with the transformation of the
    LAST frame under "transformations:json", whether it then returns a flow
    or raises for too few points: the entry outlives the call. *)
Theorem eos_stored_transformation_is_last_frame :
  forall (num : Type) (NumOps : Num num) (self : Eos.CommonEosMaker num)
         (structure prev_dir : Value num) (st : State num) (d : Dict num),
    (0 < Eos.number_of_frames self)%Z ->
    Eos._store_transformation_information self = true ->
    additional_data st (Eos.eos_relax_maker self) = Some d ->
    exists jobs fo st1 t,
      Eos.aggregate self structure prev_dir st = (inr (jobs, fo), st1) /\
      Eos.utility jobs = [JobN t] /\
      function t = "apply_strain_to_structure" /\
      additional_data (snd (Eos.make self structure prev_dir st))
                      (Eos.eos_relax_maker self)
      = Some (dict_set d "transformations:json"
                (VRef (Index (OutRef (job_uuid t))
                             (Z.to_nat (Eos.number_of_frames self) - 1)))).
Proof.
  intros num NumOps self structure prev_dir st d HN Hflag Hw.
  destruct (make_store self structure prev_dir st d) as
    (jobs & fo & st1 & eq_relax & eq_static & s' & p' & t & rs &
     Ea & _ & _ & _ & Hu & Ht & _ & Hlast); [lia | assumption | assumption |].
  exists jobs, fo, st1, t. repeat (split; [assumption|]).
  apply Hlast, HN.
Qed.

Lemma eos_stored_transformation_is_last_frame_witness :
  exists jobs fo st1 t,
    Eos.aggregate (eos_maker (Some 0%nat) (Some 1%nat) lo_float hi_float 3
                             (Some (energy_fit 7)) true)
                  silicon VNone start
    = (inr (jobs, fo), st1) /\
    Eos.utility jobs = [JobN t] /\
    function t = "apply_strain_to_structure" /\
    additional_data
      (snd (Eos.make (eos_maker (Some 0%nat) (Some 1%nat) lo_float
                                hi_float 3 (Some (energy_fit 7)) true)
                     silicon VNone start)) 0%nat
    = Some (dict_set [] "transformations:json"
              (VRef (Index (OutRef (job_uuid t)) 2))).
Proof.
  exact (eos_stored_transformation_is_last_frame float _
           (eos_maker (Some 0%nat) (Some 1%nat) lo_float hi_float 3
                      (Some (energy_fit 7)) true)
           silicon VNone start [] ltac:(cbn; lia) eq_refl eq_refl).
Defined.

(** X7: with [_store_transformation_information] set and an
    [eos_relax_maker] that has [write_additional_data] (holding [d]), the
    relaxation of every frame [i] is made while the Maker holds [d] with the
    transformation of THAT frame under "transformations:json", so each
    frame's job sees its own transformation; the equilibrium jobs come
    before and see [d] as it was. *)
Theorem eos_frames_made_with_own_transformation :
  forall (num : Type) (NumOps : Num num) (self : Eos.CommonEosMaker num)
         (structure prev_dir : Value num) (st : State num) (d : Dict num),
    (0 <= Eos.number_of_frames self)%Z ->
    Eos._store_transformation_information self = true ->
    additional_data st (Eos.eos_relax_maker self) = Some d ->
    exists jobs fo st1 eq_relax eq_static structure' prev_dir' t rs,
      Eos.aggregate self structure prev_dir st = (inr (jobs, fo), st1) /\
      Eos.make self structure prev_dir st = Eos.finish self jobs fo st1 /\
      equilibrium_jobs st self structure prev_dir eq_relax eq_static
                       structure' prev_dir' /\
      Eos.relax jobs = eq_relax ++ rs /\
      Eos.utility jobs = [JobN t] /\
      Forall2 (frame_relax_with_data st self d t prev_dir')
              (seq 0 (Z.to_nat (Eos.number_of_frames self))) rs.
Proof.
  intros num NumOps self structure prev_dir st d HN Hflag Hw.
  destruct (make_store self structure prev_dir st d HN Hflag Hw) as
    (jobs & fo & st1 & eq_relax & eq_static & s' & p' & t & rs &
     Ea & Em & Heq & Hr & Hu & _ & Hrs & _).
  exists jobs, fo, st1, eq_relax, eq_static, s', p', t, rs.
  repeat (split; [assumption|]). exact Hrs.
Qed.

Lemma eos_frames_made_with_own_transformation_witness :
  exists jobs fo st1 eq_relax eq_static structure' prev_dir' t rs,
    Eos.aggregate (eos_maker None None lo_float hi_float 2 None true)
                  silicon VNone start
    = (inr (jobs, fo), st1) /\
    Eos.make (eos_maker None None lo_float hi_float 2 None true)
             silicon VNone start
    = Eos.finish (eos_maker None None lo_float hi_float 2 None true)
                 jobs fo st1 /\
    equilibrium_jobs start (eos_maker None None lo_float hi_float 2 None true)
                     silicon VNone eq_relax eq_static structure' prev_dir' /\
    Eos.relax jobs = eq_relax ++ rs /\
    Eos.utility jobs = [JobN t] /\
    Forall2 (frame_relax_with_data
               start (eos_maker None None lo_float hi_float 2 None true)
               [] t prev_dir')
            [0%nat; 1%nat] rs.
Proof.
  exact (eos_frames_made_with_own_transformation float _
           (eos_maker None None lo_float hi_float 2 None true)
           silicon VNone start [] ltac:(cbn; lia) eq_refl eq_refl).
Defined.

(** X8: when the [eos_relax_maker] has no [write_additional_data], the
    write of lines 147-155 fails silently (the exception is suppressed):
    whatever the flag and the frame count, and whether [make] returns or
    raises, every Maker object and every dictionary a Maker refers to is
    what it was. *)
Theorem eos_maker_without_attribute_untouched :
  forall (num : Type) (NumOps : Num num) (self : Eos.CommonEosMaker num)
         (structure prev_dir : Value num) (st : State num),
    write_additional_data (heap st (Eos.eos_relax_maker self)) = None ->
    heap (snd (Eos.make self structure prev_dir st)) = heap st /\
    dicts (snd (Eos.make self structure prev_dir st)) = dicts st.
Proof.
  intros num NumOps self structure prev_dir st Hw.
  split; [apply make_heap | apply make_without_store; auto].
Qed.

Lemma eos_maker_without_attribute_untouched_witness :
  heap (snd (Eos.make
               {| Eos.name := "EOS Maker";
                  Eos.initial_relax_maker := Some 0%nat;
                  Eos.eos_relax_maker := 2%nat;
                  Eos.static_maker := Some 1%nat;
                  Eos.linear_strain := (lo_float, hi_float);
                  Eos.number_of_frames := 4;
                  Eos.postprocessor := None;
                  Eos._store_transformation_information := true |}
               silicon VNone start))
  = heap (start (num := float)) /\
  dicts (snd (Eos.make
                {| Eos.name := "EOS Maker";
                   Eos.initial_relax_maker := Some 0%nat;
                   Eos.eos_relax_maker := 2%nat;
                   Eos.static_maker := Some 1%nat;
                   Eos.linear_strain := (lo_float, hi_float);
                   Eos.number_of_frames := 4;
                   Eos.postprocessor := None;
                   Eos._store_transformation_information := true |}
                silicon VNone start))
  = dicts (start (num := float)).
Proof.
  exact (eos_maker_without_attribute_untouched float _
           {| Eos.name := "EOS Maker";
              Eos.initial_relax_maker := Some 0%nat;
              Eos.eos_relax_maker := 2%nat;
              Eos.static_maker := Some 1%nat;
              Eos.linear_strain := (lo_float, hi_float);
              Eos.number_of_frames := 4;
              Eos.postprocessor := None;
              Eos._store_transformation_information := true |}
           silicon VNone start eq_refl).
Defined.

(** X9: the builder only renames what the Makers return: every relax and
    static job of the flow, equilibrium or frame, is the job or flow some
    Maker of the store made, with the same uuids, functions, arguments and
    output; nothing but names differs (the names set in lines 96-103, 116,
    160-167 and 175). *)
Theorem eos_jobs_only_renamed :
  forall (num : Type) (NumOps : Num num) (self : Eos.CommonEosMaker num)
         (structure prev_dir : Value num) (st : State num),
    (0 <= Eos.number_of_frames self)%Z ->
    exists jobs fo st1,
      Eos.aggregate self structure prev_dir st = (inr (jobs, fo), st1) /\
      Eos.make self structure prev_dir st = Eos.finish self jobs fo st1 /\
      Forall (made_and_renamed st) (Eos.relax jobs) /\
      Forall (made_and_renamed st) (Eos.static jobs).
Proof.
  intros num NumOps self structure prev_dir st HN.
  destruct (make_spec self structure prev_dir st HN)
    as (jobs & fo & st1 & Ea & Em & Hagg).
  exists jobs, fo, st1. split; [exact Ea|]. split; [exact Em|].
  exact (aggregation_renamed _ _ _ _ _ _ _ Hagg).
Qed.

Lemma eos_jobs_only_renamed_witness :
  exists jobs fo st1,
    Eos.aggregate (eos_maker (Some 2%nat) (Some 1%nat) lo_float hi_float 3
                             None false)
                  silicon VNone start
    = (inr (jobs, fo), st1) /\
    Eos.make (eos_maker (Some 2%nat) (Some 1%nat) lo_float hi_float 3
                        None false)
             silicon VNone start
    = Eos.finish (eos_maker (Some 2%nat) (Some 1%nat) lo_float hi_float 3
                            None false) jobs fo st1 /\
    Forall (made_and_renamed start) (Eos.relax jobs) /\
    Forall (made_and_renamed start) (Eos.static jobs).
Proof.
  exact (eos_jobs_only_renamed float _
           (eos_maker (Some 2%nat) (Some 1%nat) lo_float hi_float 3 None false)
           silicon VNone start ltac:(cbn; lia)).
Defined.

(** X10: the size of the flow: with [N >= 0] frames and enough points for
    the fit, the flow has [N] relax jobs, one more with an initial
    relaxation, as many static jobs when a static Maker is configured, the
    job that applies the strain, and the post-processing job when a
    post-processor is configured. *)
Theorem eos_job_count :
  forall (num : Type) (NumOps : Num num) (self : Eos.CommonEosMaker num)
         (structure prev_dir : Value num) (st : State num),
    (0 <= Eos.number_of_frames self)%Z ->
    enough_points self ->
    exists flow st',
      Eos.make self structure prev_dir st = (inr flow, st') /\
      length (flow_jobs flow) = job_count self.
Proof.
  intros num NumOps self structure prev_dir st HN Hen.
  destruct (make_spec self structure prev_dir st HN)
    as (jobs & fo & st1 & _ & -> & Hagg).
  pose proof (aggregation_relax_length _ _ _ _ _ _ _ Hagg) as [Hlr Hls].
  assert (Hu : length (Eos.utility jobs) = 1%nat).
  { destruct Hagg as (? & ? & ? & ? & ? & t & ? & ? & -> & _). reflexivity. }
  rewrite finish_spec. unfold enough_points in Hen. unfold job_count, fit_of.
  destruct (Eos.postprocessor self) as [pp|].
  - rewrite Hlr.
    replace (Z.of_nat (Z.to_nat (Eos.number_of_frames self)
                       + equilibrium_points self))
      with (data_points self) by (unfold data_points; lia).
    destruct (data_points self <? Eos.min_data_points pp)%Z eqn:E; [lia|].
    eexists _, _. split; [reflexivity|]. cbn [flow_jobs].
    rewrite !length_app, Hlr, Hls, Hu. cbn [length].
    destruct (Eos.static_maker self); lia.
  - eexists _, _. split; [reflexivity|]. cbn [flow_jobs].
    rewrite !length_app, Hlr, Hls, Hu.
    destruct (Eos.static_maker self); lia.
Qed.

Lemma eos_job_count_witness :
  exists flow st',
    Eos.make (eos_maker (Some 0%nat) (Some 1%nat) lo_float hi_float 6
                        (Some (energy_fit 2)) false)
             silicon VNone start
    = (inr flow, st') /\
    length (flow_jobs flow) = 16%nat.
Proof.
  exact (eos_job_count float _
           (eos_maker (Some 0%nat) (Some 1%nat) lo_float hi_float 6
                      (Some (energy_fit 2)) false)
           silicon VNone start ltac:(cbn; lia) ltac:(cbn; lia)).
Defined.

(* ===================================================================== *)
(** ** Further theorems: the strain samples at the edges *)
(* ===================================================================== *)

Import MoreStrainFacts.

(** X11: in any arithmetic (binary64 included) and for any frame count that
    is not negative, the perturbation of lines 130-137 touches only samples
    within 1e-15 of zero: every sample of [linspace] that is off zero is a
    strain of the flow, unchanged and in its place. *)
Theorem eos_samples_off_zero_kept :
  forall (num : Type) (NumOps : Num num) (self : Eos.CommonEosMaker num),
    (0 <= Eos.number_of_frames self)%Z ->
    exists l,
      Eos.strain_samples self = inr l /\
      Forall2 kept_off_zero
        (fst (linspace (fst (Eos.linear_strain self))
                       (snd (Eos.linear_strain self))
                       (Z.to_nat (Eos.number_of_frames self))))
        l.
Proof.
  intros num NumOps self HN. unfold Eos.strain_samples, Eos.np_linspace.
  destruct (Eos.number_of_frames self <? 0)%Z eqn:E; [lia|].
  destruct (linspace _ _ _) as [l0 delta]. cbn [fst].
  destruct (Eos.initial_relax_maker self); eexists; (split; [reflexivity|]);
    [apply perturb_kept | apply kept_refl].
Qed.

Lemma eos_samples_off_zero_kept_witness :
  exists l,
    Eos.strain_samples
      (eos_maker (Some 0%nat) None lo_float hi_float 5 None false) = inr l /\
    Forall2 kept_off_zero (fst (linspace lo_float hi_float 5)) l.
Proof.
  exact (eos_samples_off_zero_kept float _
           (eos_maker (Some 0%nat) None lo_float hi_float 5 None false)
           ltac:(cbn; lia)).
Defined.

(** X12: in any arithmetic (binary64 included), with two or more frames the
    last strain is [linear_strain[1]] itself, not a rounded sum of steps,
    provided no initial relaxation is configured or that end is off zero. *)
Theorem eos_last_sample_is_upper_strain :
  forall (num : Type) (NumOps : Num num) (self : Eos.CommonEosMaker num)
         (d : num),
    (2 <= Eos.number_of_frames self)%Z ->
    Eos.initial_relax_maker self = None \/
    zero_strain (snd (Eos.linear_strain self)) = false ->
    exists l,
      Eos.strain_samples self = inr l /\
      last l d = snd (Eos.linear_strain self).
Proof.
  intros num NumOps self d HN Hcase.
  unfold Eos.strain_samples, Eos.np_linspace.
  destruct (Eos.number_of_frames self <? 0)%Z eqn:E; [lia|].
  destruct (linspace_last (fst (Eos.linear_strain self))
              (snd (Eos.linear_strain self)) d
              (Z.to_nat (Eos.number_of_frames self))) as [Hlast Hne]; [lia|].
  destruct (linspace _ _ _) as [l0 delta]. cbn [fst] in *.
  destruct (Eos.initial_relax_maker self) as [irm|].
  - destruct Hcase as [Hnone|Hoff]; [discriminate|].
    eexists. split; [reflexivity|].
    pose proof (Forall2_last kept_off_zero _ _ d d
                  (perturb_kept l0 delta) Hne) as Hk.
    rewrite Hlast in Hk. now apply Hk.
  - eexists. split; [reflexivity | exact Hlast].
Qed.

Lemma eos_last_sample_is_upper_strain_witness :
  exists l,
    Eos.strain_samples
      (eos_maker (Some 0%nat) None lo_float hi_float 7 None false) = inr l /\
    last l PrimFloat.nan = 0.05%float.
Proof.
  exact (eos_last_sample_is_upper_strain float _
           (eos_maker (Some 0%nat) None lo_float hi_float 7 None false)
           PrimFloat.nan ltac:(cbn; lia) (or_intror eq_refl)).
Defined.

Local Open Scope Q_scope.

(** X13: one frame whose strain [linear_strain[0]] is within 1e-15 of zero,
    with an initial relaxation: the step of a single sample is nan, so the
    perturbation adds nan: the only strain is nan and the only deformation
    matrix is nan in all nine entries. *)
Theorem eos_single_frame_on_zero_is_nan :
  forall (self : Eos.CommonEosMaker exact) (a b : Q) (irm : addr),
    Eos.linear_strain self = (Fin a, Fin b) ->
    Eos.number_of_frames self = 1%Z ->
    Eos.initial_relax_maker self = Some irm ->
    zeroQ a = true ->
    Eos.strain_samples self = inr [NaN] /\
    map deformation [NaN]
    = [ [ [NaN; NaN; NaN]; [NaN; NaN; NaN]; [NaN; NaN; NaN] ] ].
Proof.
  intros self a b irm Hls HN Hirm Hz. split; [|reflexivity].
  unfold Eos.strain_samples, Eos.np_linspace. rewrite Hls, HN, Hirm.
  cbn [fst snd Z.ltb Z.compare].
  replace (linspace (Fin a) (Fin b) (Z.to_nat 1))
    with ([Fin (inject_Z 0 * (b - a) + a)], NaN) by reflexivity.
  unfold perturb_zero_strain. cbn [map existsb filter].
  rewrite zero_strain_Fin.
  assert (Hx : zeroQ (inject_Z 0 * (b - a) + a) = true).
  { rewrite <- Hz. apply zeroQ_wd. unfold inject_Z. ring. }
  rewrite Hx. cbn [orb length].
  match goal with
  | |- context [masked_add ?l ?s] =>
      replace s with [NaN] by reflexivity
  end.
  cbn [masked_add]. rewrite zero_strain_Fin, Hx. reflexivity.
Qed.

Lemma eos_single_frame_on_zero_is_nan_witness :
  Eos.strain_samples
    (eos_maker (Some 0%nat) None (Fin 0) (Fin (5 # 100)) 1 None false)
  = inr [NaN] /\
  map deformation [NaN]
  = [ [ [NaN; NaN; NaN]; [NaN; NaN; NaN]; [NaN; NaN; NaN] ] ].
Proof.
  exact (eos_single_frame_on_zero_is_nan
           (eos_maker (Some 0%nat) None (Fin 0) (Fin (5 # 100)) 1 None false)
           0 (5 # 100) 0%nat eq_refl eq_refl eq_refl eq_refl).
Defined.

(** X14: a strain range without width, [linear_strain[0] = linear_strain[1]]:
    for two or more frames every strain equals that value.  This holds with
    an initial relaxation too, also when the value is on zero: the step is
    zero, so the perturbation shifts by zero and every frame repeats the
    equilibrium volume. *)
Theorem eos_degenerate_range_stays_put :
  forall (self : Eos.CommonEosMaker exact) (a b : Q),
    Eos.linear_strain self = (Fin a, Fin b) ->
    (2 <= Eos.number_of_frames self)%Z ->
    a == b ->
    exists vs,
      Eos.strain_samples self = inr (map Fin vs) /\
      length vs = Z.to_nat (Eos.number_of_frames self) /\
      Forall (fun v => v == a) vs.
Proof.
  intros self a b Hls HN Hab.
  unfold Eos.strain_samples, Eos.np_linspace. rewrite Hls. cbn [fst snd].
  destruct (Eos.number_of_frames self <? 0)%Z eqn:E; [lia|].
  destruct (linspace_exact a b (Z.to_nat (Eos.number_of_frames self)))
    as (ys & -> & Hlen & Hsp); [lia|].
  assert (Hh : step_of a b (Z.to_nat (Eos.number_of_frames self)) == 0).
  { unfold step_of. rewrite Hab. unfold Qdiv. ring. }
  pose proof (spaced_constant _ a a _ Hh (Qeq_refl a) Hsp) as Hall.
  destruct (Eos.initial_relax_maker self) as [irm|].
  - destruct (perturb_constant a _ (ys ++ [b]) Hh) as (vs & -> & Hv & Hl);
      [lia | exact Hall |].
    exists vs. split; [reflexivity|]. split; [lia | exact Hv].
  - exists (ys ++ [b]). auto.
Qed.

Lemma eos_degenerate_range_stays_put_witness :
  exists vs,
    Eos.strain_samples
      (eos_maker (Some 0%nat) None (Fin 0) (Fin 0) 3 None false)
    = inr (map Fin vs) /\
    length vs = 3%nat /\
    Forall (fun v => v == 0) vs.
Proof.
  exact (eos_degenerate_range_stays_put
           (eos_maker (Some 0%nat) None (Fin 0) (Fin 0) 3 None false)
           0 0 eq_refl ltac:(cbn; lia) ltac:(reflexivity)).
Defined.

Local Close Scope Q_scope.

(* ===================================================================== *)
(** ** Further theorems: the settings loader *)
(* ===================================================================== *)

Import SettingsFacts.

(** X15: what [Settings.load_default_settings] returns is the content of the
    configuration file and nothing else.  The file is the one named by the
    value passed as CONFIG_FILE, or the default path when none is passed.
    If the file does not exist the result is the empty mapping; if loading
    raises, the validator raises the same; if it loads to a mapping (with
    distinct keys, as every Python dict has), the result is that mapping.
    The values passed in are not part of the result. *)
Theorem settings_result_is_file_content :
  forall (num : Type) (default : string) (fs : Settings.FileSystem num)
         (values : Dict num) (path : string),
    dict_get values "CONFIG_FILE" = Some (VStr path) \/
    (dict_get values "CONFIG_FILE" = None /\ path = default) ->
    match fs path with
    | Settings.Missing =>
        Settings.load_default_settings default fs values = inr []
    | Settings.Unreadable e =>
        Settings.load_default_settings default fs values = inl e
    | Settings.Loads d =>
        NoDup (map fst d) ->
        Settings.load_default_settings default fs values = inr d
    end.
Proof.
  intros num default fs values path Hpath.
  unfold Settings.load_default_settings.
  assert (Hsel : match dict_get values "CONFIG_FILE" with
                 | Some v => v
                 | None => VStr default
                 end = VStr path).
  { destruct Hpath as [-> | [-> ->]]; reflexivity. }
  rewrite Hsel. destruct (fs path) as [|e|d]; try reflexivity.
  intros Hnd. now rewrite (dict_update_fresh d []).
Qed.

Lemma settings_result_is_file_content_witness :
  Settings.load_default_settings (num := float) "/home/user/.atomate.json"
    (fun p => if String.eqb p "/etc/atomate.json"
              then Settings.Loads [("VASP_CMD", VStr "vasp_gpu")]
              else Settings.Missing)
    [ ("CONFIG_FILE", VStr "/etc/atomate.json");
      ("SCRATCH_DIR", VStr "/scratch") ]
  = inr [("VASP_CMD", VStr "vasp_gpu")].
Proof.
  exact (settings_result_is_file_content float "/home/user/.atomate.json"
           (fun p => if String.eqb p "/etc/atomate.json"
                     then Settings.Loads [("VASP_CMD", VStr "vasp_gpu")]
                     else Settings.Missing)
           [ ("CONFIG_FILE", VStr "/etc/atomate.json");
             ("SCRATCH_DIR", VStr "/scratch") ]
           "/etc/atomate.json" (or_introl eq_refl)
           ltac:(cbn; repeat constructor; cbn; tauto)).
Defined.
